(** * Resume and cover-letter renderers: a shallow embedding

    This development embeds the two command line programs of the
    repository, [transfer.py] (resume) and [transferCL.py] (cover letter),
    and proves properties of the block sequences they hand to the page
    layout engine and of their effect on the file system.

    What is embedded from the source, function by function:
    - [transfer.py]: [register_family], [make_styles], [join_contact_line],
      [bullet_list], [render_key_value_lines], [render_section_title],
      [table_line], [build_pdf], [main];
    - [transferCL.py]: [json_to_pdf] and its command line entry.

    What is environment (Python's standard library and ReportLab) and is
    modelled by its documented behaviour: JSON decoding, [dict.get],
    subscripting, truthiness, [str.strip], [str.join], iteration,
    [os.path.dirname], [os.makedirs], opening a file, [date.today] and
    [strftime].  The layout engine itself ([SimpleDocTemplate.build]) is
    abstract: a written PDF is recorded as the page geometry and the block
    sequence that were handed to the engine. *)

From Stdlib Require Import String Ascii List ZArith QArith_base Lia Bool.
From Stdlib Require Import DecimalString.
From stdpp Require Import gmap strings list.

Local Open Scope string_scope.
Local Open Scope list_scope.
Local Open Scope Z_scope.

(** ** Python values

    The value [json.load] returns.  A string is a sequence of characters
    with code points below 256; an object keeps its items in insertion
    order, as a Python [dict] does.  Only integer numbers are modelled. *)

#[warnings="-register-all"]
Inductive json : Type :=
| JNull
| JBool (b : bool)
| JNum (n : Z)
| JStr (s : string)
| JArr (items : list json)
| JObj (fields : list (string * json)).

(** ** Exceptions and the result monad *)

Inductive error : Type :=
| FileNotFoundError
| IsADirectoryError
| NotADirectoryError
| FileExistsError
| JSONDecodeError
| TTFError
| KeyError (key : string)
| TypeError
| AttributeError
| Unmodelled.

Inductive result (A : Type) : Type :=
| Ok (a : A)
| Raise (e : error).
Arguments Ok {A} a.
Arguments Raise {A} e.

Definition rbind {A B} (m : result A) (k : A → result B) : result B :=
  match m with
  | Ok a => k a
  | Raise e => Raise e
  end.

Declare Scope py_scope.
Delimit Scope py_scope with py.
Notation "'let*' x ':=' m 'in' k" := (rbind m (fun x => k))
  (at level 10, x name, m at level 100, k at level 200) : py_scope.
Local Open Scope py_scope.

(** [for x in xs: ...] collecting one result per item; the first exception
    aborts the loop. *)
Fixpoint mapM {A B} (f : A → result B) (xs : list A) : result (list B) :=
  match xs with
  | [] => Ok []
  | x :: xs' =>
      let* y := f x in
      let* ys := mapM f xs' in
      Ok (y :: ys)
  end.

(** ** The Python operations the programs use *)

Module Py.

(** [bool(v)], as used by [if v:] and [v or d]. *)
Definition truthy (v : json) : bool :=
  match v with
  | JNull => false
  | JBool b => b
  | JNum n => negb (n =? 0)
  | JStr s => negb (String.eqb s "")
  | JArr items => match items with [] => false | _ => true end
  | JObj fields => match fields with [] => false | _ => true end
  end.

(** [a or b] *)
Definition or_ (a b : json) : json := if truthy a then a else b.

(** Lookup in an insertion-ordered dict. *)
Fixpoint assoc (k : string) (fields : list (string * json)) : option json :=
  match fields with
  | [] => None
  | (k', v) :: rest => if String.eqb k k' then Some v else assoc k rest
  end.

(** [d.get(k, default)]: only a dict has the method. *)
Definition get (d : json) (k : string) (default : json) : result json :=
  match d with
  | JObj fields =>
      Ok (match assoc k fields with Some v => v | None => default end)
  | _ => Raise AttributeError
  end.

(** [d[k]] with a string key. *)
Definition subscript (d : json) (k : string) : result json :=
  match d with
  | JObj fields =>
      match assoc k fields with
      | Some v => Ok v
      | None => Raise (KeyError k)
      end
  | _ => Raise TypeError
  end.

Fixpoint chars (s : string) : list json :=
  match s with
  | EmptyString => []
  | String c s' => JStr (String c EmptyString) :: chars s'
  end.

(** [iter(v)]: a list yields its items, a string its characters, a dict
    its keys; nothing else is iterable. *)
Definition iter (v : json) : result (list json) :=
  match v with
  | JArr items => Ok items
  | JStr s => Ok (chars s)
  | JObj fields => Ok (map (fun kv => JStr (fst kv)) fields)
  | _ => Raise TypeError
  end.

(** [d.items()] *)
Definition items (d : json) : result (list (string * json)) :=
  match d with
  | JObj fields => Ok fields
  | _ => Raise AttributeError
  end.

(** [str.isspace] on one character, for code points below 256. *)
Definition isspace (c : ascii) : bool :=
  let n := nat_of_ascii c in
  ((9 <=? n) && (n <=? 13) || (28 <=? n) && (n <=? 32)
   || (n =? 133) || (n =? 160))%nat.

Fixpoint lstrip (s : string) : string :=
  match s with
  | EmptyString => EmptyString
  | String c s' => if isspace c then lstrip s' else s
  end.

Fixpoint rstrip (s : string) : string :=
  match s with
  | EmptyString => EmptyString
  | String c s' =>
      match rstrip s' with
      | EmptyString => if isspace c then EmptyString else String c EmptyString
      | r => String c r
      end
  end.

(** [s.strip()] *)
Definition strip (s : string) : string := rstrip (lstrip s).

(** [sep.join(parts)] on strings. *)
Fixpoint join (sep : string) (parts : list string) : string :=
  match parts with
  | [] => ""
  | [p] => p
  | p :: rest => p +:+ sep +:+ join sep rest
  end.

Definition as_str (v : json) : result string :=
  match v with
  | JStr s => Ok s
  | _ => Raise TypeError
  end.

(** [sep.join(v)]: [v] must be iterable and every item a string. *)
Definition join_values (sep : string) (vs : list json) : result string :=
  let* parts := mapM as_str vs in
  Ok (join sep parts).

Definition join_iter (sep : string) (v : json) : result string :=
  let* vs := iter v in
  join_values sep vs.

(** [str(v)] as used by an f-string replacement field and by [str(b)].
    The [repr] of a list or dict is outside the model. *)
Definition str (v : json) : result string :=
  match v with
  | JNull => Ok "None"
  | JBool true => Ok "True"
  | JBool false => Ok "False"
  | JNum n => Ok (NilZero.string_of_int (Z.to_int n))
  | JStr s => Ok s
  | JArr _ | JObj _ => Raise Unmodelled
  end.

End Py.

(** ** Blocks: what the layout builder hands to the engine *)

Inductive alignment : Type := TA_LEFT | TA_CENTER | TA_RIGHT | TA_JUSTIFY.

(** The attributes of a ReportLab [ParagraphStyle] the programs set; the
    others keep the library's defaults and are left out. *)
Record ParagraphStyle : Type := {
  style_name : string;
  fontName : string;
  fontSize : Z;
  leading : Z;
  align : alignment;
  spaceBefore : Z;
  spaceAfter : Z;
  leftIndent : Z;
  firstLineIndent : Z;
  textColor : string
}.

Record paragraph : Type := { text : string; style : ParagraphStyle }.

(** A cell value of a [TableStyle] command. *)
Inductive tvalue : Type := TStr (s : string) | TNum (n : Z).

Record table : Type := {
  cells : list (list paragraph);
  colWidths : list Q;
  hAlign : string;
  commands : list (string * (Z * Z) * (Z * Z) * tvalue)
}.

(** [None] for an argument the call leaves to the library's default. *)
Record list_flowable : Type := {
  items : list paragraph;
  bulletType : option string;
  leftPadding : option Z
}.

Inductive flowable : Type :=
| FParagraph (p : paragraph)
| FSpacer (w h : Q)
| FHRFlowable (width : string) (thickness : Q) (color : string)
| FTable (t : table)
| FListFlowable (l : list_flowable).

(** Lengths are points; [inch] is 72 points. *)
Definition inch : Q := 72 # 1.
Definition LETTER : Q * Q := (612 # 1, 792 # 1).

(** The arguments of [SimpleDocTemplate(...)] together with the story
    given to [build]: the whole input of the layout engine. *)
Record pdf : Type := {
  pagesize : Q * Q;
  leftMargin : Q;
  rightMargin : Q;
  topMargin : Q;
  bottomMargin : Q;
  story : list flowable
}.

(** [Paragraph(text, style)]: ReportLab splits the text into lines, which
    only a string supports. *)
Definition Paragraph (v : json) (st : ParagraphStyle) : result paragraph :=
  match v with
  | JStr s => Ok {| text := s; style := st |}
  | _ => Raise AttributeError
  end.

(** All paragraphs of a story, those inside tables and lists included, in
    reading order. *)
Definition paragraphs_of (f : flowable) : list paragraph :=
  match f with
  | FParagraph p => [p]
  | FTable t => concat (cells t)
  | FListFlowable l => items l
  | FSpacer _ _ | FHRFlowable _ _ _ => []
  end.

Definition all_paragraphs (st : list flowable) : list paragraph :=
  concat (map paragraphs_of st).

(** ** The file system and the clock

    A location is the list of directory names from the root.  The model
    has directories and regular files and no symbolic links.  A file is
    recorded by what its readers make of it. *)

Inductive content : Type :=
| JsonText (j : json)        (* text that [json.load] decodes to [j] *)
| Malformed                  (* text or bytes [json.load] rejects *)
| FontData                   (* a TrueType font *)
| PdfDoc (d : pdf).          (* a PDF written by the layout engine *)

Record filesystem : Type := {
  cwd : list string;
  dirs : gset (list string);
  files : gmap (list string) content
}.

Inductive kind : Type := Missing | Dir | File.

Module FS.

(** The root always exists. *)
Definition is_dir (fs : filesystem) (l : list string) : bool :=
  bool_decide (l = [] ∨ l ∈ dirs fs).

Definition kind_of (fs : filesystem) (l : list string) : kind :=
  if is_dir fs l then Dir
  else match files fs !! l with
       | Some _ => File
       | None => Missing
       end.

Definition parent (l : list string) : list string := removelast l.

(** [s.split("/")] *)
Fixpoint split_slash (s : string) : list string :=
  match s with
  | EmptyString => [""]
  | String c s' =>
      if Ascii.eqb c "/" then "" :: split_slash s'
      else match split_slash s' with
           | h :: t => String c h :: t
           | [] => [String c ""]
           end
  end.

Definition is_absolute (p : string) : bool :=
  match p with
  | String c _ => Ascii.eqb c "/"
  | EmptyString => false
  end.

(** Path resolution: every component is looked up in a directory that
    exists; the location reached by the last component may be missing. *)
Fixpoint walk (fs : filesystem) (cur : list string) (comps : list string)
  : result (list string) :=
  match comps with
  | [] => Ok cur
  | c :: rest =>
      match kind_of fs cur with
      | Dir =>
          if String.eqb c "" || String.eqb c "." then walk fs cur rest
          else if String.eqb c ".." then walk fs (parent cur) rest
          else walk fs (cur ++ [c]) rest
      | File => Raise NotADirectoryError
      | Missing => Raise FileNotFoundError
      end
  end.

Definition start (fs : filesystem) (p : string) : list string :=
  if is_absolute p then [] else cwd fs.

Definition resolve (fs : filesystem) (p : string) : result (list string) :=
  if String.eqb p "" then Raise FileNotFoundError
  else walk fs (start fs p) (split_slash p).

(** [open(p).read()] *)
Definition read (fs : filesystem) (p : string) : result content :=
  let* l := resolve fs p in
  match kind_of fs l with
  | Dir => Raise IsADirectoryError
  | Missing => Raise FileNotFoundError
  | File =>
      match files fs !! l with
      | Some c => Ok c
      | None => Raise FileNotFoundError
      end
  end.

(** [Path(p).exists()] *)
Definition exists_ (fs : filesystem) (p : string) : bool :=
  match resolve fs p with
  | Ok l => match kind_of fs l with Missing => false | _ => true end
  | Raise _ => false
  end.

Definition put (fs : filesystem) (l : list string) (c : content) : filesystem :=
  {| cwd := cwd fs; dirs := dirs fs; files := <[l := c]> (files fs) |}.

Definition mkdir (fs : filesystem) (l : list string) : filesystem :=
  {| cwd := cwd fs; dirs := {[ l ]} ∪ dirs fs; files := files fs |}.

(** [open(p, "wb")], write, close: the file is created in a directory
    that exists, or replaced. *)
Definition write (fs : filesystem) (p : string) (c : content)
  : result unit * filesystem :=
  match resolve fs p with
  | Raise e => (Raise e, fs)
  | Ok l =>
      match kind_of fs l with
      | Dir => (Raise IsADirectoryError, fs)
      | File => (Ok tt, put fs l c)
      | Missing =>
          match kind_of fs (parent l) with
          | Dir => (Ok tt, put fs l c)
          | File => (Raise NotADirectoryError, fs)
          | Missing => (Raise FileNotFoundError, fs)
          end
      end
  end.

(** The walk of [os.makedirs(name, exist_ok=True)]: a missing directory
    on the way is created, an existing one is entered, a regular file in
    the way is an error.  Directories created before the error stay. *)
Fixpoint mkwalk (fs : filesystem) (cur : list string) (comps : list string)
  : result unit * filesystem :=
  match comps with
  | [] => (Ok tt, fs)
  | c :: rest =>
      match kind_of fs cur with
      | Dir =>
          if String.eqb c "" || String.eqb c "." then mkwalk fs cur rest
          else if String.eqb c ".." then mkwalk fs (parent cur) rest
          else
            let child := (cur ++ [c])%list in
            match kind_of fs child with
            | Dir => mkwalk fs child rest
            | Missing => mkwalk (mkdir fs child) child rest
            | File =>
                match rest with
                | [] => (Raise FileExistsError, fs)
                | _ => (Raise NotADirectoryError, fs)
                end
            end
      | File => (Raise NotADirectoryError, fs)
      | Missing => (Raise FileNotFoundError, fs)
      end
  end.

(** [os.makedirs(name, exist_ok=True)]; the empty name is refused. *)
Definition makedirs (fs : filesystem) (name : string)
  : result unit * filesystem :=
  if String.eqb name "" then (Raise FileNotFoundError, fs)
  else mkwalk fs (start fs name) (split_slash name).

(** [p[:p.rfind("/") + 1]] *)
Fixpoint head_of (p : string) : string :=
  match p with
  | EmptyString => EmptyString
  | String c p' =>
      match head_of p' with
      | EmptyString => if Ascii.eqb c "/" then String c EmptyString else EmptyString
      | h => String c h
      end
  end.

(** [s.rstrip("/")] *)
Fixpoint rstrip_slash (s : string) : string :=
  match s with
  | EmptyString => EmptyString
  | String c s' =>
      match rstrip_slash s' with
      | EmptyString => if Ascii.eqb c "/" then EmptyString else String c EmptyString
      | r => String c r
      end
  end.

(** [os.path.dirname(p)]: a head made of slashes only is kept. *)
Definition dirname (p : string) : string :=
  let head := head_of p in
  match rstrip_slash head with
  | EmptyString => head
  | stripped => stripped
  end.

End FS.

(** ** The story under construction

    [build_pdf] and [json_to_pdf] grow one Python list, [story], by
    [append], [extend] and [+=]; an exception abandons it.  A builder is a
    computation over that list. *)

Definition builder (A : Type) : Type :=
  list flowable → result (A * list flowable).

Module Story.

Definition ret {A} (a : A) : builder A := fun st => Ok (a, st).

Definition bind {A B} (m : builder A) (k : A → builder B) : builder B :=
  fun st =>
    match m st with
    | Ok (a, st') => k a st'
    | Raise e => Raise e
    end.

(** An expression evaluated for its value; it does not touch the story. *)
Definition eval {A} (r : result A) : builder A :=
  fun st =>
    match r with
    | Ok a => Ok (a, st)
    | Raise e => Raise e
    end.

(** [story.append(f)] *)
Definition append (f : flowable) : builder unit :=
  fun st => Ok (tt, st ++ [f]).

(** [story += fs], [story.extend(fs)] *)
Definition extend (fs : list flowable) : builder unit :=
  fun st => Ok (tt, st ++ fs).

(** [if c: body] *)
Definition when (c : bool) (body : builder unit) : builder unit :=
  if c then body else ret tt.

(** [for x in xs: body] *)
Fixpoint for_each {A} (xs : list A) (body : A → builder unit) : builder unit :=
  match xs with
  | [] => ret tt
  | x :: xs' => bind (body x) (fun _ => for_each xs' body)
  end.

(** The story a builder leaves when started from [story = []]. *)
Definition run (m : builder unit) : result (list flowable) :=
  match m [] with
  | Ok (_, st) => Ok st
  | Raise e => Raise e
  end.

End Story.

Notation "'do*' x ':=' m 'in' k" := (Story.bind m (fun x => k))
  (at level 10, x name, m at level 100, k at level 200, only parsing) : py_scope.
Notation "m ;;; k" := (Story.bind m (fun _ => k))
  (at level 100, k at level 200, right associativity, only parsing) : py_scope.

(** ** Style sheets *)

Definition default_style (n : string) : ParagraphStyle :=
  {| style_name := n; fontName := "Helvetica"; fontSize := 10; leading := 12;
     align := TA_LEFT; spaceBefore := 0; spaceAfter := 0; leftIndent := 0;
     firstLineIndent := 0; textColor := "black" |}.

(** Keyword arguments of [ParagraphStyle(...)]: one attribute replaced. *)
Definition set_style_name (v : string) (s : ParagraphStyle) : ParagraphStyle :=
  {| style_name := v; fontName := fontName s; fontSize := fontSize s;
     leading := leading s; align := align s; spaceBefore := spaceBefore s;
     spaceAfter := spaceAfter s; leftIndent := leftIndent s;
     firstLineIndent := firstLineIndent s; textColor := textColor s |}.
Definition set_fontName (v : string) (s : ParagraphStyle) : ParagraphStyle :=
  {| style_name := style_name s; fontName := v; fontSize := fontSize s;
     leading := leading s; align := align s; spaceBefore := spaceBefore s;
     spaceAfter := spaceAfter s; leftIndent := leftIndent s;
     firstLineIndent := firstLineIndent s; textColor := textColor s |}.
Definition set_fontSize (v : Z) (s : ParagraphStyle) : ParagraphStyle :=
  {| style_name := style_name s; fontName := fontName s; fontSize := v;
     leading := leading s; align := align s; spaceBefore := spaceBefore s;
     spaceAfter := spaceAfter s; leftIndent := leftIndent s;
     firstLineIndent := firstLineIndent s; textColor := textColor s |}.
Definition set_leading (v : Z) (s : ParagraphStyle) : ParagraphStyle :=
  {| style_name := style_name s; fontName := fontName s;
     fontSize := fontSize s; leading := v; align := align s;
     spaceBefore := spaceBefore s; spaceAfter := spaceAfter s;
     leftIndent := leftIndent s; firstLineIndent := firstLineIndent s;
     textColor := textColor s |}.
Definition set_align (v : alignment) (s : ParagraphStyle) : ParagraphStyle :=
  {| style_name := style_name s; fontName := fontName s;
     fontSize := fontSize s; leading := leading s; align := v;
     spaceBefore := spaceBefore s; spaceAfter := spaceAfter s;
     leftIndent := leftIndent s; firstLineIndent := firstLineIndent s;
     textColor := textColor s |}.
Definition set_spaceBefore (v : Z) (s : ParagraphStyle) : ParagraphStyle :=
  {| style_name := style_name s; fontName := fontName s;
     fontSize := fontSize s; leading := leading s; align := align s;
     spaceBefore := v; spaceAfter := spaceAfter s;
     leftIndent := leftIndent s; firstLineIndent := firstLineIndent s;
     textColor := textColor s |}.
Definition set_spaceAfter (v : Z) (s : ParagraphStyle) : ParagraphStyle :=
  {| style_name := style_name s; fontName := fontName s;
     fontSize := fontSize s; leading := leading s; align := align s;
     spaceBefore := spaceBefore s; spaceAfter := v;
     leftIndent := leftIndent s; firstLineIndent := firstLineIndent s;
     textColor := textColor s |}.
Definition set_leftIndent (v : Z) (s : ParagraphStyle) : ParagraphStyle :=
  {| style_name := style_name s; fontName := fontName s;
     fontSize := fontSize s; leading := leading s; align := align s;
     spaceBefore := spaceBefore s; spaceAfter := spaceAfter s;
     leftIndent := v; firstLineIndent := firstLineIndent s;
     textColor := textColor s |}.
Definition set_firstLineIndent (v : Z) (s : ParagraphStyle) : ParagraphStyle :=
  {| style_name := style_name s; fontName := fontName s;
     fontSize := fontSize s; leading := leading s; align := align s;
     spaceBefore := spaceBefore s; spaceAfter := spaceAfter s;
     leftIndent := leftIndent s; firstLineIndent := v;
     textColor := textColor s |}.
Definition set_textColor (v : string) (s : ParagraphStyle) : ParagraphStyle :=
  {| style_name := style_name s; fontName := fontName s;
     fontSize := fontSize s; leading := leading s; align := align s;
     spaceBefore := spaceBefore s; spaceAfter := spaceAfter s;
     leftIndent := leftIndent s; firstLineIndent := firstLineIndent s;
     textColor := v |}.

(** [ParagraphStyle(name=n, parent=p, k1=v1, ...)]: the parent's
    attributes (the library's defaults without a parent), then the keyword
    arguments. *)
Definition new_style (n : string) (parent : option ParagraphStyle)
    (kw : list (ParagraphStyle → ParagraphStyle)) : ParagraphStyle :=
  fold_left (fun s f => f s) kw
    (set_style_name n (match parent with Some p => p | None => default_style n end)).

(** A [StyleSheet1]: the styles added by the program, after the names and
    aliases the sample sheet already holds (whose attributes no program
    reads). *)
Record StyleSheet : Type := {
  reserved : list string;
  byName : list (string * ParagraphStyle)
}.

Definition getSampleStyleSheet : StyleSheet :=
  {| reserved := ["Normal"; "BodyText"; "Italic"; "Heading1"; "Title";
                  "Heading2"; "Heading3"; "Heading4"; "Heading5"; "Heading6";
                  "Bullet"; "Definition"; "Code"; "UnorderedList";
                  "OrderedList"; "h1"; "title"; "h2"; "h3"; "h4"; "h5"; "h6";
                  "bu"; "df"; "ul"; "ol"];
     byName := [] |}.

Fixpoint style_assoc (k : string) (l : list (string * ParagraphStyle))
  : option ParagraphStyle :=
  match l with
  | [] => None
  | (k', v) :: rest => if String.eqb k k' then Some v else style_assoc k rest
  end.

(** [styles.add(st)]: a name already present is refused. *)
Definition add (st : ParagraphStyle) (sheet : StyleSheet) : result StyleSheet :=
  let n := style_name st in
  if existsb (String.eqb n) (reserved sheet) then Raise (KeyError n)
  else match style_assoc n (byName sheet) with
       | Some _ => Raise (KeyError n)
       | None => Ok {| reserved := reserved sheet;
                       byName := byName sheet ++ [(n, st)] |}
       end.

(** [styles[n]] *)
Definition style_at (sheet : StyleSheet) (n : string) : result ParagraphStyle :=
  match style_assoc n (byName sheet) with
  | Some st => Ok st
  | None =>
      if existsb (String.eqb n) (reserved sheet) then Raise Unmodelled
      else Raise (KeyError n)
  end.

(** A font family: a dict from role to registered font name. *)
Fixpoint font_assoc (k : string) (m : list (string * string)) : option string :=
  match m with
  | [] => None
  | (k', v) :: rest => if String.eqb k k' then Some v else font_assoc k rest
  end.

Definition font_at (m : list (string * string)) (k : string) : result string :=
  match font_assoc k m with
  | Some v => Ok v
  | None => Raise (KeyError k)
  end.

Definition dquote : string := String (ascii_of_nat 34) EmptyString.

(** ** transfer.py: the resume renderer *)

Record cli : Type := { json_path : string; out_path : string }.

Module Resume.

(** [default_files] of [register_family]. *)
Definition default_files : list (string * string) :=
  [("REG", "Inter_18pt-Regular.ttf"); ("BOLD", "Inter_18pt-Bold.ttf");
   ("ITALIC", "Inter_18pt-Italic.ttf");
   ("BOLDITALIC", "Inter_18pt-BoldItalic.ttf")].

(** [register_family(font_dir, family_name)]: every font file must exist
    and load; the result maps each role to its registered name. *)
Definition register_family (fs : filesystem) (font_dir family_name : string)
  : result (list (string * string)) :=
  let files := default_files in
  let reg (post_name fname_key : string) : result string :=
    let* fname := font_at files fname_key in
    let fpath := font_dir +:+ "/" +:+ fname in
    if negb (FS.exists_ fs fpath) then Raise FileNotFoundError
    else
      let* c := FS.read fs fpath in
      match c with
      | FontData => Ok post_name
      | _ => Raise TTFError
      end in
  let* reg_name := reg family_name "REG" in
  let* b_name := reg (family_name +:+ "-Bold") "BOLD" in
  let* i_name := reg (family_name +:+ "-Italic") "ITALIC" in
  let* bi_name := reg (family_name +:+ "-BoldItalic") "BOLDITALIC" in
  Ok [("REG", reg_name); ("BOLD", b_name); ("ITALIC", i_name);
      ("BOLDITALIC", bi_name)].

(** [doc = SimpleDocTemplate(...)] at module level keeps the library's
    default page (A4, 210 mm wide) and one-inch margins;
    [avail_width = doc.width] is the page width less the two margins. *)
Definition module_avail_width : Q := 57312 # 127.

Section Globals.

(** The module-level globals [family] and [avail_width]. *)
Variable family : list (string * string).
Variable avail_width : Q.

Definition make_styles : result StyleSheet :=
  let styles := getSampleStyleSheet in
  let* bold := font_at family "BOLD" in
  let* styles := add (new_style "Name" None
    [set_fontName bold; set_fontSize 20; set_leading 24;
     set_align TA_CENTER; set_spaceAfter 6]) styles in
  let* italic := font_at family "ITALIC" in
  let* styles := add (new_style "Contact" None
    [set_fontName italic; set_fontSize 9; set_leading 11;
     set_textColor "grey"; set_align TA_CENTER]) styles in
  let* bold := font_at family "BOLD" in
  let* styles := add (new_style "Section" None
    [set_fontName bold; set_fontSize 12; set_leading 14]) styles in
  let* reg := font_at family "REG" in
  let* styles := add (new_style "Body" None
    [set_fontName reg; set_fontSize 10; set_leading 13]) styles in
  let* italic := font_at family "ITALIC" in
  let* styles := add (new_style "Meta" None
    [set_fontName italic; set_fontSize 9; set_leading 11]) styles in
  let* body := style_at styles "Body" in
  let* bold := font_at family "BOLD" in
  let* styles := add (new_style "HeaderLine" (Some body)
    [set_fontName bold; set_fontSize 11; set_leading 13;
     set_align TA_LEFT]) styles in
  let* body := style_at styles "Body" in
  let* bold := font_at family "BOLD" in
  let* styles := add (new_style "LeftCell" (Some body)
    [set_align TA_LEFT; set_fontName bold; set_fontSize 10;
     set_leading 13]) styles in
  let* body := style_at styles "Body" in
  let* bold := font_at family "BOLD" in
  let* styles := add (new_style "RightCell" (Some body)
    [set_align TA_RIGHT; set_fontName bold; set_fontSize 10;
     set_leading 13]) styles in
  let* body := style_at styles "Body" in
  let* italic := font_at family "ITALIC" in
  let* styles := add (new_style "LeftCellR" (Some body)
    [set_align TA_LEFT; set_fontName italic; set_fontSize 9;
     set_leading 13]) styles in
  let* body := style_at styles "Body" in
  let* italic := font_at family "ITALIC" in
  let* styles := add (new_style "RightCellR" (Some body)
    [set_align TA_RIGHT; set_fontName italic; set_fontSize 9;
     set_leading 13]) styles in
  Ok styles.

(** The loop body of [join_contact_line]: [parts] grows by the value
    of each key that is present and truthy. *)
Fixpoint contact_parts (basics : json) (keys : list string)
    (parts : list json) : result (list json) :=
  match keys with
  | [] => Ok parts
  | key :: keys' =>
      let* v := Py.get basics key (JStr "") in
      contact_parts basics keys'
        (if Py.truthy v then parts ++ [v] else parts)
  end.

Definition join_contact_line (basics : json) : result string :=
  let* parts :=
    contact_parts basics ["email"; "phone"; "linkedin"; "github"] [] in
  Py.join_values " | " parts.

(** [b and str(b).strip()] as a condition.  The text of [None], of a
    boolean, of a number and of a list or dict is never blank. *)
Definition bullet_kept (b : json) : bool :=
  Py.truthy b &&
  match b with
  | JStr s => negb (String.eqb (Py.strip s) "")
  | _ => true
  end.

(** The list comprehension of [bullet_list]. *)
Fixpoint bullet_items (bs : list json) (st : ParagraphStyle)
  : result (list paragraph) :=
  match bs with
  | [] => Ok []
  | b :: bs' =>
      if bullet_kept b then
        let* p := Paragraph b st in
        let* ps := bullet_items bs' st in
        Ok (p :: ps)
      else bullet_items bs' st
  end.

Definition bullet_list (flowables : json) (st : ParagraphStyle)
  : result list_flowable :=
  let* bs := Py.iter flowables in
  let* its := bullet_items bs st in
  match its with
  | [] => Ok {| items := []; bulletType := None; leftPadding := None |}
  | _ => Ok {| items := its; bulletType := Some "bullet";
               leftPadding := Some 10 |}
  end.

(** The loop of [render_key_value_lines]. *)
Fixpoint key_value_elems (heavy : string) (line_style : ParagraphStyle)
    (kvs : list (string * json)) : result (list flowable) :=
  match kvs with
  | [] => Ok []
  | (cat, vals) :: kvs' =>
      let* joined := Py.join_iter ", " vals in
      let txt := "<font name=" +:+ dquote +:+ heavy +:+ dquote +:+ ">"
                 +:+ cat +:+ ":</font> " +:+ joined in
      let* p := Paragraph (JStr txt) line_style in
      let* rest := key_value_elems heavy line_style kvs' in
      Ok (FParagraph p :: rest)
  end.

Definition render_key_value_lines (data : json) (styles : StyleSheet)
    (fam : list (string * string)) (label_width font_size gap : Z)
  : result (list flowable) :=
  let* body := style_at styles "Body" in
  let* reg := font_at fam "REG" in
  let line_style := new_style "SkillLine" (Some body)
    [set_fontName reg; set_fontSize font_size;
     set_leading (font_size + 2); set_leftIndent label_width;
     set_firstLineIndent (- label_width); set_spaceAfter gap] in
  let* bold := font_at fam "BOLD" in
  let heavy := match font_assoc "HEAVY" fam with
               | Some h => h
               | None => bold
               end in
  let* kvs := Py.items data in
  key_value_elems heavy line_style kvs.

Definition render_section_title (title : string) (styles : StyleSheet)
  : result (list flowable) :=
  let* sec := style_at styles "Section" in
  let* p := Paragraph (JStr title) sec in
  Ok [FSpacer (1 # 1) (2 # 1); FParagraph p;
      FHRFlowable "100%" (1 # 2) "lightgrey"; FSpacer (1 # 1) (2 # 1)].

Definition table_line (left right : json) (styles : StyleSheet)
    (Bold : bool) : result table :=
  let* ls := style_at styles (if Bold then "LeftCell" else "LeftCellR") in
  let* role_p := Paragraph (Py.or_ left (JStr "")) ls in
  let* rs := style_at styles (if Bold then "RightCell" else "RightCellR") in
  let* date_p := Paragraph (Py.or_ right (JStr "")) rs in
  let w1 := Qmult (85 # 100) avail_width in
  let w2 := Qmult (40 # 100) avail_width in
  let* bold := font_at family "BOLD" in
  Ok {| cells := [[role_p; date_p]];
        colWidths := [w1; w2];
        hAlign := "LEFT";
        commands :=
          [("ALIGN", (0, 0), (0, 0), TStr "LEFT");
           ("ALIGN", (2, 0), (2, 0), TStr "RIGHT");
           ("FONTNAME", (0, 0), (2, 0), TStr bold);
           ("FONTSIZE", (0, 0), (2, 0), TNum 11);
           ("LEFTPADDING", (0, 0), (2, 0), TNum 0);
           ("RIGHTPADDING", (0, 0), (2, 0), TNum 0);
           ("TOPPADDING", (0, 0), (2, 0), TNum 0);
           ("BOTTOMPADDING", (0, 0), (2, 0), TNum 0)] |}.

(** Lines 177 to 248 of [build_pdf]: the story, from [story = []] up
    to the call of the layout engine. *)
Definition education_entry (styles : StyleSheet) (ed : json)
  : builder unit :=
  do* degree := Story.eval (Py.get ed "company" (JStr "")) in
  do* school := Story.eval (Py.get ed "role" (JStr "")) in
  do* location := Story.eval (Py.get ed "location" (JStr "")) in
  do* dates := Story.eval (Py.get ed "dates" (JStr "")) in
  do* top := Story.eval (table_line school dates styles true) in
  Story.append (FTable top) ;;;
  do* sub := Story.eval (table_line degree location styles false) in
  Story.append (FTable sub) ;;;
  Story.append (FSpacer (1 # 1) (1 # 1)).

Definition bullets_of (styles : StyleSheet) (e : json) : builder unit :=
  do* bullets := Story.eval (Py.get e "bullets" (JArr [])) in
  Story.when (Py.truthy bullets)
    (do* body := Story.eval (style_at styles "Body") in
     do* l := Story.eval (bullet_list bullets body) in
     Story.append (FListFlowable l)).

Definition experience_entry (styles : StyleSheet) (e : json)
  : builder unit :=
  do* role := Story.eval (Py.get e "role" (JStr "")) in
  do* date := Story.eval (Py.get e "dates" (JStr "")) in
  do* top := Story.eval (table_line role date styles true) in
  Story.append (FTable top) ;;;
  do* location := Story.eval (Py.get e "location" (JStr "")) in
  do* company := Story.eval (Py.get e "company" (JStr "")) in
  do* sub := Story.eval (table_line company location styles false) in
  Story.append (FTable sub) ;;;
  bullets_of styles e ;;;
  Story.append (FSpacer (1 # 1) (1 # 1)).

Definition project_entry (styles : StyleSheet) (p : json)
  : builder unit :=
  do* title := Story.eval (Py.get p "title" (JStr "")) in
  do* dates := Story.eval (Py.get p "dates" (JStr "")) in
  do* top := Story.eval (table_line title dates styles true) in
  Story.append (FTable top) ;;;
  bullets_of styles p ;;;
  Story.append (FSpacer (1 # 1) (1 # 1)).

(** [if xs: story += render_section_title(title, styles); for x in xs: ...] *)
Definition section (styles : StyleSheet) (title : string) (xs : json)
    (entry : StyleSheet → json → builder unit) : builder unit :=
  Story.when (Py.truthy xs)
    (do* heading := Story.eval (render_section_title title styles) in
     Story.extend heading ;;;
     do* entries := Story.eval (Py.iter xs) in
     Story.for_each entries (entry styles)).

Definition header (styles : StyleSheet) (resume : json) : builder unit :=
  do* basics := Story.eval (Py.get resume "basics" (JObj [])) in
  do* name := Story.eval (Py.get basics "name" (JStr "")) in
  do* contact_line := Story.eval (join_contact_line basics) in
  do* status := Story.eval (Py.get basics "status" (JStr "")) in
  Story.when (Py.truthy name)
    (do* st := Story.eval (style_at styles "Name") in
     do* p := Story.eval (Paragraph name st) in
     Story.append (FParagraph p)) ;;;
  Story.when (Py.truthy (JStr contact_line))
    (do* st := Story.eval (style_at styles "Contact") in
     do* p := Story.eval (Paragraph (JStr contact_line) st) in
     Story.append (FParagraph p) ;;;
     do* st := Story.eval (style_at styles "Contact") in
     do* p := Story.eval (Paragraph status st) in
     Story.append (FParagraph p)) ;;;
  Story.append (FSpacer (1 # 1) (1 # 1)).

Definition skills_section (styles : StyleSheet) (resume : json)
  : builder unit :=
  do* skills := Story.eval (Py.get resume "skills" (JObj [])) in
  Story.when (Py.truthy skills)
    (do* heading := Story.eval (render_section_title "Technical Skills" styles) in
     Story.extend heading ;;;
     do* data := Story.eval (Py.subscript resume "skills") in
     do* lines := Story.eval (render_key_value_lines data styles family 80 9 2) in
     Story.extend lines).

Definition build_story (resume : json) : builder unit :=
  do* styles := Story.eval make_styles in
  header styles resume ;;;
  do* edus := Story.eval (Py.get resume "education" (JArr [])) in
  section styles "Education" edus education_entry ;;;
  do* exps := Story.eval (Py.get resume "experience" (JArr [])) in
  section styles "Experience" exps experience_entry ;;;
  do* projs := Story.eval (Py.get resume "projects" (JArr [])) in
  section styles "Projects" projs project_entry ;;;
  skills_section styles resume.

(** [build_pdf(resume, out_path)]: the story, then the document
    template with its margins, then [doc.build(story)], which writes
    the file. *)
Definition build_pdf (resume : json) (out : string) (fs : filesystem)
  : result unit * filesystem :=
  match Story.run (build_story resume) with
  | Raise e => (Raise e, fs)
  | Ok st =>
      FS.write fs out
        (PdfDoc {| pagesize := LETTER;
                   leftMargin := Qmult (2 # 10) inch;
                   rightMargin := Qmult (2 # 10) inch;
                   topMargin := Qmult (1 # 10) inch;
                   bottomMargin := Qmult (1 # 10) inch;
                   story := st |})
  end.

(** [main()]: read and decode the JSON file, then build. *)
Definition main (args : cli) (fs : filesystem) : result unit * filesystem :=
  match FS.read fs (json_path args) with
  | Raise e => (Raise e, fs)
  | Ok (JsonText resume) => build_pdf resume (out_path args) fs
  | Ok _ => (Raise JSONDecodeError, fs)
  end.

End Globals.

(** Running [python transfer.py --json J --out O]: the module level
    registers the fonts and computes the width, then [main] runs. *)
Definition program (args : cli) (fs : filesystem) : result unit * filesystem :=
  match register_family fs "./font" "Inter" with
  | Raise e => (Raise e, fs)
  | Ok family => main family module_avail_width args fs
  end.

(** The family a successful registration returns. *)
Definition Inter : list (string * string) :=
  [("REG", "Inter"); ("BOLD", "Inter-Bold"); ("ITALIC", "Inter-Italic");
   ("BOLDITALIC", "Inter-BoldItalic")].

End Resume.

(** ** transferCL.py: the cover-letter renderer *)

Inductive month_name : Type :=
| January | February | March | April | May | June
| July | August | September | October | November | December.

Module CoverLetter.

(** [date.today()]: the one input of the program that is not in its
    arguments or in the file system. *)
Record date : Type := { year : Z; month : month_name; day : Z }.

Definition month_text (m : month_name) : string :=
  match m with
  | January => "January" | February => "February" | March => "March"
  | April => "April" | May => "May" | June => "June" | July => "July"
  | August => "August" | September => "September" | October => "October"
  | November => "November" | December => "December"
  end.

Definition decimal (n : Z) : string := NilZero.string_of_int (Z.to_int n).

(** [d.strftime("%B %d, %Y")]: full month name, day of the month on two
    digits, year. *)
Definition strftime (d : date) : string :=
  month_text (month d) +:+ " "
  +:+ (if day d <? 10 then "0" +:+ decimal (day d) else decimal (day d))
  +:+ ", " +:+ decimal (year d).

(** The three styles added to the sample sheet. *)
Definition make_styles : result StyleSheet :=
  let styles := getSampleStyleSheet in
  let* styles := add (new_style "Header" None
    [set_fontSize 12; set_leading 14; set_spaceAfter 6;
     set_textColor "#2E4053"]) styles in
  let* styles := add (new_style "Body" None
    [set_fontSize 11; set_leading 16; set_spaceAfter 12]) styles in
  let* styles := add (new_style "Closing" None
    [set_fontSize 11; set_leading 14; set_spaceBefore 24]) styles in
  Ok styles.

(** [f"{d[k]}"]: the subscript, then its text. *)
Definition field (d : json) (k : string) : result string :=
  let* v := Py.subscript d k in
  Py.str v.

(** [story.append(Paragraph(text, styles[name]))] *)
Definition say (styles : StyleSheet) (v : result json) (name : string)
  : builder unit :=
  do* txt := Story.eval v in
  do* st := Story.eval (style_at styles name) in
  do* p := Story.eval (Paragraph txt st) in
  Story.append (FParagraph p).

(** Steps 4 to 7 of [json_to_pdf]: the story, from [story = []] up to
    the call of the layout engine. *)
Definition build_story (today : date) (applicant document : json)
  : builder unit :=
  do* styles := Story.eval make_styles in
  say styles
    (let* name := field applicant "name" in
     Ok (JStr ("<b>" +:+ name +:+ "</b>"))) "Header" ;;;
  say styles
    (let* email := field applicant "email" in
     let* phone := field applicant "phone" in
     Ok (JStr (email +:+ " | " +:+ phone))) "Header" ;;;
  say styles
    (let* l1 := field applicant "linkedin" in
     let* l2 := field applicant "linkedin" in
     let* g1 := field applicant "github" in
     let* g2 := field applicant "github" in
     Ok (JStr ("<a href='" +:+ l1 +:+ "'>" +:+ l2 +:+ "</a> | "
               +:+ "<a href='" +:+ g1 +:+ "'>" +:+ g2 +:+ "</a>")))
    "Header" ;;;
  Story.append (FSpacer (1 # 1) (Qmult (2 # 10) inch)) ;;;
  do* recipient := Story.eval (Py.subscript document "recipient") in
  let today_str := strftime today in
  say styles (Ok (JStr today_str)) "Body" ;;;
  say styles
    (let* title := field recipient "title" in
     Ok (JStr ("Dear " +:+ title +:+ ","))) "Body" ;;;
  Story.append (FSpacer (1 # 1) (Qmult (1 # 10) inch)) ;;;
  do* body := Story.eval (Py.subscript document "body") in
  do* paragraphs := Story.eval (Py.iter body) in
  Story.for_each paragraphs (fun paragraph => say styles (Ok paragraph) "Body") ;;;
  do* closing := Story.eval (Py.subscript document "closing") in
  say styles (Py.subscript closing "signature") "Closing" ;;;
  say styles (Py.subscript closing "name") "Body".

(** [json_to_pdf(json_path, output_path)] *)
Definition json_to_pdf (today : date) (json_path output_path : string)
    (fs : filesystem) : result unit * filesystem :=
  match FS.read fs json_path with
  | Raise e => (Raise e, fs)
  | Ok (JsonText data) =>
      match Py.subscript data "applicant" with
      | Raise e => (Raise e, fs)
      | Ok applicant =>
          match Py.subscript data "document" with
          | Raise e => (Raise e, fs)
          | Ok document =>
              match FS.makedirs fs (FS.dirname output_path) with
              | (Raise e, fs1) => (Raise e, fs1)
              | (Ok _, fs1) =>
                  match Story.run (build_story today applicant document) with
                  | Raise e => (Raise e, fs1)
                  | Ok st =>
                      FS.write fs1 output_path
                        (PdfDoc {| pagesize := LETTER;
                                   leftMargin := 72 # 1;
                                   rightMargin := 72 # 1;
                                   topMargin := 72 # 1;
                                   bottomMargin := 72 # 1;
                                   story := st |})
                  end
              end
          end
      end
  | Ok _ => (Raise JSONDecodeError, fs)
  end.

(** Running [python transferCL.py --json J --out O]. *)
Definition program (today : date) (args : cli) (fs : filesystem)
  : result unit * filesystem :=
  json_to_pdf today (json_path args) (out_path args) fs.

End CoverLetter.

(** ** Vocabulary of the statements *)

(** A string that is empty or made of whitespace only. *)
Fixpoint isblank (s : string) : bool :=
  match s with
  | EmptyString => true
  | String c s' => Py.isspace c && isblank s'
  end.

(** The paragraph [Paragraph(s, st)] builds from a string. *)
Definition para (st : ParagraphStyle) (s : string) : paragraph :=
  {| text := s; style := st |}.

(** A builder that only adds blocks at the end of the story, whatever
    the story holds. *)
Definition appending {A} (m : builder A) : Prop :=
  ∀ st, m st = match m [] with
               | Ok (a, o) => Ok (a, st ++ o)
               | Raise e => Raise e
               end.

(** The style sheet of the resume once the Inter family is registered,
    and its styles by name. *)
Definition resume_styles : StyleSheet :=
  match Resume.make_styles Resume.Inter with
  | Ok sheet => sheet
  | Raise _ => getSampleStyleSheet
  end.

Definition style_of (n : string) : ParagraphStyle :=
  match style_at resume_styles n with
  | Ok st => st
  | Raise _ => default_style n
  end.

Arguments style_of : simpl never.
Arguments resume_styles : simpl never.

(** The story [build_pdf] hands to the engine, with the module globals a
    successful start leaves. *)
Definition resume_story (resume : json) : result (list flowable) :=
  Story.run (Resume.build_story Resume.Inter Resume.module_avail_width resume).

(** The text of a string value. *)
Definition text_of (v : json) : string :=
  match v with
  | JStr s => s
  | _ => ""
  end.

(** The texts of the paragraphs of a story set in the style named [n], in
    reading order, table cells and list items included. *)
Definition texts_in (n : string) (st : list flowable) : list string :=
  map text
    (List.filter (λ p, String.eqb (style_name (style p)) n) (all_paragraphs st)).

(** The section headings of a story: its paragraphs in the Section style. *)
Definition headings (st : list flowable) : list string := texts_in "Section" st.

(** The four blocks [render_section_title] returns. *)
Definition section_heading (title : string) : list flowable :=
  [FSpacer (1 # 1) (2 # 1); FParagraph (para (style_of "Section") title);
   FHRFlowable "100%" (1 # 2) "lightgrey"; FSpacer (1 # 1) (2 # 1)].

(** Every paragraph of the story is set in one of the styles [names]. *)
Definition styled_in (names : list string) (st : list flowable) : Prop :=
  Forall (λ p, style_name (style p) ∈ names) (all_paragraphs st).

(** The styles of the entries of a section: table cells and bullets. *)
Definition entry_styles : list string :=
  ["LeftCell"; "RightCell"; "LeftCellR"; "RightCellR"; "Body"].

(** The style and the text of one skills line, as
    [render_key_value_lines] makes them for the Inter family with
    [label_width=80], [font_size=9] and [gap=2]. *)
Definition skill_line_style : ParagraphStyle :=
  new_style "SkillLine" (Some (style_of "Body"))
    [set_fontName "Inter"; set_fontSize 9; set_leading (9 + 2);
     set_leftIndent 80; set_firstLineIndent (- 80); set_spaceAfter 2].

Definition skill_line_text (cat joined : string) : string :=
  "<font name=" +:+ dquote +:+ "Inter-Bold" +:+ dquote +:+ ">"
  +:+ cat +:+ ":</font> " +:+ joined.

Definition skill_line (kv : string * json) : result flowable :=
  let* joined := Py.join_iter ", " (snd kv) in
  Ok (FParagraph (para skill_line_style (skill_line_text (fst kv) joined))).

(** The blocks of one section of the resume: nothing when the value of
    its key is falsy, and otherwise the heading followed by blocks whose
    paragraphs are set in the styles [names]. *)
Definition section_block (names : list string) (title : string) (v : json)
    (o : list flowable) : Prop :=
  if Py.truthy v
  then ∃ body, o = section_heading title ++ body ∧ styled_in names body
  else o = [].

(** The titles of the sections whose value is truthy, in the fixed order. *)
Definition present_titles (edus exps projs skills : json) : list string :=
  (if Py.truthy edus then ["Education"] else [])
  ++ (if Py.truthy exps then ["Experience"] else [])
  ++ (if Py.truthy projs then ["Projects"] else [])
  ++ (if Py.truthy skills then ["Technical Skills"] else []).



(** The values of the four contact keys that are present and truthy, in
    the order [join_contact_line] visits them. *)
Definition contact_fields (basics : json) : list json :=
  match basics with
  | JObj fields =>
      List.filter Py.truthy
        (map (λ k, match Py.assoc k fields with Some v => v | None => JStr "" end)
           ["email"; "phone"; "linkedin"; "github"])
  | _ => []
  end.

(** Sample documents. *)
Definition jane_doe : json :=
  JObj [("basics", JObj [("name", JStr "Jane Doe")]);
        ("skills", JObj [("Programming", JArr [JStr "Python"; JStr "Go"])])].

Definition jane_doe_story : list flowable :=
  Eval vm_compute in
    match resume_story jane_doe with Ok st => st | Raise _ => [] end.

(** The style sheet of the cover letter and its styles by name. *)
Definition letter_styles : StyleSheet :=
  match CoverLetter.make_styles with
  | Ok sheet => sheet
  | Raise _ => getSampleStyleSheet
  end.

Definition letter_style (n : string) : ParagraphStyle :=
  match style_at letter_styles n with
  | Ok st => st
  | Raise _ => default_style n
  end.

Arguments letter_style : simpl never.
Arguments letter_styles : simpl never.

(** The four groups of blocks of a cover letter. *)
Definition letter_header (name email phone linkedin github : string)
  : list flowable :=
  [FParagraph (para (letter_style "Header") ("<b>" +:+ name +:+ "</b>"));
   FParagraph (para (letter_style "Header") (email +:+ " | " +:+ phone));
   FParagraph (para (letter_style "Header")
     ("<a href='" +:+ linkedin +:+ "'>" +:+ linkedin +:+ "</a> | "
      +:+ "<a href='" +:+ github +:+ "'>" +:+ github +:+ "</a>"));
   FSpacer (1 # 1) (Qmult (2 # 10) inch)].

Definition letter_opening (today : CoverLetter.date) (title : string)
  : list flowable :=
  [FParagraph (para (letter_style "Body") (CoverLetter.strftime today));
   FParagraph (para (letter_style "Body") ("Dear " +:+ title +:+ ","));
   FSpacer (1 # 1) (Qmult (1 # 10) inch)].

Definition letter_body (texts : list string) : list flowable :=
  map (λ t, FParagraph (para (letter_style "Body") t)) texts.

Definition letter_closing (signature name : string) : list flowable :=
  [FParagraph (para (letter_style "Closing") signature);
   FParagraph (para (letter_style "Body") name)].

Definition sam_lee : json :=
  JObj [("basics", JObj [("name", JStr "Sam Lee");
                         ("email", JStr "sam@lee.io");
                         ("github", JStr "github.com/sam")]);
        ("education", JArr [JObj [("role", JStr "State University");
                                  ("company", JStr "B.S. Computer Science");
                                  ("location", JStr "Austin, TX");
                                  ("dates", JStr "2016 - 2020")]]);
        ("experience", JArr [JObj [("role", JStr "Engineer");
                                   ("company", JStr "Acme");
                                   ("dates", JStr "2020 - 2024");
                                   ("bullets", JArr [JStr "Built X"; JStr " "])]])].

Definition sam_lee_story : list flowable :=
  Eval vm_compute in
    match resume_story sam_lee with Ok st => st | Raise _ => [] end.


Definition letter_applicant : json :=
  JObj [("name", JStr "Sam Lee"); ("email", JStr "sam@lee.io");
        ("phone", JStr "555-0100"); ("linkedin", JStr "linkedin.com/in/sam");
        ("github", JStr "github.com/sam")].

Definition letter_document : json :=
  JObj [("recipient", JObj [("title", JStr "Hiring Manager")]);
        ("body", JArr [JStr "I am writing to apply."; JStr "Thank you."]);
        ("closing", JObj [("signature", JStr "Sincerely,");
                          ("name", JStr "Sam Lee")])].

Definition letter : json :=
  JObj [("applicant", letter_applicant); ("document", letter_document)].

Definition nov_9_2025 : CoverLetter.date :=
  {| CoverLetter.year := 2025; CoverLetter.month := November;
     CoverLetter.day := 9 |}.

Definition nov_10_2025 : CoverLetter.date :=
  {| CoverLetter.year := 2025; CoverLetter.month := November;
     CoverLetter.day := 10 |}.

Definition letter_story (today : CoverLetter.date) : result (list flowable) :=
  Story.run (CoverLetter.build_story today letter_applicant letter_document).

Definition letter_story_nov_9 : list flowable :=
  Eval vm_compute in
    match letter_story nov_9_2025 with Ok st => st | Raise _ => [] end.

(** The keys [build_pdf] reads from the resume, each with the default
    it gives to [get]. *)
Definition resume_defaults : list (string * json) :=
  [("basics", JObj []); ("education", JArr []); ("experience", JArr []);
   ("projects", JArr []); ("skills", JObj [])].

(** The page geometry of the two programs around a story. *)
Definition resume_pdf (st : list flowable) : pdf :=
  {| pagesize := LETTER;
     leftMargin := Qmult (2 # 10) inch; rightMargin := Qmult (2 # 10) inch;
     topMargin := Qmult (1 # 10) inch; bottomMargin := Qmult (1 # 10) inch;
     story := st |}.

Definition letter_pdf (st : list flowable) : pdf :=
  {| pagesize := LETTER;
     leftMargin := 72 # 1; rightMargin := 72 # 1;
     topMargin := 72 # 1; bottomMargin := 72 # 1;
     story := st |}.

(** Every directory of the file system lies in a directory. *)
Definition wf (fs : filesystem) : Prop :=
  ∀ l, l ∈ dirs fs → FS.is_dir fs (FS.parent l) = true.

(** The last component of a path: [os.path.basename(p)]. *)
Definition basename (p : string) : string :=
  List.last (FS.split_slash p) "".

(** A working directory with the four font files, a resume, a cover
    letter, a file that is not JSON and a cover letter without its
    [applicant]. *)
Definition sample_fs : filesystem :=
  {| cwd := ["home"];
     dirs := {[ ["home"]; ["home"; "font"] ]};
     files :=
       {[ ["home"; "font"; "Inter_18pt-Regular.ttf"] := FontData;
          ["home"; "font"; "Inter_18pt-Bold.ttf"] := FontData;
          ["home"; "font"; "Inter_18pt-Italic.ttf"] := FontData;
          ["home"; "font"; "Inter_18pt-BoldItalic.ttf"] := FontData;
          ["home"; "resume.json"] := JsonText sam_lee;
          ["home"; "letter.json"] := JsonText letter;
          ["home"; "broken.json"] := Malformed;
          ["home"; "no_applicant.json"] :=
            JsonText (JObj [("document", letter_document)]) ]} |}.

(** The components of a path that name something: the empty ones, left
    by doubled or trailing slashes, are dropped. *)
Definition named (comps : list string) : list string :=
  List.filter (λ c, negb (String.eqb c "")) comps.

(** A working directory that holds the cover letter alone. *)
Definition letter_fs : filesystem :=
  {| cwd := ["home"];
     dirs := {[ ["home"] ]};
     files := {[ ["home"; "letter.json"] := JsonText letter ]} |}.

Definition letter_args (out : string) : cli :=
  {| json_path := "letter.json"; out_path := out |}.

(** The texts of the paragraphs of a PDF read back from the file system. *)
Definition pdf_texts (r : result content) : list string :=
  match r with
  | Ok (PdfDoc d) => map text (all_paragraphs (story d))
  | _ => []
  end.

(** A path without any slash: a bare file name. *)
Fixpoint no_slash (p : string) : bool :=
  match p with
  | EmptyString => true
  | String c p' => negb (Ascii.eqb c "/") && no_slash p'
  end.

(** A cover letter whose applicant has no [phone]. *)
Definition letter_without_phone : json :=
  JObj [("applicant", JObj [("name", JStr "Sam Lee");
                            ("email", JStr "sam@lee.io")]);
        ("document", letter_document)].

Definition no_phone_fs : filesystem :=
  {| cwd := ["home"];
     dirs := {[ ["home"] ]};
     files := {[ ["home"; "letter.json"] := JsonText letter_without_phone ]} |}.



(** A JSON string. *)
Definition is_str (v : json) : bool :=
  match v with JStr _ => true | _ => false end.



(** The four font files [register_family] loads, as paths from the
    working directory. *)
Definition font_paths : list string :=
  map (λ kf, "./font/" +:+ snd kf) Resume.default_files.










(** The styles a resume story is set in. *)
Definition story_styles : list string :=
  ["Name"; "Contact"; "Section"; "LeftCell"; "RightCell"; "LeftCellR";
   "RightCellR"; "Body"; "SkillLine"].

(** A paragraph in the Body style has a text that is not blank. *)
Definition body_not_blank (p : paragraph) : Prop :=
  style_name (style p) = "Body" → isblank (text p) = false.

(** The styles of the cells of a table row. *)
Definition cell_styles : list string :=
  ["LeftCell"; "RightCell"; "LeftCellR"; "RightCellR"].


(** A JSON value that is an object. *)
Definition is_obj (v : json) : bool :=
  match v with JObj _ => true | _ => false end.

(** A working directory with the fonts and a JSON document that is a
    list. *)
Definition list_document_fs : filesystem :=
  {| cwd := ["home"];
     dirs := {[ ["home"]; ["home"; "font"] ]};
     files :=
       {[ ["home"; "font"; "Inter_18pt-Regular.ttf"] := FontData;
          ["home"; "font"; "Inter_18pt-Bold.ttf"] := FontData;
          ["home"; "font"; "Inter_18pt-Italic.ttf"] := FontData;
          ["home"; "font"; "Inter_18pt-BoldItalic.ttf"] := FontData;
          ["home"; "doc.json"] := JsonText (JArr [JStr "x"]) ]} |}.

(** The keys [build_pdf] reads from [basics]. *)
Definition basics_keys : list string :=
  ["name"; "email"; "phone"; "linkedin"; "github"; "status"].

(** ** Sanity checks of the environment model *)

Example strip_spaces : Py.strip "  a b  " = "a b".
Proof. reflexivity. Qed.

Example str_num : Py.str (JNum (-12)) = Ok "-12".
Proof. reflexivity. Qed.

Example dirname_nested : FS.dirname "out/letters/cl.pdf" = "out/letters".
Proof. reflexivity. Qed.

Example dirname_bare : FS.dirname "cl.pdf" = "".
Proof. reflexivity. Qed.

Example dirname_root : FS.dirname "/cl.pdf" = "/".
Proof. reflexivity. Qed.

(** ** Strings *)

Lemma lstrip_blank s : isblank s = true → Py.lstrip s = "".
Proof.
  induction s as [|c s IH]; simpl; [done|].
  intros [Hc Hs]%andb_prop. rewrite Hc. auto.
Qed.

Lemma lstrip_not_blank s :
  isblank s = false →
  ∃ c r, Py.lstrip s = String c r ∧ Py.isspace c = false.
Proof.
  induction s as [|c s IH]; simpl; [done|].
  destruct (Py.isspace c) eqn:Hc; simpl; eauto.
Qed.

Lemma rstrip_head c r : Py.isspace c = false → Py.rstrip (String c r) ≠ "".
Proof.
  intros Hc. simpl. rewrite Hc. by destruct (Py.rstrip r).
Qed.

(** [s.strip()] is empty exactly when [s] is blank. *)
Lemma strip_empty_iff s : Py.strip s = "" ↔ isblank s = true.
Proof.
  unfold Py.strip. split.
  - intros H. destruct (isblank s) eqn:Hb; [done|].
    destruct (lstrip_not_blank s Hb) as (c & r & Hl & Hc).
    rewrite Hl in H. by apply rstrip_head in H.
  - intros Hb. by rewrite lstrip_blank.
Qed.

Lemma string_eqb_empty s : String.eqb s "" = true ↔ s = "".
Proof. apply String.eqb_eq. Qed.

Lemma bullet_kept_str s :
  Resume.bullet_kept (JStr s) = negb (isblank s).
Proof.
  unfold Resume.bullet_kept. simpl.
  destruct (isblank s) eqn:Hb.
  - apply strip_empty_iff in Hb. rewrite Hb.
    destruct s; [done|]. simpl. destruct (Py.strip _); done.
  - destruct (String.eqb (Py.strip s) "") eqn:He.
    + apply String.eqb_eq, strip_empty_iff in He. congruence.
    + destruct s; [done|]. done.
Qed.

(** ** Bullet lists *)

Lemma Paragraph_ok v st p :
  Paragraph v st = Ok p → v = JStr (text p) ∧ style p = st.
Proof. destruct v; simpl; intros [= <-]; auto. Qed.


Lemma bullet_items_sound bs st ps :
  Resume.bullet_items bs st = Ok ps →
  ∀ p, p ∈ ps → isblank (text p) = false ∧ JStr (text p) ∈ bs ∧ style p = st.
Proof.
  revert ps. induction bs as [|b bs IH]; intros ps; simpl.
  - intros [= <-] p Hp. by apply elem_of_nil in Hp.
  - destruct (Resume.bullet_kept b) eqn:Hk.
    + destruct (Paragraph b st) as [q|] eqn:Hq; [|done]. simpl.
      destruct (Resume.bullet_items bs st) as [qs|] eqn:Hqs; [|done]. simpl.
      intros [= <-] p [->|Hp]%elem_of_cons.
      * apply Paragraph_ok in Hq as [-> Hst]. rewrite bullet_kept_str in Hk.
        split; [by destruct (isblank (text q))|]. split; [left|done].
      * destruct (IH qs eq_refl p Hp) as (? & ? & ?).
        repeat split; [done|by right|done].
    + intros Hps p Hp. destruct (IH ps Hps p Hp) as (? & ? & ?).
      repeat split; [done|by right|done].
Qed.

Lemma bullet_list_items flowables st l :
  Resume.bullet_list flowables st = Ok l →
  ∃ bs, Py.iter flowables = Ok bs ∧ Resume.bullet_items bs st = Ok (items l).
Proof.
  unfold Resume.bullet_list.
  destruct (Py.iter flowables) as [bs|]; [|done]. simpl.
  destruct (Resume.bullet_items bs st) as [its|] eqn:Hits; [|done]. simpl.
  destruct its; intros [= <-]; exists bs; split; done.
Qed.



(** ** Builders only append *)

Create HintDb appending.

Lemma appending_ret {A} (a : A) : appending (Story.ret a).
Proof. intros st. simpl. unfold Story.ret. by rewrite app_nil_r. Qed.

Lemma appending_eval {A} (r : result A) : appending (Story.eval r).
Proof. intros st. unfold Story.eval. destruct r; [|done]. by rewrite app_nil_r. Qed.

Lemma appending_append f : appending (Story.append f).
Proof. intros st. done. Qed.

Lemma appending_extend fs : appending (Story.extend fs).
Proof. intros st. done. Qed.

Lemma appending_bind {A B} (m : builder A) (k : A → builder B) :
  appending m → (∀ a, appending (k a)) → appending (Story.bind m k).
Proof.
  intros Hm Hk st. unfold Story.bind. rewrite (Hm st).
  destruct (m []) as [[a o]|e]; [|done].
  rewrite (Hk a (st ++ o)), (Hk a o).
  destruct (k a []) as [[b o']|e]; [|done]. by rewrite app_assoc.
Qed.

Lemma appending_when c m : appending m → appending (Story.when c m).
Proof. intros Hm. destruct c; [done|]. apply appending_ret. Qed.

Lemma appending_for_each {A} (xs : list A) body :
  (∀ x, appending (body x)) → appending (Story.for_each xs body).
Proof.
  intros Hb. induction xs as [|x xs IH]; simpl.
  - apply appending_ret.
  - apply appending_bind; auto.
Qed.

#[export] Hint Resolve appending_ret appending_eval appending_append
  appending_extend appending_when appending_for_each : appending.
#[export] Hint Extern 2 (appending (Story.bind _ _)) =>
  apply appending_bind; [|intros ?] : appending.

(** The story a sequence leaves is the concatenation of what its two
    halves leave. *)
Lemma run_eval_bind {A} (r : result A) (k : A → builder unit) :
  Story.run (Story.bind (Story.eval r) k) = let* a := r in Story.run (k a).
Proof. unfold Story.run, Story.bind, Story.eval. by destruct r. Qed.

Lemma run_seq (m k : builder unit) :
  appending k →
  Story.run (Story.bind m (λ _, k))
  = let* a := Story.run m in let* b := Story.run k in Ok (a ++ b).
Proof.
  intros Hk. unfold Story.run, Story.bind.
  destruct (m []) as [[[] o]|e]; [|done]. simpl.
  rewrite (Hk o). by destruct (k []) as [[[] o']|e].
Qed.

Lemma run_append f : Story.run (Story.append f) = Ok [f].
Proof. done. Qed.

Lemma run_extend fs : Story.run (Story.extend fs) = Ok fs.
Proof. done. Qed.

Lemma run_when c m :
  Story.run (Story.when c m) = if c then Story.run m else Ok [].
Proof. by destruct c. Qed.

Lemma run_for_each {A} (xs : list A) (body : A → builder unit) :
  (∀ x, appending (body x)) →
  Story.run (Story.for_each xs body)
  = let* os := mapM (λ x, Story.run (body x)) xs in Ok (concat os).
Proof.
  intros Hb. induction xs as [|x xs IH]; [done|].
  cbn [Story.for_each mapM]. rewrite run_seq by auto with appending.
  rewrite IH. destruct (Story.run (body x)); [|done]. simpl.
  by destruct (mapM _ xs).
Qed.

Ltac appending :=
  repeat first
    [ apply appending_bind; [|intros ?]
    | apply appending_when
    | apply appending_for_each; intros ?
    | apply appending_eval
    | apply appending_append
    | apply appending_extend
    | apply appending_ret
    | solve [auto with appending] ].

Lemma appending_header styles resume :
  appending (Resume.header styles resume).
Proof. unfold Resume.header. appending. Qed.

Lemma appending_bullets_of styles e : appending (Resume.bullets_of styles e).
Proof. unfold Resume.bullets_of. appending. Qed.
#[export] Hint Resolve appending_header appending_bullets_of : appending.

Lemma appending_education_entry family w styles ed :
  appending (Resume.education_entry family w styles ed).
Proof. unfold Resume.education_entry. appending. Qed.

Lemma appending_experience_entry family w styles e :
  appending (Resume.experience_entry family w styles e).
Proof. unfold Resume.experience_entry. appending. Qed.

Lemma appending_project_entry family w styles p :
  appending (Resume.project_entry family w styles p).
Proof. unfold Resume.project_entry. appending. Qed.
#[export] Hint Resolve appending_education_entry appending_experience_entry
  appending_project_entry : appending.

Lemma appending_section styles title xs entry :
  (∀ x, appending (entry styles x)) →
  appending (Resume.section styles title xs entry).
Proof. intros He. unfold Resume.section. appending. Qed.

Lemma appending_skills_section family styles resume :
  appending (Resume.skills_section family styles resume).
Proof. unfold Resume.skills_section. appending. Qed.
#[export] Hint Resolve appending_skills_section : appending.
#[export] Hint Extern 1 (appending (Resume.section _ _ _ _)) =>
  apply appending_section; intros ? : appending.

Lemma appending_say styles v name : appending (CoverLetter.say styles v name).
Proof. unfold CoverLetter.say. appending. Qed.
#[export] Hint Resolve appending_say : appending.

(** The story of a resume is the header, then the four sections in the
    order Education, Experience, Projects, Skills. *)
Lemma run_build_story family w resume :
  Story.run (Resume.build_story family w resume)
  = let* styles := Resume.make_styles family in
    let* h := Story.run (Resume.header styles resume) in
    let* edus := Py.get resume "education" (JArr []) in
    let* ed := Story.run (Resume.section styles "Education" edus
                            (Resume.education_entry family w)) in
    let* exps := Py.get resume "experience" (JArr []) in
    let* ex := Story.run (Resume.section styles "Experience" exps
                            (Resume.experience_entry family w)) in
    let* projs := Py.get resume "projects" (JArr []) in
    let* pr := Story.run (Resume.section styles "Projects" projs
                            (Resume.project_entry family w)) in
    let* sk := Story.run (Resume.skills_section family styles resume) in
    Ok (h ++ ed ++ ex ++ pr ++ sk).
Proof.
  unfold Resume.build_story.
  rewrite run_eval_bind.
  destruct (Resume.make_styles family) as [styles|]; [|done]. simpl.
  rewrite run_seq by appending.
  destruct (Story.run (Resume.header styles resume)) as [h|]; [|done]. simpl.
  rewrite run_eval_bind.
  destruct (Py.get resume "education" _) as [edus|]; [|done]. simpl.
  rewrite run_seq by appending.
  destruct (Story.run (Resume.section styles "Education" _ _)) as [ed|]; [|done].
  simpl. rewrite run_eval_bind.
  destruct (Py.get resume "experience" _) as [exps|]; [|done]. simpl.
  rewrite run_seq by appending.
  destruct (Story.run (Resume.section styles "Experience" _ _)) as [ex|]; [|done].
  simpl. rewrite run_eval_bind.
  destruct (Py.get resume "projects" _) as [projs|]; [|done]. simpl.
  rewrite run_seq by appending.
  destruct (Story.run (Resume.section styles "Projects" _ _)) as [pr|]; [|done].
  simpl.
  by destruct (Story.run (Resume.skills_section family styles resume)).
Qed.

(** ** The resume style sheet *)

Lemma make_styles_Inter : Resume.make_styles Resume.Inter = Ok resume_styles.
Proof. vm_compute. reflexivity. Qed.

Lemma style_at_resume n :
  n ∈ ["Name"; "Contact"; "Section"; "Body"; "LeftCell"; "RightCell";
       "LeftCellR"; "RightCellR"] →
  style_at resume_styles n = Ok (style_of n) ∧ style_name (style_of n) = n.
Proof.
  intros H.
  repeat (apply elem_of_cons in H as [->|H]; [vm_compute; split; reflexivity|]).
  by apply elem_of_nil in H.
Qed.

Lemma texts_in_app n a b : texts_in n (a ++ b) = texts_in n a ++ texts_in n b.
Proof.
  unfold texts_in, all_paragraphs.
  by rewrite map_app, concat_app, List.filter_app, map_app.
Qed.
Ltac in_list :=
  repeat first [apply list_elem_of_here | apply list_elem_of_further].

Lemma style_at_ok n :
  n ∈ ["Name"; "Contact"; "Section"; "Body"; "LeftCell"; "RightCell";
       "LeftCellR"; "RightCellR"] →
  style_at resume_styles n = Ok (style_of n).
Proof. intros H. by apply style_at_resume. Qed.

Lemma run_say_like styles v n (k : paragraph → flowable) :
  Story.run (Story.bind (Story.eval (style_at styles n))
               (λ st, Story.bind (Story.eval (Paragraph v st))
                        (λ p, Story.append (k p))))
  = let* st := style_at styles n in
    let* p := Paragraph v st in
    Ok [k p].
Proof.
  rewrite run_eval_bind. destruct (style_at styles n); [|done]. simpl.
  rewrite run_eval_bind. by destruct (Paragraph v a).
Qed.

Lemma Paragraph_str s st : Paragraph (JStr s) st = Ok (para st s).
Proof. done. Qed.

Lemma Paragraph_inv v st p :
  Paragraph v st = Ok p → v = JStr (text_of v) ∧ p = para st (text_of v).
Proof. destruct v; simpl; intros [= <-]; auto. Qed.

Lemma run_header resume h :
  Story.run (Resume.header resume_styles resume) = Ok h →
  ∃ basics name contact status,
    Py.get resume "basics" (JObj []) = Ok basics ∧
    Py.get basics "name" (JStr "") = Ok name ∧
    Resume.join_contact_line basics = Ok contact ∧
    Py.get basics "status" (JStr "") = Ok status ∧
    (Py.truthy name = true → name = JStr (text_of name)) ∧
    (contact ≠ "" → status = JStr (text_of status)) ∧
    h = (if Py.truthy name
         then [FParagraph (para (style_of "Name") (text_of name))] else [])
        ++ (if String.eqb contact "" then []
            else [FParagraph (para (style_of "Contact") contact);
                  FParagraph (para (style_of "Contact") (text_of status))])
        ++ [FSpacer (1 # 1) (1 # 1)].
Proof.
  unfold Resume.header. rewrite run_eval_bind.
  destruct (Py.get resume "basics" _) as [basics|]; [|done]. simpl.
  rewrite run_eval_bind.
  destruct (Py.get basics "name" _) as [name|] eqn:Hname; [|done]. simpl.
  rewrite run_eval_bind.
  destruct (Resume.join_contact_line basics) as [contact|] eqn:Hc; [|done].
  simpl. rewrite run_eval_bind.
  destruct (Py.get basics "status" _) as [status|] eqn:Hst; [|done]. simpl.
  rewrite run_seq by appending. rewrite run_when, run_say_like.
  rewrite style_at_ok by in_list. simpl rbind at 2.
  rewrite run_seq by appending. rewrite run_when.
  rewrite run_eval_bind, style_at_ok by in_list. simpl rbind at 4.
  assert (Hinner : ∀ c,
    Story.run
      (Story.bind (Story.eval (Ok {| text := c; style := style_of "Contact" |}))
         (λ p, Story.bind (Story.append (FParagraph p))
            (λ _, Story.bind (Story.eval (Ok (style_of "Contact")))
               (λ st, Story.bind (Story.eval (Paragraph status st))
                  (λ p0, Story.append (FParagraph p0))))))
    = let* p0 := Paragraph status (style_of "Contact") in
      Ok [FParagraph (para (style_of "Contact") c); FParagraph p0]).
  { intros c. unfold Story.run, Story.bind, Story.eval, Story.append. simpl.
    by destruct (Paragraph status _). }
  rewrite Hinner. clear Hinner. intros H.
  exists basics, name, contact, status.
  do 4 (split; [done|]).
  destruct (Py.truthy name) eqn:Hn.
  - destruct (Paragraph name _) as [p|] eqn:Hp; [|done].
    apply Paragraph_inv in Hp as [Hnm ->]. simpl in H.
    destruct (String.eqb contact "") eqn:Hce; simpl in H.
    + injection H as <-. apply String.eqb_eq in Hce. done.
    + destruct (Paragraph status _) as [q|] eqn:Hq; [|done].
      apply Paragraph_inv in Hq as [Hs ->]. simpl in H. injection H as <-. done.
  - simpl in H. destruct (String.eqb contact "") eqn:Hce; simpl in H.
    + injection H as <-. apply String.eqb_eq in Hce. done.
    + destruct (Paragraph status _) as [q|] eqn:Hq; [|done].
      apply Paragraph_inv in Hq as [Hs ->]. simpl in H. injection H as <-. done.
Qed.

(** ** Table rows and entries *)

Lemma table_line_inv w left right Bold t :
  Resume.table_line Resume.Inter w left right resume_styles Bold = Ok t →
  Py.or_ left (JStr "") = JStr (text_of (Py.or_ left (JStr ""))) ∧
  Py.or_ right (JStr "") = JStr (text_of (Py.or_ right (JStr ""))) ∧
  cells t =
    [[para (style_of (if Bold then "LeftCell" else "LeftCellR"))
        (text_of (Py.or_ left (JStr "")));
      para (style_of (if Bold then "RightCell" else "RightCellR"))
        (text_of (Py.or_ right (JStr "")))]].
Proof.
  unfold Resume.table_line.
  rewrite !style_at_ok by (destruct Bold; in_list). simpl rbind.
  destruct (Paragraph (Py.or_ left _) _) as [p|] eqn:Hp; [|done].
  apply Paragraph_inv in Hp as [Hl ->]. simpl rbind.
  destruct (Paragraph (Py.or_ right _) _) as [q|] eqn:Hq; [|done].
  apply Paragraph_inv in Hq as [Hr ->]. simpl.
  intros [= <-]. done.
Qed.

Lemma style_name_of n :
  n ∈ ["Name"; "Contact"; "Section"; "Body"; "LeftCell"; "RightCell";
       "LeftCellR"; "RightCellR"] →
  style_name (style_of n) = n.
Proof. intros H. by apply style_at_resume. Qed.

Lemma styled_in_nil names : styled_in names [].
Proof. constructor. Qed.

Lemma styled_in_app names a b :
  styled_in names a → styled_in names b → styled_in names (a ++ b).
Proof.
  unfold styled_in, all_paragraphs. rewrite map_app, concat_app.
  apply Forall_app_2.
Qed.

Lemma styled_in_concat names os :
  Forall (styled_in names) os → styled_in names (concat os).
Proof.
  induction 1 as [|o os Ho _ IH]; simpl.
  - apply styled_in_nil.
  - by apply styled_in_app.
Qed.

Lemma styled_in_spacer names w h : styled_in names [FSpacer w h].
Proof. constructor. Qed.

Lemma styled_in_table w left right Bold t :
  Resume.table_line Resume.Inter w left right resume_styles Bold = Ok t →
  styled_in entry_styles [FTable t].
Proof.
  intros (_ & _ & Hc)%table_line_inv.
  unfold styled_in, all_paragraphs. simpl. rewrite Hc. simpl.
  apply Forall_cons; split; [|apply Forall_cons; split; [|constructor]];
    simpl; rewrite style_name_of by (destruct Bold; in_list);
    destruct Bold; unfold entry_styles; in_list.
Qed.

Lemma styled_in_texts names n o :
  styled_in names o → n ∉ names → texts_in n o = [].
Proof.
  unfold styled_in, texts_in. intros Hall Hn.
  induction Hall as [|p ps Hp _ IH]; [done|]. simpl.
  destruct (String.eqb _ n) eqn:He; [|done].
  apply String.eqb_eq in He. congruence.
Qed.

Lemma run_bullets_of e o :
  Story.run (Resume.bullets_of resume_styles e) = Ok o →
  ∃ bullets, Py.get e "bullets" (JArr []) = Ok bullets ∧
    if Py.truthy bullets
    then ∃ l, Resume.bullet_list bullets (style_of "Body") = Ok l ∧
              o = [FListFlowable l]
    else o = [].
Proof.
  unfold Resume.bullets_of. rewrite run_eval_bind.
  destruct (Py.get e "bullets" _) as [bullets|]; [|done]. simpl.
  rewrite run_when. intros H. exists bullets. split; [done|].
  destruct (Py.truthy bullets); [|by injection H].
  rewrite run_eval_bind, style_at_ok in H by in_list. simpl in H.
  rewrite run_eval_bind in H.
  destruct (Resume.bullet_list bullets _) as [l|]; [|done]. simpl in H.
  injection H as <-. eauto.
Qed.

Lemma styled_in_bullets e o :
  Story.run (Resume.bullets_of resume_styles e) = Ok o →
  styled_in entry_styles o.
Proof.
  intros (bullets & _ & H)%run_bullets_of.
  destruct (Py.truthy bullets); [|subst; apply styled_in_nil].
  destruct H as (l & Hl & ->).
  apply bullet_list_items in Hl as (bs & _ & Hits).
  unfold styled_in, all_paragraphs. simpl. rewrite app_nil_r.
  apply Forall_forall. intros p Hp.
  destruct (bullet_items_sound _ _ _ Hits p Hp) as (_ & _ & ->).
  rewrite style_name_of by in_list.
  unfold entry_styles. in_list.
Qed.


Lemma run_education_entry w ed o :
  Story.run (Resume.education_entry Resume.Inter w resume_styles ed) = Ok o →
  ∃ degree school location dates top sub,
    Py.get ed "company" (JStr "") = Ok degree ∧
    Py.get ed "role" (JStr "") = Ok school ∧
    Py.get ed "location" (JStr "") = Ok location ∧
    Py.get ed "dates" (JStr "") = Ok dates ∧
    Resume.table_line Resume.Inter w school dates resume_styles true = Ok top ∧
    Resume.table_line Resume.Inter w degree location resume_styles false = Ok sub ∧
    o = [FTable top; FTable sub; FSpacer (1 # 1) (1 # 1)].
Proof.
  unfold Resume.education_entry.
  rewrite run_eval_bind. destruct (Py.get ed "company" _) as [degree|]; [|done].
  simpl rbind. rewrite run_eval_bind.
  destruct (Py.get ed "role" _) as [school|]; [|done].
  simpl rbind. rewrite run_eval_bind.
  destruct (Py.get ed "location" _) as [location|]; [|done].
  simpl rbind. rewrite run_eval_bind.
  destruct (Py.get ed "dates" _) as [dates|]; [|done].
  simpl rbind. rewrite run_eval_bind.
  destruct (Resume.table_line _ _ school dates _ _) as [top|] eqn:Ht; [|done].
  simpl rbind. rewrite run_seq, run_append by appending. simpl rbind.
  rewrite run_eval_bind.
  destruct (Resume.table_line _ _ degree location _ _) as [sub|] eqn:Hs; [|done].
  simpl. intros [= <-]. eexists _, _, _, _, _, _. repeat split; try reflexivity; eassumption.
Qed.

Lemma styled_in_education_entry w ed o :
  Story.run (Resume.education_entry Resume.Inter w resume_styles ed) = Ok o →
  styled_in entry_styles o.
Proof.
  intros (? & ? & ? & ? & top & sub & _ & _ & _ & _ & Ht & Hs & ->)%run_education_entry.
  apply (styled_in_app _ [FTable top]); [by eapply styled_in_table|].
  apply (styled_in_app _ [FTable sub]); [by eapply styled_in_table|].
  apply styled_in_spacer.
Qed.

(** What an experience entry appends: the two rows, the bullets when
    there are any, the spacer. *)
Lemma run_experience_entry w e o :
  Story.run (Resume.experience_entry Resume.Inter w resume_styles e) = Ok o →
  ∃ role date location company top sub bl,
    Py.get e "role" (JStr "") = Ok role ∧
    Py.get e "dates" (JStr "") = Ok date ∧
    Py.get e "location" (JStr "") = Ok location ∧
    Py.get e "company" (JStr "") = Ok company ∧
    Resume.table_line Resume.Inter w role date resume_styles true = Ok top ∧
    Resume.table_line Resume.Inter w company location resume_styles false = Ok sub ∧
    Story.run (Resume.bullets_of resume_styles e) = Ok bl ∧
    o = [FTable top; FTable sub] ++ bl ++ [FSpacer (1 # 1) (1 # 1)].
Proof.
  unfold Resume.experience_entry.
  rewrite run_eval_bind. destruct (Py.get e "role" _) as [role|]; [|done].
  simpl rbind. rewrite run_eval_bind.
  destruct (Py.get e "dates" _) as [date|]; [|done].
  simpl rbind. rewrite run_eval_bind.
  destruct (Resume.table_line _ _ role date _ _) as [top|] eqn:Ht; [|done].
  simpl rbind. rewrite run_seq, run_append by appending. simpl rbind.
  rewrite run_eval_bind.
  destruct (Py.get e "location" _) as [location|]; [|done].
  simpl rbind. rewrite run_eval_bind.
  destruct (Py.get e "company" _) as [company|]; [|done].
  simpl rbind. rewrite run_eval_bind.
  destruct (Resume.table_line _ _ company location _ _) as [sub|] eqn:Hs; [|done].
  simpl rbind. rewrite run_seq, run_append by appending. simpl rbind.
  rewrite run_seq, run_append by appending.
  destruct (Story.run (Resume.bullets_of resume_styles e)) as [bl|]; [|done].
  simpl. intros [= <-]. eexists _, _, _, _, _, _, _. repeat split; try reflexivity; eassumption.
Qed.

Lemma styled_in_experience_entry w e o :
  Story.run (Resume.experience_entry Resume.Inter w resume_styles e) = Ok o →
  styled_in entry_styles o.
Proof.
  intros (? & ? & ? & ? & top & sub & bl & _ & _ & _ & _ & Ht & Hs & Hb & ->)
    %run_experience_entry.
  apply (styled_in_app _ [FTable top]); [by eapply styled_in_table|].
  apply (styled_in_app _ [FTable sub]); [by eapply styled_in_table|].
  apply styled_in_app; [by eapply styled_in_bullets|apply styled_in_spacer].
Qed.

Lemma run_project_entry w p o :
  Story.run (Resume.project_entry Resume.Inter w resume_styles p) = Ok o →
  ∃ title dates top bl,
    Py.get p "title" (JStr "") = Ok title ∧
    Py.get p "dates" (JStr "") = Ok dates ∧
    Resume.table_line Resume.Inter w title dates resume_styles true = Ok top ∧
    Story.run (Resume.bullets_of resume_styles p) = Ok bl ∧
    o = [FTable top] ++ bl ++ [FSpacer (1 # 1) (1 # 1)].
Proof.
  unfold Resume.project_entry.
  rewrite run_eval_bind. destruct (Py.get p "title" _) as [title|]; [|done].
  simpl rbind. rewrite run_eval_bind.
  destruct (Py.get p "dates" _) as [dates|]; [|done].
  simpl rbind. rewrite run_eval_bind.
  destruct (Resume.table_line _ _ title dates _ _) as [top|] eqn:Ht; [|done].
  simpl rbind. rewrite run_seq, run_append by appending. simpl rbind.
  rewrite run_seq, run_append by appending.
  destruct (Story.run (Resume.bullets_of resume_styles p)) as [bl|]; [|done].
  simpl. intros [= <-]. eexists _, _, _, _. repeat split; try reflexivity; eassumption.
Qed.

Lemma styled_in_project_entry w p o :
  Story.run (Resume.project_entry Resume.Inter w resume_styles p) = Ok o →
  styled_in entry_styles o.
Proof.
  intros (? & ? & top & bl & _ & _ & Ht & Hb & ->)%run_project_entry.
  apply (styled_in_app _ [FTable top]); [by eapply styled_in_table|].
  apply styled_in_app; [by eapply styled_in_bullets|apply styled_in_spacer].
Qed.

(** ** Sections *)

Lemma render_section_title_resume title :
  Resume.render_section_title title resume_styles = Ok (section_heading title).
Proof.
  unfold Resume.render_section_title. by rewrite style_at_ok by in_list.
Qed.

Lemma mapM_Forall {A B} (f : A → result B) (P : B → Prop) xs ys :
  (∀ x y, f x = Ok y → P y) → mapM f xs = Ok ys → Forall P ys.
Proof.
  intros Hf. revert ys. induction xs as [|x xs IH]; simpl; intros ys.
  - intros [= <-]. constructor.
  - destruct (f x) as [y|] eqn:Hy; [|done]. simpl.
    destruct (mapM f xs) as [ys'|]; [|done]. simpl. intros [= <-].
    constructor; eauto.
Qed.


(** A section is nothing for a falsy value, and otherwise its heading
    followed by what each entry appends, in input order. *)
Lemma run_section title xs entry o :
  (∀ x, appending (entry resume_styles x)) →
  Story.run (Resume.section resume_styles title xs entry) = Ok o →
  if Py.truthy xs
  then ∃ entries os,
         Py.iter xs = Ok entries ∧
         mapM (λ x, Story.run (entry resume_styles x)) entries = Ok os ∧
         o = section_heading title ++ concat os
  else o = [].
Proof.
  intros He. unfold Resume.section. rewrite run_when.
  destruct (Py.truthy xs); [|by intros [= <-]].
  rewrite run_eval_bind, render_section_title_resume. simpl rbind.
  rewrite run_seq, run_extend by appending. simpl rbind.
  rewrite run_eval_bind. destruct (Py.iter xs) as [entries|]; [|done].
  simpl rbind. rewrite run_for_each by done.
  destruct (mapM _ entries) as [os|] eqn:Hos; [|done]. simpl.
  intros [= <-]. eauto.
Qed.

Lemma headings_section_heading title :
  headings (section_heading title) = [title].
Proof.
  unfold headings, texts_in, section_heading, all_paragraphs. simpl.
  reflexivity.
Qed.

Lemma styled_in_section_heading title :
  styled_in ["Section"] (section_heading title).
Proof.
  unfold styled_in, section_heading, all_paragraphs. simpl.
  constructor; [|constructor]. simpl. in_list.
Qed.

(** ** The skills block *)

Ltac not_in_list :=
  let H := fresh in
  intros H;
  repeat (apply elem_of_cons in H; destruct H as [H|H]; [discriminate H|]);
  by apply elem_of_nil in H.

Lemma key_value_elems_skill_lines kvs :
  Resume.key_value_elems "Inter-Bold" skill_line_style kvs = mapM skill_line kvs.
Proof.
  induction kvs as [|[cat vals] kvs IH]; [done|].
  cbn [Resume.key_value_elems mapM]. unfold skill_line at 1. cbn [fst snd].
  destruct (Py.join_iter ", " vals) as [joined|]; [|done].
  cbn [rbind Paragraph]. rewrite IH. reflexivity.
Qed.

(** [render_key_value_lines] makes one line per category, in the order
    of the mapping. *)
Lemma render_key_value_lines_resume data :
  Resume.render_key_value_lines data resume_styles Resume.Inter 80 9 2
  = let* kvs := Py.items data in mapM skill_line kvs.
Proof.
  unfold Resume.render_key_value_lines.
  rewrite style_at_ok by in_list. cbn [rbind].
  change (font_at Resume.Inter "REG") with (@Ok string "Inter").
  change (font_at Resume.Inter "BOLD") with (@Ok string "Inter-Bold").
  cbn [rbind]. change (font_assoc "HEAVY" Resume.Inter) with (@None string).
  destruct (Py.items data) as [kvs|]; [|done]. cbn [rbind].
  apply key_value_elems_skill_lines.
Qed.

Lemma mapM_length {A B} (f : A → result B) xs ys :
  mapM f xs = Ok ys → length ys = length xs.
Proof.
  revert ys. induction xs as [|x xs IH]; simpl; intros ys.
  - by intros [= <-].
  - destruct (f x); [|done]. simpl. destruct (mapM f xs); [|done]. simpl.
    intros [= <-]. simpl. f_equal. by apply IH.
Qed.

Lemma styled_in_skill_lines kvs lines :
  mapM skill_line kvs = Ok lines → styled_in ["SkillLine"] lines.
Proof.
  intros H. unfold styled_in, all_paragraphs.
  rewrite <- (app_nil_r lines). clear -H. revert lines H.
  induction kvs as [|kv kvs IH]; simpl; intros lines.
  - intros [= <-]. constructor.
  - unfold skill_line at 1.
    destruct (Py.join_iter ", " (snd kv)); [|done]. simpl.
    destruct (mapM skill_line kvs) as [ls|]; [|done]. simpl. intros [= <-].
    simpl. constructor; [simpl; in_list|]. by apply IH.
Qed.

Lemma get_truthy_subscript d k v :
  Py.get d k (JObj []) = Ok v → Py.truthy v = true → Py.subscript d k = Ok v.
Proof.
  destruct d; try done. simpl. destruct (Py.assoc k fields); [done|].
  by intros [= <-].
Qed.

Lemma run_skills_section resume o :
  Story.run (Resume.skills_section Resume.Inter resume_styles resume) = Ok o →
  ∃ skills, Py.get resume "skills" (JObj []) = Ok skills ∧
    if Py.truthy skills
    then ∃ kvs lines, skills = JObj kvs ∧ mapM skill_line kvs = Ok lines ∧
           o = section_heading "Technical Skills" ++ lines
    else o = [].
Proof.
  unfold Resume.skills_section. rewrite run_eval_bind.
  destruct (Py.get resume "skills" _) as [skills|] eqn:Hg; [|done].
  cbn [rbind]. rewrite run_when. intros H. exists skills. split; [done|].
  destruct (Py.truthy skills) eqn:Ht; [|by injection H].
  rewrite run_eval_bind, render_section_title_resume in H. cbn [rbind] in H.
  rewrite run_seq, run_extend in H by appending. cbn [rbind] in H.
  rewrite run_eval_bind, (get_truthy_subscript _ _ _ Hg Ht) in H.
  cbn [rbind] in H.
  rewrite run_eval_bind, render_key_value_lines_resume in H.
  destruct skills as [| | | | |kvs]; try done. cbn [Py.items rbind] in H.
  destruct (mapM skill_line kvs) as [lines|] eqn:Hl; [|done].
  cbn [rbind] in H. rewrite run_extend in H. injection H as <-.
  by exists kvs, lines.
Qed.

(** ** The resume as a whole *)

Lemma resume_story_inv resume story :
  resume_story resume = Ok story →
  ∃ h edus ed exps ex projs pr sk,
    Story.run (Resume.header resume_styles resume) = Ok h ∧
    Py.get resume "education" (JArr []) = Ok edus ∧
    Story.run (Resume.section resume_styles "Education" edus
      (Resume.education_entry Resume.Inter Resume.module_avail_width)) = Ok ed ∧
    Py.get resume "experience" (JArr []) = Ok exps ∧
    Story.run (Resume.section resume_styles "Experience" exps
      (Resume.experience_entry Resume.Inter Resume.module_avail_width)) = Ok ex ∧
    Py.get resume "projects" (JArr []) = Ok projs ∧
    Story.run (Resume.section resume_styles "Projects" projs
      (Resume.project_entry Resume.Inter Resume.module_avail_width)) = Ok pr ∧
    Story.run (Resume.skills_section Resume.Inter resume_styles resume) = Ok sk ∧
    story = h ++ ed ++ ex ++ pr ++ sk.
Proof.
  unfold resume_story. rewrite run_build_story, make_styles_Inter.
  cbn [rbind].
  destruct (Story.run (Resume.header _ _)) as [h|] eqn:?; [|done]. cbn [rbind].
  destruct (Py.get resume "education" _) as [edus|] eqn:?; [|done]. cbn [rbind].
  destruct (Story.run (Resume.section _ "Education" _ _)) as [ed|] eqn:?; [|done].
  cbn [rbind].
  destruct (Py.get resume "experience" _) as [exps|] eqn:?; [|done]. cbn [rbind].
  destruct (Story.run (Resume.section _ "Experience" _ _)) as [ex|] eqn:?; [|done].
  cbn [rbind].
  destruct (Py.get resume "projects" _) as [projs|] eqn:?; [|done]. cbn [rbind].
  destruct (Story.run (Resume.section _ "Projects" _ _)) as [pr|] eqn:?; [|done].
  cbn [rbind].
  destruct (Story.run (Resume.skills_section _ _ _)) as [sk|] eqn:?; [|done].
  cbn [rbind]. intros [= <-].
  eexists _, _, _, _, _, _, _, _. repeat split; try eassumption; reflexivity.
Qed.

Ltac sub_list :=
  let x := fresh in
  let Hx := fresh in
  intros x Hx;
  repeat (apply elem_of_cons in Hx; destruct Hx as [->|Hx];
          [unfold entry_styles; in_list|]);
  by apply elem_of_nil in Hx.

Lemma styled_in_weaken names names' o :
  names ⊆ names' → styled_in names o → styled_in names' o.
Proof.
  intros Hsub Ho. unfold styled_in. eapply Forall_impl; [exact Ho|].
  intros p Hp. by apply Hsub.
Qed.

Lemma section_block_of title xs entry o :
  (∀ x, appending (entry resume_styles x)) →
  (∀ x o', Story.run (entry resume_styles x) = Ok o' → styled_in entry_styles o') →
  Story.run (Resume.section resume_styles title xs entry) = Ok o →
  section_block entry_styles title xs o.
Proof.
  intros Ha Hs H. apply run_section in H; [|done].
  unfold section_block. destruct (Py.truthy xs); [|done].
  destruct H as (entries & os & _ & Hos & ->).
  exists (concat os). split; [done|].
  apply styled_in_concat. eapply mapM_Forall; [|exact Hos]. apply Hs.
Qed.

Lemma section_block_skills resume o :
  Story.run (Resume.skills_section Resume.Inter resume_styles resume) = Ok o →
  ∃ skills, Py.get resume "skills" (JObj []) = Ok skills ∧
            section_block ["SkillLine"] "Technical Skills" skills o.
Proof.
  intros (skills & Hg & H)%run_skills_section. exists skills. split; [done|].
  unfold section_block. destruct (Py.truthy skills); [|done].
  destruct H as (kvs & lines & _ & Hl & ->). exists lines. split; [done|].
  by eapply styled_in_skill_lines.
Qed.

Lemma section_block_headings names title v o :
  "Section" ∉ names →
  section_block names title v o →
  headings o = if Py.truthy v then [title] else [].
Proof.
  intros Hn. unfold section_block. destruct (Py.truthy v); [|by intros ->].
  intros (body & -> & Hb). unfold headings.
  rewrite texts_in_app. fold (headings (section_heading title)).
  rewrite headings_section_heading.
  by rewrite (styled_in_texts _ _ _ Hb).
Qed.

Lemma section_block_texts names n title v o :
  n ≠ "Section" → n ∉ names →
  section_block names title v o → texts_in n o = [].
Proof.
  intros Hs Hn. unfold section_block. destruct (Py.truthy v); [|by intros ->].
  intros (body & -> & Hb). rewrite texts_in_app.
  rewrite (styled_in_texts _ _ _ (styled_in_section_heading title)),
    (styled_in_texts _ _ _ Hb); [done..|].
  intros [->|H]%elem_of_cons; [done|]. by apply elem_of_nil in H.
Qed.


Lemma styled_in_header resume h :
  Story.run (Resume.header resume_styles resume) = Ok h →
  styled_in ["Name"; "Contact"] h.
Proof.
  intros (basics & name & contact & status & _ & _ & _ & _ & _ & _ & ->)
    %run_header.
  apply styled_in_app; [|apply styled_in_app; [|apply styled_in_spacer]].
  - destruct (Py.truthy name); [|constructor].
    constructor; [|constructor]. simpl. in_list.
  - destruct (String.eqb contact ""); [constructor|].
    constructor; [|constructor; [|constructor]]; simpl; in_list.
Qed.

(** The shape of every resume story: the header, then one block per
    section in the fixed order, each empty when its value is falsy. *)
Lemma resume_story_shape resume story :
  resume_story resume = Ok story →
  ∃ edus exps projs skills h ed ex pr sk,
    Py.get resume "education" (JArr []) = Ok edus ∧
    Py.get resume "experience" (JArr []) = Ok exps ∧
    Py.get resume "projects" (JArr []) = Ok projs ∧
    Py.get resume "skills" (JObj []) = Ok skills ∧
    Story.run (Resume.header resume_styles resume) = Ok h ∧
    section_block entry_styles "Education" edus ed ∧
    section_block entry_styles "Experience" exps ex ∧
    section_block entry_styles "Projects" projs pr ∧
    section_block ["SkillLine"] "Technical Skills" skills sk ∧
    story = h ++ ed ++ ex ++ pr ++ sk.
Proof.
  intros (h & edus & ed & exps & ex & projs & pr & sk
          & Hh & Hedus & Hed & Hexps & Hex & Hprojs & Hpr & Hsk & ->)
    %resume_story_inv.
  apply section_block_skills in Hsk as (skills & Hskills & Hsk).
  exists edus, exps, projs, skills, h, ed, ex, pr, sk.
  repeat split; try done.
  - eapply section_block_of; [| |exact Hed]; [appending|].
    intros x o'. apply styled_in_education_entry.
  - eapply section_block_of; [| |exact Hex]; [appending|].
    intros x o'. apply styled_in_experience_entry.
  - eapply section_block_of; [| |exact Hpr]; [appending|].
    intros x o'. apply styled_in_project_entry.
Qed.

Lemma headings_header resume h :
  Story.run (Resume.header resume_styles resume) = Ok h → headings h = [].
Proof.
  intros Hh%styled_in_header. eapply styled_in_texts; [exact Hh|]. not_in_list.
Qed.

Lemma resume_story_headings resume story :
  resume_story resume = Ok story →
  ∃ edus exps projs skills,
    Py.get resume "education" (JArr []) = Ok edus ∧
    Py.get resume "experience" (JArr []) = Ok exps ∧
    Py.get resume "projects" (JArr []) = Ok projs ∧
    Py.get resume "skills" (JObj []) = Ok skills ∧
    headings story = present_titles edus exps projs skills.
Proof.
  intros (edus & exps & projs & skills & h & ed & ex & pr & sk
          & ? & ? & ? & ? & Hh & Hed & Hex & Hpr & Hsk & ->)
    %resume_story_shape.
  exists edus, exps, projs, skills. repeat split; try done.
  unfold headings. rewrite !texts_in_app. fold (headings h) (headings ed)
    (headings ex) (headings pr) (headings sk).
  rewrite (headings_header _ _ Hh).
  rewrite (section_block_headings entry_styles _ _ _ ltac:(unfold entry_styles; not_in_list) Hed),
    (section_block_headings entry_styles _ _ _ ltac:(unfold entry_styles; not_in_list) Hex),
    (section_block_headings entry_styles _ _ _ ltac:(unfold entry_styles; not_in_list) Hpr),
    (section_block_headings ["SkillLine"] _ _ _ ltac:(not_in_list) Hsk).
  reflexivity.
Qed.



Lemma jane_doe_story_ok : resume_story jane_doe = Ok jane_doe_story.
Proof. vm_compute. reflexivity. Qed.


(** ** The header *)

Lemma join_nonempty sep s ss : s ≠ "" → Py.join sep (s :: ss) ≠ "".
Proof. destruct s; [done|]. destruct ss; done. Qed.

Lemma join_values_empty_iff vs contact :
  Forall (λ v, Py.truthy v = true) vs →
  Py.join_values " | " vs = Ok contact →
  (contact = "" ↔ vs = []).
Proof.
  unfold Py.join_values. intros Hall.
  destruct vs as [|v vs]; simpl.
  - intros [= <-]. done.
  - destruct (Py.as_str v) as [s|] eqn:Hs; [|done]. simpl.
    destruct (mapM Py.as_str vs) as [ss|]; [|done]. simpl.
    intros [= <-]. split; [|done]. intros He. exfalso.
    apply (join_nonempty " | " s ss); [|exact He].
    apply Forall_cons in Hall as [Hv _].
    destruct v; try done. simpl in Hs. injection Hs as <-.
    simpl in Hv. intros ->. done.
Qed.

Lemma join_contact_line_fields basics contact :
  Resume.join_contact_line basics = Ok contact →
  Py.join_values " | " (contact_fields basics) = Ok contact.
Proof.
  unfold Resume.join_contact_line. destruct basics; try done.
  unfold contact_fields. cbn [Resume.contact_parts Py.get rbind map List.filter].
  repeat (destruct (Py.truthy _)); cbn [app]; done.
Qed.

Lemma contact_fields_truthy basics :
  Forall (λ v, Py.truthy v = true) (contact_fields basics).
Proof.
  destruct basics; try constructor. unfold contact_fields.
  apply Forall_forall. intros v Hv. apply list_elem_of_In in Hv.
  by apply List.filter_In in Hv as [_ Hv].
Qed.

(** C10.  The status line goes with the contact line.  Whenever the story
    is built, its paragraphs in the Contact style are: none when the
    joined contact line is empty (also when a status is given), and the
    contact line followed by the status when it is not (the status being
    the empty text when the key is absent).  The contact line joins by
    [" | "] the values of email, phone, linkedin and github that are
    present and not empty, and it is empty exactly when there is none. *)
Theorem status_line_iff_contact_line resume story :
  resume_story resume = Ok story →
  ∃ basics contact status,
    Py.get resume "basics" (JObj []) = Ok basics ∧
    Py.join_values " | " (contact_fields basics) = Ok contact ∧
    (contact = "" ↔ contact_fields basics = []) ∧
    Py.get basics "status" (JStr "") = Ok status ∧
    (contact ≠ "" → status = JStr (text_of status)) ∧
    texts_in "Contact" story
    = if String.eqb contact "" then [] else [contact; text_of status].
Proof.
  intros (edus & exps & projs & skills & h & ed & ex & pr & sk
          & _ & _ & _ & _ & Hh & Hed & Hex & Hpr & Hsk & ->)
    %resume_story_shape.
  apply run_header in Hh
    as (basics & name & contact & status & Hb & _ & Hc & Hs & _ & Hst & ->).
  apply join_contact_line_fields in Hc.
  exists basics, contact, status. repeat split; try done.
  - by apply (join_values_empty_iff _ _ (contact_fields_truthy basics)) in Hc
      as [H _].
  - by apply (join_values_empty_iff _ _ (contact_fields_truthy basics)) in Hc
      as [_ H].
  - rewrite !texts_in_app.
    rewrite (section_block_texts entry_styles "Contact" _ _ _ ltac:(done)
               ltac:(unfold entry_styles; not_in_list) Hed),
      (section_block_texts entry_styles "Contact" _ _ _ ltac:(done)
         ltac:(unfold entry_styles; not_in_list) Hex),
      (section_block_texts entry_styles "Contact" _ _ _ ltac:(done)
         ltac:(unfold entry_styles; not_in_list) Hpr),
      (section_block_texts ["SkillLine"] "Contact" _ _ _ ltac:(done)
         ltac:(not_in_list) Hsk).
    rewrite !app_nil_r.
    destruct (Py.truthy name), (String.eqb contact ""); reflexivity.
Qed.

(** ** The cover letter *)

Lemma letter_make_styles : CoverLetter.make_styles = Ok letter_styles.
Proof. vm_compute. reflexivity. Qed.

Lemma letter_style_at n :
  n ∈ ["Header"; "Body"; "Closing"] →
  style_at letter_styles n = Ok (letter_style n).
Proof.
  intros H.
  repeat (apply elem_of_cons in H; destruct H as [->|H];
          [vm_compute; reflexivity|]).
  by apply elem_of_nil in H.
Qed.

Lemma run_say v n :
  n ∈ ["Header"; "Body"; "Closing"] →
  Story.run (CoverLetter.say letter_styles v n)
  = let* txt := v in
    let* p := Paragraph txt (letter_style n) in
    Ok [FParagraph p].
Proof.
  intros Hn. unfold CoverLetter.say. rewrite run_eval_bind.
  destruct v as [txt|]; [|done]. cbn [rbind].
  rewrite run_eval_bind, letter_style_at by done. cbn [rbind].
  rewrite run_eval_bind. by destruct (Paragraph txt _).
Qed.

Lemma run_say_body paragraphs os :
  mapM (λ x, Story.run (CoverLetter.say letter_styles (Ok x) "Body")) paragraphs
  = Ok os →
  ∃ texts, paragraphs = map JStr texts ∧ concat os = letter_body texts.
Proof.
  revert os. induction paragraphs as [|x xs IH]; simpl; intros os.
  - intros [= <-]. by exists [].
  - rewrite run_say by in_list. cbn [rbind].
    destruct (Paragraph x _) as [p|] eqn:Hp; [|done].
    apply Paragraph_inv in Hp as [-> ->]. cbn [rbind].
    destruct (mapM _ xs) as [os'|]; [|done]. cbn [rbind]. intros [= <-].
    destruct (IH os' eq_refl) as (texts & -> & Hc).
    exists (text_of x :: texts). split; [done|]. simpl. by rewrite Hc.
Qed.

(** The shape of every cover-letter story: header, then date and
    greeting, then the body paragraphs in input order, then the closing. *)
Lemma letter_story_shape today applicant document story :
  Story.run (CoverLetter.build_story today applicant document) = Ok story →
  ∃ name email phone linkedin github recipient title body texts closing
    signature cname,
    CoverLetter.field applicant "name" = Ok name ∧
    CoverLetter.field applicant "email" = Ok email ∧
    CoverLetter.field applicant "phone" = Ok phone ∧
    CoverLetter.field applicant "linkedin" = Ok linkedin ∧
    CoverLetter.field applicant "github" = Ok github ∧
    Py.subscript document "recipient" = Ok recipient ∧
    CoverLetter.field recipient "title" = Ok title ∧
    Py.subscript document "body" = Ok body ∧
    Py.iter body = Ok (map JStr texts) ∧
    Py.subscript document "closing" = Ok closing ∧
    Py.subscript closing "signature" = Ok (JStr signature) ∧
    Py.subscript closing "name" = Ok (JStr cname) ∧
    story = letter_header name email phone linkedin github
            ++ letter_opening today title
            ++ letter_body texts
            ++ letter_closing signature cname.
Proof.
  unfold CoverLetter.build_story.
  rewrite run_eval_bind, letter_make_styles. cbn [rbind].
  rewrite run_seq, run_say by (appending || in_list).
  destruct (CoverLetter.field applicant "name") as [name|] eqn:Hname; [|done].
  cbn [rbind Paragraph].
  rewrite run_seq, run_say by (appending || in_list).
  destruct (CoverLetter.field applicant "email") as [email|] eqn:Hemail; [|done].
  cbn [rbind].
  destruct (CoverLetter.field applicant "phone") as [phone|] eqn:Hphone; [|done].
  cbn [rbind Paragraph].
  rewrite run_seq, run_say by (appending || in_list).
  destruct (CoverLetter.field applicant "linkedin") as [linkedin|] eqn:Hl; [|done].
  cbn [rbind].
  destruct (CoverLetter.field applicant "github") as [github|] eqn:Hg; [|done].
  cbn [rbind Paragraph].
  rewrite run_seq, run_append by appending. cbn [rbind].
  rewrite run_eval_bind.
  destruct (Py.subscript document "recipient") as [recipient|] eqn:Hr; [|done].
  cbn [rbind].
  rewrite run_seq, run_say by (appending || in_list). cbn [rbind Paragraph].
  rewrite run_seq, run_say by (appending || in_list).
  destruct (CoverLetter.field recipient "title") as [title|] eqn:Ht; [|done].
  cbn [rbind Paragraph].
  rewrite run_seq, run_append by appending. cbn [rbind].
  rewrite run_eval_bind.
  destruct (Py.subscript document "body") as [body|] eqn:Hb; [|done].
  cbn [rbind]. rewrite run_eval_bind.
  destruct (Py.iter body) as [paragraphs|] eqn:Hi; [|done]. cbn [rbind].
  rewrite run_seq by appending. rewrite run_for_each by (intros; appending).
  destruct (mapM _ paragraphs) as [os|] eqn:Hos; [|done]. cbn [rbind].
  apply run_say_body in Hos as (texts & -> & ->).
  rewrite run_eval_bind.
  destruct (Py.subscript document "closing") as [closing|] eqn:Hc; [|done].
  cbn [rbind].
  rewrite run_seq, !run_say by (appending || in_list).
  destruct (Py.subscript closing "signature") as [sg|] eqn:Hsg; [|done].
  cbn [rbind].
  destruct (Paragraph sg _) as [p|] eqn:Hp; [|done].
  apply Paragraph_inv in Hp as [Hsg' ->]. cbn [rbind].
  destruct (Py.subscript closing "name") as [cn|] eqn:Hcn; [|done].
  cbn [rbind].
  destruct (Paragraph cn _) as [q|] eqn:Hq; [|done].
  apply Paragraph_inv in Hq as [Hcn' ->]. cbn [rbind].
  intros [= <-].
  exists name, email, phone, linkedin, github, recipient, title, body, texts,
    closing, (text_of sg), (text_of cn).
  rewrite <- Hsg', <- Hcn'. repeat split; try done.
Qed.

Lemma sam_lee_story_ok : resume_story sam_lee = Ok sam_lee_story.
Proof. vm_compute. reflexivity. Qed.

Lemma letter_story_nov_9_ok : letter_story nov_9_2025 = Ok letter_story_nov_9.
Proof. vm_compute. reflexivity. Qed.

Lemma status_line_iff_contact_line_witness :
  ∃ basics contact status,
    Py.get sam_lee "basics" (JObj []) = Ok basics ∧
    Py.join_values " | " (contact_fields basics) = Ok contact ∧
    (contact = "" ↔ contact_fields basics = []) ∧
    Py.get basics "status" (JStr "") = Ok status ∧
    (contact ≠ "" → status = JStr (text_of status)) ∧
    texts_in "Contact" sam_lee_story
    = if String.eqb contact "" then [] else [contact; text_of status].
Proof.
  exact (status_line_iff_contact_line sam_lee sam_lee_story sam_lee_story_ok).
Defined.

(** ** Section order *)

(** C9.  The blocks come in a fixed section order.  A resume story is the
    header blocks (paragraphs in the Name and Contact styles, then a
    spacer), then the Education, Experience, Projects and Skills blocks in
    that order, each one empty when the value of its key is falsy and
    otherwise its heading followed by blocks without headings; so the
    headings of the story are the titles of the present sections in that
    order.  A cover-letter story is the header, then the date and the
    greeting, then one paragraph per body entry in input order, then the
    closing. *)
Theorem fixed_section_order :
  (∀ resume story,
      resume_story resume = Ok story →
      ∃ edus exps projs skills h ed ex pr sk,
        Py.get resume "education" (JArr []) = Ok edus ∧
        Py.get resume "experience" (JArr []) = Ok exps ∧
        Py.get resume "projects" (JArr []) = Ok projs ∧
        Py.get resume "skills" (JObj []) = Ok skills ∧
        story = h ++ ed ++ ex ++ pr ++ sk ∧
        styled_in ["Name"; "Contact"] h ∧
        last h = Some (FSpacer (1 # 1) (1 # 1)) ∧
        section_block entry_styles "Education" edus ed ∧
        section_block entry_styles "Experience" exps ex ∧
        section_block entry_styles "Projects" projs pr ∧
        section_block ["SkillLine"] "Technical Skills" skills sk ∧
        headings story = present_titles edus exps projs skills)
  ∧ (∀ today applicant document story,
      Story.run (CoverLetter.build_story today applicant document) = Ok story →
      ∃ name email phone linkedin github recipient title body texts closing
        signature cname,
        CoverLetter.field applicant "name" = Ok name ∧
        CoverLetter.field applicant "email" = Ok email ∧
        CoverLetter.field applicant "phone" = Ok phone ∧
        CoverLetter.field applicant "linkedin" = Ok linkedin ∧
        CoverLetter.field applicant "github" = Ok github ∧
        Py.subscript document "recipient" = Ok recipient ∧
        CoverLetter.field recipient "title" = Ok title ∧
        Py.subscript document "body" = Ok body ∧
        Py.iter body = Ok (map JStr texts) ∧
        Py.subscript document "closing" = Ok closing ∧
        Py.subscript closing "signature" = Ok (JStr signature) ∧
        Py.subscript closing "name" = Ok (JStr cname) ∧
        story = letter_header name email phone linkedin github
                ++ letter_opening today title
                ++ letter_body texts
                ++ letter_closing signature cname).
Proof.
  split.
  - intros resume story Hs.
    destruct (resume_story_headings _ _ Hs)
      as (edus' & exps' & projs' & skills' & He' & Hx' & Hp' & Hk' & Hh).
    destruct (resume_story_shape _ _ Hs)
      as (edus & exps & projs & skills & h & ed & ex & pr & sk
          & He & Hx & Hp & Hk & Hrun & Hed & Hex & Hpr & Hsk & ->).
    rewrite He in He'. rewrite Hx in Hx'. rewrite Hp in Hp'. rewrite Hk in Hk'.
    injection He' as <-. injection Hx' as <-. injection Hp' as <-.
    injection Hk' as <-.
    exists edus, exps, projs, skills, h, ed, ex, pr, sk.
    repeat split; try done.
    + by eapply styled_in_header.
    + apply run_header in Hrun
        as (? & ? & ? & ? & _ & _ & _ & _ & _ & _ & ->).
      by rewrite !app_assoc, last_snoc.
  - apply letter_story_shape.
Qed.

Lemma fixed_section_order_witness :
  headings sam_lee_story = ["Education"; "Experience"]
  ∧ ∃ texts,
      Py.iter (JArr [JStr "I am writing to apply."; JStr "Thank you."])
      = Ok (map JStr texts)
      ∧ letter_story_nov_9
        = letter_header "Sam Lee" "sam@lee.io" "555-0100" "linkedin.com/in/sam"
            "github.com/sam"
          ++ letter_opening nov_9_2025 "Hiring Manager"
          ++ letter_body texts
          ++ letter_closing "Sincerely," "Sam Lee".
Proof.
  destruct fixed_section_order as [Hresume Hletter]. split.
  - destruct (Hresume sam_lee sam_lee_story sam_lee_story_ok)
      as (edus & exps & projs & skills & h & ed & ex & pr & sk
          & He & Hx & Hp & Hk & _ & _ & _ & _ & _ & _ & _ & ->).
    vm_compute in He, Hx, Hp, Hk. simplify_eq. reflexivity.
  - destruct (Hletter nov_9_2025 letter_applicant letter_document
                letter_story_nov_9 letter_story_nov_9_ok)
      as (name & email & phone & linkedin & github & recipient & title & body
          & texts & closing & sg & cn & H1 & H2 & H3 & H4 & H5 & H6 & H7 & H8
          & H9 & H10 & H11 & H12 & ->).
    vm_compute in H1, H2, H3, H4, H5, H6. simplify_eq.
    vm_compute in H7, H8. simplify_eq.
    vm_compute in H10. simplify_eq. vm_compute in H11, H12. simplify_eq.
    exists texts. split; [exact H9|reflexivity].
Defined.

(** ** Education entries *)






(** ** The skills block of the sample resume *)

(** C7.  For every resume whose skills mapping is
    [{"Programming": ["Python", "Go"]}], the skills block is the heading
    followed by exactly one line: the story ends with the Technical Skills
    heading and one paragraph whose text holds [Programming:] and then
    [Python, Go], and that paragraph is the only one in the skills line
    style.  In general the block has one line per category, in the order
    of the mapping. *)
Theorem skills_block_one_line :
  (∀ resume story,
      Py.get resume "skills" (JObj [])
      = Ok (JObj [("Programming", JArr [JStr "Python"; JStr "Go"])]) →
      resume_story resume = Ok story →
      ∃ pre line a b,
        story = pre ++ section_heading "Technical Skills"
                    ++ [FParagraph (para skill_line_style line)] ∧
        line = a +:+ "Programming:" +:+ b +:+ "Python, Go" ∧
        texts_in "SkillLine" story = [line])
  ∧ (∀ resume story kvs,
      Py.get resume "skills" (JObj []) = Ok (JObj kvs) →
      resume_story resume = Ok story →
      ∃ joined,
        mapM (λ kv, Py.join_iter ", " (snd kv)) kvs = Ok joined ∧
        texts_in "SkillLine" story
        = zip_with skill_line_text (map fst kvs) joined).
Proof.
  assert (Hgen : ∀ resume story kvs,
      Py.get resume "skills" (JObj []) = Ok (JObj kvs) →
      resume_story resume = Ok story →
      ∃ pre lines joined,
        story = pre ++ (if Py.truthy (JObj kvs)
                        then section_heading "Technical Skills" else [])
                    ++ lines ∧
        mapM skill_line kvs = Ok lines ∧
        mapM (λ kv, Py.join_iter ", " (snd kv)) kvs = Ok joined ∧
        texts_in "SkillLine" story
        = zip_with skill_line_text (map fst kvs) joined).
  { intros resume story kvs Hget Hs.
    apply resume_story_inv in Hs
      as (h & edus & ed & exps & ex & projs & pr & sk'
          & Hh & _ & Hed & _ & Hex & _ & Hpr & Hsk & Heq).
    apply section_block_of in Hed; [|intros; appending|];
      [|intros x o'; apply styled_in_education_entry].
    apply section_block_of in Hex; [|intros; appending|];
      [|intros x o'; apply styled_in_experience_entry].
    apply section_block_of in Hpr; [|intros; appending|];
      [|intros x o'; apply styled_in_project_entry].
    apply run_skills_section in Hsk as (skills' & Hk' & Hsk).
    rewrite Hget in Hk'. injection Hk' as <-.
    assert (Hlines : ∃ lines, mapM skill_line kvs = Ok lines ∧
              sk' = (if Py.truthy (JObj kvs)
                     then section_heading "Technical Skills" else []) ++ lines).
    { destruct kvs as [|kv kvs]; [exists []; by subst|].
      destruct Hsk as (kvs' & lines & [= <-] & Hl & ->). eauto. }
    destruct Hlines as (lines & Hl & ->).
    assert (Hj : ∃ joined,
              mapM (λ kv, Py.join_iter ", " (snd kv)) kvs = Ok joined ∧
              texts_in "SkillLine" lines
              = zip_with skill_line_text (map fst kvs) joined).
    { clear -Hl. revert lines Hl. induction kvs as [|kv kvs IH]; intros lines.
      - intros [= <-]. by exists [].
      - simpl. unfold skill_line at 1.
        destruct (Py.join_iter ", " (snd kv)) as [j|]; [|done]. simpl.
        destruct (mapM skill_line kvs) as [ls|]; [|done]. simpl.
        intros [= <-]. destruct (IH ls eq_refl) as (js & -> & Hjs).
        exists (j :: js). split; [done|].
        change (texts_in "SkillLine" (FParagraph _ :: ls))
          with (skill_line_text kv.1 j :: texts_in "SkillLine" ls).
        by rewrite Hjs. }
    destruct Hj as (joined & Hj & Ht).
    assert (Hh' : texts_in "SkillLine" h = []).
    { eapply styled_in_texts; [by eapply styled_in_header|]. not_in_list. }
    exists (h ++ ed ++ ex ++ pr), lines, joined.
    split; [|split; [done|split; [done|]]].
    - rewrite Heq. by rewrite <- !app_assoc.
    - rewrite Heq, !texts_in_app, Hh'.
      rewrite (section_block_texts entry_styles "SkillLine" _ _ _ ltac:(done)
                 ltac:(unfold entry_styles; not_in_list) Hed),
        (section_block_texts entry_styles "SkillLine" _ _ _ ltac:(done)
           ltac:(unfold entry_styles; not_in_list) Hex),
        (section_block_texts entry_styles "SkillLine" _ _ _ ltac:(done)
           ltac:(unfold entry_styles; not_in_list) Hpr).
      rewrite Ht. destruct (Py.truthy (JObj kvs)); [|done].
      by rewrite (styled_in_texts _ _ _ (styled_in_section_heading _))
        by not_in_list. }
  split.
  - intros resume story Hget Hs.
    destruct (Hgen _ _ _ Hget Hs) as (pre & lines & joined & -> & Hl & Hj & Ht).
    vm_compute in Hl. injection Hl as <-.
    vm_compute in Hj. injection Hj as <-.
    exists pre, (skill_line_text "Programming" "Python, Go"),
      ("<font name=" +:+ dquote +:+ "Inter-Bold" +:+ dquote +:+ ">"),
      "</font> ".
    split; [reflexivity|]. split; [reflexivity|]. exact Ht.
  - intros resume story kvs Hget Hs.
    destruct (Hgen _ _ _ Hget Hs) as (pre & lines & joined & _ & _ & Hj & Ht).
    eauto.
Qed.

Lemma skills_block_one_line_witness :
  ∃ pre line a b,
    jane_doe_story = pre ++ section_heading "Technical Skills"
                         ++ [FParagraph (para skill_line_style line)] ∧
    line = a +:+ "Programming:" +:+ b +:+ "Python, Go" ∧
    texts_in "SkillLine" jane_doe_story = [line].
Proof.
  destruct skills_block_one_line as [H _].
  exact (H jane_doe jane_doe_story eq_refl jane_doe_story_ok).
Defined.

(** ** Reading and writing files *)

Lemma is_dir_put fs l c l' : FS.is_dir (FS.put fs l c) l' = FS.is_dir fs l'.
Proof. reflexivity. Qed.

Lemma kind_of_dir fs l : FS.kind_of fs l = Dir ↔ FS.is_dir fs l = true.
Proof.
  unfold FS.kind_of. destruct (FS.is_dir fs l); [done|].
  by destruct (files fs !! l).
Qed.

Lemma walk_put fs l c cur comps d :
  FS.walk fs cur comps = Ok d → FS.walk (FS.put fs l c) cur comps = Ok d.
Proof.
  revert cur. induction comps as [|x comps IH]; intros cur; [done|].
  cbn [FS.walk]. destruct (FS.kind_of fs cur) eqn:Hk; try done.
  apply kind_of_dir in Hk. rewrite <- (is_dir_put fs l c) in Hk.
  apply kind_of_dir in Hk. rewrite Hk.
  repeat case_match; apply IH.
Qed.

Lemma resolve_put fs l c p d :
  FS.resolve fs p = Ok d → FS.resolve (FS.put fs l c) p = Ok d.
Proof.
  unfold FS.resolve. destruct (String.eqb p ""); [done|]. apply walk_put.
Qed.

(** A successful write leaves the content at the path and changes
    neither the directories nor any other file. *)
Lemma write_ok fs p c fs' :
  FS.write fs p c = (Ok tt, fs') →
  ∃ l, FS.resolve fs p = Ok l ∧ fs' = FS.put fs l c ∧
       FS.is_dir fs l = false ∧ FS.read fs' p = Ok c.
Proof.
  unfold FS.write. destruct (FS.resolve fs p) as [l|] eqn:Hr; [|done].
  assert (Hread : FS.is_dir fs l = false → FS.read (FS.put fs l c) p = Ok c).
  { intros Hd. unfold FS.read. rewrite (resolve_put _ l c _ _ Hr). cbn [rbind].
    unfold FS.kind_of. rewrite is_dir_put, Hd. cbn [files FS.put].
    by rewrite lookup_insert_eq. }
  unfold FS.kind_of at 1. destruct (FS.is_dir fs l) eqn:Hd; [done|].
  destruct (files fs !! l).
  - intros [= <-]. exists l. auto.
  - destruct (FS.kind_of fs (FS.parent l)); try done.
    intros [= <-]. exists l. auto.
Qed.


Lemma write_fail fs p c e fs' : FS.write fs p c = (Raise e, fs') → fs' = fs.
Proof.
  unfold FS.write. repeat case_match; by intros [= <-].
Qed.

(** ** Malformed JSON *)

(** C4.  A JSON file that does not decode stops the run before anything
    is written.  When the file named by [--json] holds anything but a
    JSON text, the cover-letter program ends with the parse error and the
    file system is left as it was; so does the resume program once its
    fonts are registered (and without them it ends with the font error,
    the file system again untouched).  No file is created at [--out]. *)
Theorem malformed_json_is_fatal :
  (∀ today args fs c,
      FS.read fs (json_path args) = Ok c → (∀ j, c ≠ JsonText j) →
      CoverLetter.program today args fs = (Raise JSONDecodeError, fs))
  ∧ (∀ args fs c family,
      Resume.register_family fs "./font" "Inter" = Ok family →
      FS.read fs (json_path args) = Ok c → (∀ j, c ≠ JsonText j) →
      Resume.program args fs = (Raise JSONDecodeError, fs))
  ∧ (∀ args fs c,
      FS.read fs (json_path args) = Ok c → (∀ j, c ≠ JsonText j) →
      ∃ e, Resume.program args fs = (Raise e, fs)).
Proof.
  split; [|split].
  - intros today args fs c Hr Hc.
    unfold CoverLetter.program, CoverLetter.json_to_pdf. rewrite Hr.
    destruct c; try done. by destruct (Hc j).
  - intros args fs c family Hf Hr Hc.
    unfold Resume.program, Resume.main. rewrite Hf, Hr.
    destruct c; try done. by destruct (Hc j).
  - intros args fs c Hr Hc. unfold Resume.program, Resume.main.
    destruct (Resume.register_family _ _ _); [|eauto]. rewrite Hr.
    destruct c; eauto. by destruct (Hc j).
Qed.

Lemma malformed_json_is_fatal_witness :
  CoverLetter.program nov_9_2025
    {| json_path := "broken.json"; out_path := "out/cl.pdf" |} sample_fs
  = (Raise JSONDecodeError, sample_fs)
  ∧ Resume.program {| json_path := "broken.json"; out_path := "r.pdf" |} sample_fs
    = (Raise JSONDecodeError, sample_fs)
  ∧ ∃ e, Resume.program {| json_path := "broken.json"; out_path := "r.pdf" |}
           sample_fs = (Raise e, sample_fs).
Proof.
  destruct malformed_json_is_fatal as (H1 & H2 & H3).
  assert (Hr : ∀ out, FS.read sample_fs
                 (json_path {| json_path := "broken.json"; out_path := out |})
               = Ok Malformed) by (intros; vm_compute; reflexivity).
  split; [|split].
  - apply (H1 _ _ _ Malformed (Hr _)). intros j. discriminate.
  - apply (H2 _ _ Malformed Resume.Inter); [vm_compute; reflexivity|apply Hr|].
    intros j. discriminate.
  - apply (H3 _ _ Malformed (Hr _)). intros j. discriminate.
Defined.

(** ** Missing keys *)

Lemma assoc_app_absent k k' fields v :
  Py.assoc k fields = None →
  Py.assoc k' (fields ++ [(k, v)])
  = if String.eqb k' k then Some v else Py.assoc k' fields.
Proof.
  intros Hk. induction fields as [|[k0 v0] fields IH]; simpl.
  - by destruct (String.eqb k' k).
  - simpl in Hk. destruct (String.eqb k k0) eqn:E0; [done|].
    destruct (String.eqb k' k0) eqn:E1.
    + apply String.eqb_eq in E1 as ->.
      destruct (String.eqb k0 k) eqn:E2; [|done].
      apply String.eqb_eq in E2 as ->. by rewrite String.eqb_refl in E0.
    + by apply IH.
Qed.

Lemma header_ext styles r r' :
  Py.get r' "basics" (JObj []) = Py.get r "basics" (JObj []) →
  Resume.header styles r' = Resume.header styles r.
Proof. intros Hb. unfold Resume.header. by rewrite Hb. Qed.

Lemma skills_section_ext family styles r r' :
  Py.get r' "skills" (JObj []) = Py.get r "skills" (JObj []) →
  Story.run (Resume.skills_section family styles r')
  = Story.run (Resume.skills_section family styles r).
Proof.
  intros Hk. unfold Resume.skills_section. rewrite !run_eval_bind, Hk.
  destruct (Py.get r "skills" _) as [skills|] eqn:Hg; [|done].
  cbn [rbind]. rewrite !run_when. destruct (Py.truthy skills) eqn:Ht; [|done].
  rewrite !run_eval_bind.
  destruct (Resume.render_section_title _ _); [|done]. cbn [rbind].
  rewrite !run_seq by appending. cbn [rbind]. rewrite !run_eval_bind.
  by rewrite (get_truthy_subscript r _ _ Hg Ht),
    (get_truthy_subscript r' _ _ Hk Ht).
Qed.

(** The story depends on the resume through the five values [build_pdf]
    gets from it, and through [resume["skills"]] when that value is
    truthy. *)
Lemma resume_story_ext r r' :
  Py.get r' "basics" (JObj []) = Py.get r "basics" (JObj []) →
  Py.get r' "education" (JArr []) = Py.get r "education" (JArr []) →
  Py.get r' "experience" (JArr []) = Py.get r "experience" (JArr []) →
  Py.get r' "projects" (JArr []) = Py.get r "projects" (JArr []) →
  Py.get r' "skills" (JObj []) = Py.get r "skills" (JObj []) →
  resume_story r' = resume_story r.
Proof.
  intros Hb He Hx Hp Hk. unfold resume_story.
  rewrite !run_build_story, He, Hx, Hp.
  destruct (Resume.make_styles Resume.Inter) as [styles|]; [|done].
  cbn [rbind].
  by rewrite (header_ext styles r r' Hb), (skills_section_ext _ styles r r' Hk).
Qed.

Lemma get_app_absent fields k d k' d' :
  Py.assoc k fields = None →
  (k' = k → d' = d) →
  Py.get (JObj (fields ++ [(k, d)])) k' d' = Py.get (JObj fields) k' d'.
Proof.
  intros Hk Hd. simpl. rewrite (assoc_app_absent _ _ _ _ Hk).
  destruct (String.eqb k' k) eqn:E; [|done].
  apply String.eqb_eq in E as ->. rewrite Hk. by rewrite Hd.
Qed.

(** C5.  A cover letter without its [applicant] key, or with it but
    without its [document] key, stops the program with the [KeyError] of
    that key before anything is created: the file system is left as it
    was.  The resume tolerates a missing section: a resume without one of
    the keys [build_pdf] reads gives the story of the same resume with
    that key set to its empty default, and a resume with none of them
    gives the story that holds the header spacer alone. *)
Theorem missing_required_key :
  (∀ today args fs fields,
      FS.read fs (json_path args) = Ok (JsonText (JObj fields)) →
      Py.assoc "applicant" fields = None →
      CoverLetter.program today args fs = (Raise (KeyError "applicant"), fs))
  ∧ (∀ today args fs fields applicant,
      FS.read fs (json_path args) = Ok (JsonText (JObj fields)) →
      Py.assoc "applicant" fields = Some applicant →
      Py.assoc "document" fields = None →
      CoverLetter.program today args fs = (Raise (KeyError "document"), fs))
  ∧ (∀ fields key default,
      (key, default) ∈ resume_defaults →
      Py.assoc key fields = None →
      resume_story (JObj (fields ++ [(key, default)]))
      = resume_story (JObj fields))
  ∧ (∀ fields,
      (∀ key default, (key, default) ∈ resume_defaults →
                      Py.assoc key fields = None) →
      resume_story (JObj fields) = Ok [FSpacer (1 # 1) (1 # 1)]).
Proof.
  split; [|split; [|split]].
  - intros today args fs fields Hr Ha.
    unfold CoverLetter.program, CoverLetter.json_to_pdf. rewrite Hr.
    cbn [Py.subscript]. by rewrite Ha.
  - intros today args fs fields applicant Hr Ha Hd.
    unfold CoverLetter.program, CoverLetter.json_to_pdf. rewrite Hr.
    cbn [Py.subscript]. by rewrite Ha, Hd.
  - intros fields key default Hk Habs. unfold resume_defaults in Hk.
    repeat (apply elem_of_cons in Hk; destruct Hk as [[= -> ->]|Hk]);
      [..|by apply elem_of_nil in Hk];
      apply resume_story_ext; apply get_app_absent; done.
  - intros fields Habs.
    transitivity (resume_story (JObj [])); [|vm_compute; reflexivity].
    assert (Hg : ∀ key default, (key, default) ∈ resume_defaults →
              Py.get (JObj fields) key default = Ok default).
    { intros key default Hk. simpl. by rewrite (Habs _ _ Hk). }
    apply resume_story_ext;
      rewrite Hg by (unfold resume_defaults; in_list); done.
Qed.

Lemma missing_required_key_witness :
  CoverLetter.program nov_9_2025
    {| json_path := "no_applicant.json"; out_path := "out/cl.pdf" |} sample_fs
  = (Raise (KeyError "applicant"), sample_fs)
  ∧ CoverLetter.program nov_9_2025
      {| json_path := "letter.json"; out_path := "out/cl.pdf" |}
      {| cwd := ["home"]; dirs := {[ ["home"] ]};
         files := {[ ["home"; "letter.json"] :=
                       JsonText (JObj [("applicant", letter_applicant)]) ]} |}
    = (Raise (KeyError "document"),
       {| cwd := ["home"]; dirs := {[ ["home"] ]};
          files := {[ ["home"; "letter.json"] :=
                        JsonText (JObj [("applicant", letter_applicant)]) ]} |})
  ∧ resume_story
      (JObj ([("basics", JObj [("name", JStr "Jane Doe")])]
             ++ [("projects", JArr [])]))
    = resume_story (JObj [("basics", JObj [("name", JStr "Jane Doe")])])
  ∧ resume_story (JObj [("summary", JStr "none of the sections")])
    = Ok [FSpacer (1 # 1) (1 # 1)].
Proof.
  destruct missing_required_key as (H1 & H2 & H3 & H4).
  split; [|split; [|split]].
  - apply (H1 _ _ _ [("document", letter_document)]);
      [vm_compute; reflexivity|reflexivity].
  - apply (H2 _ _ _ [("applicant", letter_applicant)] letter_applicant);
      [vm_compute; reflexivity|reflexivity|reflexivity].
  - apply H3; [unfold resume_defaults; in_list|reflexivity].
  - apply H4. intros key default Hk. unfold resume_defaults in Hk.
    repeat (apply elem_of_cons in Hk; destruct Hk as [[= -> ->]|Hk]);
      [..|by apply elem_of_nil in Hk]; reflexivity.
Defined.

(** ** Determinism *)

Lemma register_family_Inter fs family :
  Resume.register_family fs "./font" "Inter" = Ok family →
  family = Resume.Inter.
Proof.
  unfold Resume.register_family.
  cbn [font_at font_assoc Resume.default_files String.eqb Ascii.eqb
       Bool.eqb rbind].
  repeat (match goal with
          | |- context [FS.exists_ fs ?p] =>
              destruct (FS.exists_ fs p); cbn [negb rbind]; [|done]
          | |- context [FS.read fs ?p] =>
              destruct (FS.read fs p) as [[]|]; cbn [rbind]; try done
          end).
  by intros [= <-].
Qed.

Lemma resume_program_ok args fs fs' :
  Resume.program args fs = (Ok tt, fs') →
  ∃ resume st,
    FS.read fs (json_path args) = Ok (JsonText resume) ∧
    resume_story resume = Ok st ∧
    FS.write fs (out_path args) (PdfDoc (resume_pdf st)) = (Ok tt, fs').
Proof.
  unfold Resume.program.
  destruct (Resume.register_family _ _ _) as [family|] eqn:Hf; [|done].
  apply register_family_Inter in Hf as ->.
  unfold Resume.main.
  destruct (FS.read fs (json_path args)) as [[resume| | |]|]; try done.
  unfold Resume.build_pdf.
  destruct (Story.run (Resume.build_story _ _ resume)) as [st|] eqn:Hs;
    [|intros [=]].
  intros H. exists resume, st. split; [reflexivity|].
  split; [exact Hs|exact H].
Qed.

Lemma letter_build_story_strftime t1 t2 applicant document :
  CoverLetter.strftime t1 = CoverLetter.strftime t2 →
  CoverLetter.build_story t1 applicant document
  = CoverLetter.build_story t2 applicant document.
Proof. intros H. unfold CoverLetter.build_story. by rewrite H. Qed.

Lemma letter_program_ok today args fs fs' :
  CoverLetter.program today args fs = (Ok tt, fs') →
  ∃ data applicant document fs1 st,
    FS.read fs (json_path args) = Ok (JsonText data) ∧
    Py.subscript data "applicant" = Ok applicant ∧
    Py.subscript data "document" = Ok document ∧
    FS.makedirs fs (FS.dirname (out_path args)) = (Ok tt, fs1) ∧
    Story.run (CoverLetter.build_story today applicant document) = Ok st ∧
    FS.write fs1 (out_path args) (PdfDoc (letter_pdf st)) = (Ok tt, fs').
Proof.
  unfold CoverLetter.program, CoverLetter.json_to_pdf.
  destruct (FS.read fs (json_path args)) as [[data| | |]|]; try done.
  destruct (Py.subscript data "applicant") as [applicant|] eqn:Ha; [|done].
  destruct (Py.subscript data "document") as [document|] eqn:Hd; [|done].
  destruct (FS.makedirs fs _) as [[[]|] fs1] eqn:Hm; [|done].
  destruct (Story.run (CoverLetter.build_story today applicant document))
    as [st|] eqn:Hs; [|done].
  intros H. exists data, applicant, document, fs1, st.
  repeat split; try assumption; reflexivity.
Qed.

(** C1 (amended).  The PDF of the resume is a function of the document
    alone, and the PDF of the cover letter is a function of the document
    and of the current date as [strftime("%B %d, %Y")] prints it: two
    successful runs on the same document (for the cover letter, on days
    that print alike), from whatever file systems and paths, leave the
    same PDF at their output paths. *)
Theorem output_is_a_function_of_document_and_date :
  (∀ args1 args2 fs1 fs2 fs1' fs2' resume,
      FS.read fs1 (json_path args1) = Ok (JsonText resume) →
      FS.read fs2 (json_path args2) = Ok (JsonText resume) →
      Resume.program args1 fs1 = (Ok tt, fs1') →
      Resume.program args2 fs2 = (Ok tt, fs2') →
      ∃ st,
        resume_story resume = Ok st ∧
        FS.read fs1' (out_path args1) = Ok (PdfDoc (resume_pdf st)) ∧
        FS.read fs2' (out_path args2) = Ok (PdfDoc (resume_pdf st)))
  ∧ (∀ today1 today2 args1 args2 fs1 fs2 fs1' fs2' data,
      CoverLetter.strftime today1 = CoverLetter.strftime today2 →
      FS.read fs1 (json_path args1) = Ok (JsonText data) →
      FS.read fs2 (json_path args2) = Ok (JsonText data) →
      CoverLetter.program today1 args1 fs1 = (Ok tt, fs1') →
      CoverLetter.program today2 args2 fs2 = (Ok tt, fs2') →
      ∃ st,
        FS.read fs1' (out_path args1) = Ok (PdfDoc (letter_pdf st)) ∧
        FS.read fs2' (out_path args2) = Ok (PdfDoc (letter_pdf st))).
Proof.
  split.
  - intros args1 args2 fs1 fs2 fs1' fs2' resume Hr1 Hr2 Hp1 Hp2.
    apply resume_program_ok in Hp1 as (r1 & st1 & Hr1' & Hs1 & Hw1).
    apply resume_program_ok in Hp2 as (r2 & st2 & Hr2' & Hs2 & Hw2).
    rewrite Hr1 in Hr1'. rewrite Hr2 in Hr2'.
    injection Hr1' as <-. injection Hr2' as <-.
    rewrite Hs1 in Hs2. injection Hs2 as <-.
    exists st1. split; [done|].
    apply write_ok in Hw1 as (_ & _ & _ & _ & Hw1).
    apply write_ok in Hw2 as (_ & _ & _ & _ & Hw2). done.
  - intros today1 today2 args1 args2 fs1 fs2 fs1' fs2' data Ht Hr1 Hr2 Hp1 Hp2.
    apply letter_program_ok in Hp1
      as (d1 & a1 & c1 & m1 & st1 & Hr1' & Ha1 & Hd1 & _ & Hs1 & Hw1).
    apply letter_program_ok in Hp2
      as (d2 & a2 & c2 & m2 & st2 & Hr2' & Ha2 & Hd2 & _ & Hs2 & Hw2).
    rewrite Hr1 in Hr1'. rewrite Hr2 in Hr2'.
    injection Hr1' as <-. injection Hr2' as <-.
    rewrite Ha1 in Ha2. injection Ha2 as <-.
    rewrite Hd1 in Hd2. injection Hd2 as <-.
    rewrite (letter_build_story_strftime _ _ _ _ Ht), Hs2 in Hs1.
    injection Hs1 as <-.
    exists st2.
    apply write_ok in Hw1 as (_ & _ & _ & _ & Hw1).
    apply write_ok in Hw2 as (_ & _ & _ & _ & Hw2). done.
Qed.

Lemma output_is_a_function_of_document_and_date_witness :
  (∃ st,
     resume_story sam_lee = Ok st ∧
     FS.read (Resume.program
                {| json_path := "resume.json"; out_path := "r.pdf" |}
                sample_fs).2 "r.pdf"
     = Ok (PdfDoc (resume_pdf st)) ∧
     FS.read (Resume.program
                {| json_path := "./resume.json"; out_path := "font/cv.pdf" |}
                sample_fs).2 "font/cv.pdf"
     = Ok (PdfDoc (resume_pdf st)))
  ∧ (∃ st,
     FS.read (CoverLetter.program nov_9_2025 (letter_args "out/cl.pdf")
                letter_fs).2 "out/cl.pdf"
     = Ok (PdfDoc (letter_pdf st)) ∧
     FS.read (CoverLetter.program nov_9_2025 (letter_args "a/b/cl.pdf")
                letter_fs).2 "a/b/cl.pdf"
     = Ok (PdfDoc (letter_pdf st))).
Proof.
  destruct output_is_a_function_of_document_and_date as [Hresume Hletter].
  split.
  - apply (Hresume {| json_path := "resume.json"; out_path := "r.pdf" |}
             {| json_path := "./resume.json"; out_path := "font/cv.pdf" |}
             sample_fs sample_fs
             (Resume.program
                {| json_path := "resume.json"; out_path := "r.pdf" |}
                sample_fs).2
             (Resume.program
                {| json_path := "./resume.json"; out_path := "font/cv.pdf" |}
                sample_fs).2
             sam_lee);
      vm_compute; reflexivity.
  - apply (Hletter nov_9_2025 nov_9_2025
             (letter_args "out/cl.pdf") (letter_args "a/b/cl.pdf")
             letter_fs letter_fs
             (CoverLetter.program nov_9_2025 (letter_args "out/cl.pdf")
                letter_fs).2
             (CoverLetter.program nov_9_2025 (letter_args "a/b/cl.pdf")
                letter_fs).2
             letter);
      vm_compute; reflexivity.
Defined.

(** The claim as the specification words it fails for the cover letter:
    the same document, rendered from the same file system on two
    different days, gives two different PDFs, since the letter carries
    [date.today()]. *)
Lemma cover_letter_depends_on_the_date :
  (CoverLetter.program nov_9_2025 (letter_args "out/cl.pdf") letter_fs).1
  = Ok tt
  ∧ (CoverLetter.program nov_10_2025 (letter_args "out/cl.pdf") letter_fs).1
    = Ok tt
  ∧ FS.read (CoverLetter.program nov_9_2025 (letter_args "out/cl.pdf")
               letter_fs).2 "out/cl.pdf"
    ≠ FS.read (CoverLetter.program nov_10_2025 (letter_args "out/cl.pdf")
                 letter_fs).2 "out/cl.pdf".
Proof.
  split; [vm_compute; reflexivity|].
  split; [vm_compute; reflexivity|].
  intros H. apply (f_equal (λ r, pdf_texts r !! 3%nat)) in H.
  assert (H9 : pdf_texts
            (FS.read (CoverLetter.program nov_9_2025 (letter_args "out/cl.pdf")
                        letter_fs).2 "out/cl.pdf") !! 3%nat
          = Some "November 09, 2025") by (vm_compute; reflexivity).
  assert (H10 : pdf_texts
            (FS.read (CoverLetter.program nov_10_2025 (letter_args "out/cl.pdf")
                        letter_fs).2 "out/cl.pdf") !! 3%nat
          = Some "November 10, 2025") by (vm_compute; reflexivity).
  cbv beta in H. rewrite H9, H10 in H. discriminate H.
Qed.

(** ** Paths *)

Lemma split_slash_nonempty s : FS.split_slash s ≠ [].
Proof.
  destruct s as [|c s]; simpl; [done|].
  destruct (Ascii.eqb c "/"); [done|]. by destruct (FS.split_slash s).
Qed.

Lemma split_slash_empty s : FS.split_slash s = [""] → s = "".
Proof.
  destruct s as [|c s]; [done|]. simpl.
  destruct (Ascii.eqb c "/").
  - intros [= H]. by apply split_slash_nonempty in H.
  - by destruct (FS.split_slash s).
Qed.

Lemma split_slash_cons c s :
  FS.split_slash (String c s)
  = if Ascii.eqb c "/" then "" :: FS.split_slash s
    else match FS.split_slash s with
         | h :: t => String c h :: t
         | [] => [String c ""]
         end.
Proof. reflexivity. Qed.

(** Stripping the trailing slashes keeps the first component and the
    named components. *)
Lemma split_rstrip_slash s :
  ∃ h t t',
    FS.split_slash s = h :: t ∧
    FS.split_slash (FS.rstrip_slash s) = h :: t' ∧
    named t' = named t.
Proof.
  induction s as [|c s (h & t & t' & Hs & Hr & Hn)].
  - by exists "", [], [].
  - cbn [FS.split_slash FS.rstrip_slash].
    destruct (Ascii.eqb c "/") eqn:Hc.
    + exists "", (FS.split_slash s).
      destruct (FS.rstrip_slash s) as [|c' r] eqn:Hrs.
      * exists []. simpl in Hr. injection Hr as <- <-.
        split; [done|]. split; [done|].
        rewrite Hs. unfold named in *. simpl. by rewrite <- Hn.
      * exists (FS.split_slash (String c' r)).
        split; [done|]. split.
        -- cbn [FS.split_slash]. by rewrite Hc.
        -- rewrite Hs, Hr. unfold named in *. simpl. by rewrite Hn.
    + exists (String c h), t, t'. rewrite Hs.
      split; [done|]. split; [|done].
      assert (Hrs : match FS.rstrip_slash s with
                    | "" => String c ""
                    | String a s0 => String c (String a s0)
                    end = String c (FS.rstrip_slash s))
        by (by destruct (FS.rstrip_slash s)).
      rewrite Hrs. cbn [FS.split_slash]. by rewrite Hc, Hr.
Qed.

Lemma named_split_rstrip_slash s :
  named (FS.split_slash (FS.rstrip_slash s)) = named (FS.split_slash s).
Proof.
  destruct (split_rstrip_slash s) as (h & t & t' & -> & -> & Hn).
  unfold named in *. simpl. by rewrite Hn.
Qed.

(** The head of a path splits into all the components but the last,
    followed by the empty component its trailing slash leaves. *)
Lemma split_head_of p :
  FS.split_slash (FS.head_of p) = removelast (FS.split_slash p) ++ [""].
Proof.
  induction p as [|c p IH]; [done|].
  cbn [FS.head_of]. rewrite (split_slash_cons c p).
  destruct (FS.split_slash p) as [|x l] eqn:Hs;
    [by apply split_slash_nonempty in Hs|].
  destruct (FS.head_of p) as [|c0 h0] eqn:Hh.
  - assert (Hl : l = []).
    { destruct l as [|y l]; [done|]. simpl in IH. by destruct l. }
    subst l. destruct (Ascii.eqb c "/") eqn:Hc; [|done].
    simpl. by rewrite Hc.
  - rewrite (split_slash_cons c (String c0 h0)), IH.
    destruct l as [|y l].
    { by apply split_slash_empty in IH. }
    by destruct (Ascii.eqb c "/").
Qed.

Lemma named_app a b : named (a ++ b) = named a ++ named b.
Proof. apply List.filter_app. Qed.

(** The named components of [dirname(p)] are those of [p] without its
    last component. *)
Lemma named_dirname p :
  named (FS.split_slash (FS.dirname p))
  = named (removelast (FS.split_slash p)).
Proof.
  assert (Hh : named (FS.split_slash (FS.head_of p))
               = named (removelast (FS.split_slash p))).
  { rewrite split_head_of, named_app. simpl. by rewrite app_nil_r. }
  unfold FS.dirname.
  destruct (FS.rstrip_slash (FS.head_of p)) eqn:Hr; [done|].
  by rewrite <- Hr, named_split_rstrip_slash.
Qed.

Lemma split_slash_basename p :
  FS.split_slash p = removelast (FS.split_slash p) ++ [basename p].
Proof.
  unfold basename. apply app_removelast_last, split_slash_nonempty.
Qed.

Lemma rstrip_slash_first c s :
  FS.rstrip_slash (String c s) = "" ∨
  ∃ r, FS.rstrip_slash (String c s) = String c r.
Proof.
  simpl. destruct (FS.rstrip_slash s); [|eauto].
  destruct (Ascii.eqb c "/"); eauto.
Qed.

Lemma head_of_first c p :
  FS.head_of (String c p) = "" ∨ ∃ h, FS.head_of (String c p) = String c h.
Proof.
  simpl. destruct (FS.head_of p); [|eauto].
  destruct (Ascii.eqb c "/"); eauto.
Qed.

Lemma is_absolute_dirname p :
  FS.dirname p ≠ "" → FS.is_absolute (FS.dirname p) = FS.is_absolute p.
Proof.
  unfold FS.dirname. destruct p as [|c p]; [done|].
  destruct (head_of_first c p) as [->|[h ->]]; [done|].
  destruct (rstrip_slash_first c h) as [->|[r ->]]; done.
Qed.

(** ** Walking a path *)

Lemma walk_app fs cur a b :
  FS.walk fs cur (a ++ b) = let* d := FS.walk fs cur a in FS.walk fs d b.
Proof.
  revert cur. induction a as [|c a IH]; intros cur; [done|].
  cbn [app FS.walk]. destruct (FS.kind_of fs cur); try done.
  repeat case_match; apply IH.
Qed.

(** A component cannot be looked up in what is not a directory. *)
Lemma walk_cons_not_dir fs cur c rest :
  FS.kind_of fs cur ≠ Dir →
  FS.walk fs cur (c :: rest)
  = Raise (match FS.kind_of fs cur with
           | File => NotADirectoryError
           | _ => FileNotFoundError
           end).
Proof. cbn [FS.walk]. by destruct (FS.kind_of fs cur). Qed.

Lemma walk_check fs cur :
  FS.walk fs cur [""]
  = match FS.kind_of fs cur with
    | Dir => Ok cur
    | File => Raise NotADirectoryError
    | Missing => Raise FileNotFoundError
    end.
Proof. done. Qed.

(** Empty components do not change where a path that must end in a
    directory leads. *)
Lemma walk_named fs cur cs :
  FS.walk fs cur (cs ++ [""]) = FS.walk fs cur (named cs ++ [""]).
Proof.
  revert cur. induction cs as [|c cs IH]; intros cur; [done|].
  unfold named. cbn [List.filter app].
  destruct (String.eqb c "") eqn:Hc; cbn [negb].
  - apply String.eqb_eq in Hc as ->. fold (named cs). rewrite <- IH.
    cbn [FS.walk String.eqb orb].
    destruct (FS.kind_of fs cur) eqn:Hk; [|done|].
    + destruct cs; simpl; by rewrite Hk.
    + destruct cs; simpl; by rewrite Hk.
  - fold (named cs). cbn [app FS.walk]. rewrite Hc. cbn [orb].
    destruct (FS.kind_of fs cur); try done.
    repeat case_match; apply IH.
Qed.

Lemma walk_last fs cur cs b :
  FS.walk fs cur (cs ++ [b])
  = let* d := FS.walk fs cur (cs ++ [""]) in FS.walk fs d [b].
Proof.
  rewrite !walk_app. destruct (FS.walk fs cur cs) as [d|]; [|done].
  cbn [rbind]. rewrite walk_check.
  destruct (FS.kind_of fs d) eqn:Hk; [| done |].
  - rewrite walk_cons_not_dir by congruence. by rewrite Hk.
  - rewrite walk_cons_not_dir by congruence. by rewrite Hk.
Qed.

(** Resolving a path is resolving its [dirname] as a directory and then
    looking up its [basename] there. *)
Lemma walk_via_dirname fs cur p :
  FS.walk fs cur (FS.split_slash p)
  = let* d := FS.walk fs cur (FS.split_slash (FS.dirname p) ++ [""]) in
    FS.walk fs d [basename p].
Proof.
  rewrite (split_slash_basename p) at 1.
  by rewrite walk_last, walk_named, <- named_dirname, <- walk_named.
Qed.

(** ** Creating directories *)

Lemma is_dir_mkdir fs l l' :
  FS.is_dir (FS.mkdir fs l) l' = true ↔ l' = l ∨ FS.is_dir fs l' = true.
Proof.
  unfold FS.is_dir. rewrite !bool_decide_eq_true. cbn [dirs FS.mkdir].
  rewrite elem_of_union, elem_of_singleton. tauto.
Qed.

Lemma is_dir_cases fs l : FS.is_dir fs l = true → l = [] ∨ l ∈ dirs fs.
Proof. unfold FS.is_dir. by rewrite bool_decide_eq_true. Qed.

Lemma parent_snoc l c : FS.parent (l ++ [c]) = l.
Proof. apply removelast_last. Qed.

Lemma wf_parent fs l : wf fs → FS.is_dir fs l = true → FS.is_dir fs (FS.parent l) = true.
Proof.
  intros Hwf [->|Hl]%is_dir_cases; [done|]. by apply Hwf.
Qed.

Lemma wf_mkdir fs cur c :
  wf fs → FS.is_dir fs cur = true → wf (FS.mkdir fs (cur ++ [c])).
Proof.
  intros Hwf Hcur l Hl. apply is_dir_mkdir. right.
  cbn [dirs FS.mkdir] in Hl. apply elem_of_union in Hl as [Hl|Hl].
  - apply elem_of_singleton in Hl as ->. by rewrite parent_snoc.
  - by apply Hwf.
Qed.

(** [makedirs] ends in a directory: after a successful walk every
    component of the name resolves, the location reached is a directory,
    directories are only added, and files are untouched. *)
Lemma mkwalk_ok comps fs cur fs1 :
  wf fs → FS.is_dir fs cur = true →
  FS.mkwalk fs cur comps = (Ok tt, fs1) →
  wf fs1 ∧ cwd fs1 = cwd fs ∧ files fs1 = files fs ∧
  (∀ l, FS.is_dir fs l = true → FS.is_dir fs1 l = true) ∧
  ∃ d, FS.walk fs1 cur comps = Ok d ∧ FS.is_dir fs1 d = true.
Proof.
  revert fs cur. induction comps as [|c comps IH]; intros fs cur Hwf Hcur.
  - intros [= <-]. repeat split; try done. by exists cur.
  - cbn [FS.mkwalk]. pose proof Hcur as Hk. apply kind_of_dir in Hk.
    rewrite Hk.
    assert (Hstep : ∀ fs' next,
      wf fs' → FS.is_dir fs' next = true →
      cwd fs' = cwd fs → files fs' = files fs →
      (∀ l, FS.is_dir fs l = true → FS.is_dir fs' l = true) →
      FS.mkwalk fs' next comps = (Ok tt, fs1) →
      (FS.is_dir fs1 cur = true →
       FS.walk fs1 cur (c :: comps) = FS.walk fs1 next comps) →
      wf fs1 ∧ cwd fs1 = cwd fs ∧ files fs1 = files fs ∧
      (∀ l, FS.is_dir fs l = true → FS.is_dir fs1 l = true) ∧
      ∃ d, FS.walk fs1 cur (c :: comps) = Ok d ∧ FS.is_dir fs1 d = true).
    { intros fs' next Hwf' Hnext Hcwd Hfiles Hmono Hmk Hwalk.
      destruct (IH fs' next Hwf' Hnext Hmk)
        as (Hwf1 & Hcwd1 & Hfiles1 & Hmono1 & d & Hd & Hdd).
      split; [done|]. split; [congruence|]. split; [congruence|].
      split; [auto|].
      exists d. split; [|done]. rewrite Hwalk; auto. }
    assert (Hwalk1 : FS.is_dir fs1 cur = true →
              FS.walk fs1 cur (c :: comps)
              = if String.eqb c "" || String.eqb c "."
                then FS.walk fs1 cur comps
                else if String.eqb c ".." then FS.walk fs1 (FS.parent cur) comps
                else FS.walk fs1 (cur ++ [c]) comps).
    { intros Hc1%kind_of_dir. cbn [FS.walk]. by rewrite Hc1. }
    destruct (String.eqb c "" || String.eqb c ".") eqn:E1.
    { intros Hmk.
      apply (Hstep fs cur Hwf Hcur eq_refl eq_refl (λ l H, H) Hmk).
      intros H1. by rewrite (Hwalk1 H1). }
    destruct (String.eqb c "..") eqn:E2.
    { intros Hmk.
      apply (Hstep fs (FS.parent cur) Hwf (wf_parent _ _ Hwf Hcur)
               eq_refl eq_refl (λ l H, H) Hmk).
      intros H1. by rewrite (Hwalk1 H1). }
    destruct (FS.kind_of fs (cur ++ [c])) eqn:Hchild.
    + intros Hmk.
      apply (Hstep (FS.mkdir fs (cur ++ [c])) (cur ++ [c])
               (wf_mkdir _ _ _ Hwf Hcur)
               (proj2 (is_dir_mkdir _ _ _) (or_introl eq_refl))
               eq_refl eq_refl
               (λ l H, proj2 (is_dir_mkdir _ _ _) (or_intror H)) Hmk).
      intros H1. by rewrite (Hwalk1 H1).
    + intros Hmk.
      apply (Hstep fs (cur ++ [c]) Hwf (proj1 (kind_of_dir _ _) Hchild)
               eq_refl eq_refl (λ l H, H) Hmk).
      intros H1. by rewrite (Hwalk1 H1).
    + by destruct comps.
Qed.

Lemma mkwalk_start_dir fs cur comps fs1 :
  comps ≠ [] → FS.mkwalk fs cur comps = (Ok tt, fs1) →
  FS.is_dir fs cur = true.
Proof.
  destruct comps as [|c comps]; [done|]. intros _. cbn [FS.mkwalk].
  destruct (FS.kind_of fs cur) eqn:Hk; try done.
  intros _. by apply kind_of_dir.
Qed.

Lemma dirname_nonempty p : FS.dirname p ≠ "" → p ≠ "".
Proof. by intros H ->. Qed.

Lemma walk_name fs d b :
  FS.is_dir fs d = true → b ∉ [""; "."; ".."] →
  FS.walk fs d [b] = Ok (d ++ [b]).
Proof.
  intros Hd%kind_of_dir Hb. cbn [FS.walk]. rewrite Hd.
  assert (String.eqb b "" = false) as ->.
  { apply String.eqb_neq. intros ->. apply Hb. in_list. }
  assert (String.eqb b "." = false) as ->.
  { apply String.eqb_neq. intros ->. apply Hb. in_list. }
  assert (String.eqb b ".." = false) as ->.
  { apply String.eqb_neq. intros ->. apply Hb. in_list. }
  done.
Qed.

(** After [makedirs(dirname(p))] the directory of [p] exists and [p]
    resolves to its [basename] in it. *)
Lemma makedirs_dirname fs p fs1 :
  wf fs → FS.dirname p ≠ "" →
  FS.makedirs fs (FS.dirname p) = (Ok tt, fs1) →
  basename p ∉ [""; "."; ".."] →
  ∃ d, FS.resolve fs1 (FS.dirname p) = Ok d ∧
       FS.is_dir fs1 d = true ∧
       files fs1 = files fs ∧
       (∀ l, FS.is_dir fs l = true → FS.is_dir fs1 l = true) ∧
       FS.resolve fs1 p = Ok (d ++ [basename p]).
Proof.
  intros Hwf Hne Hmk Hb. unfold FS.makedirs in Hmk.
  destruct (String.eqb (FS.dirname p) "") eqn:He;
    [by apply String.eqb_eq in He|].
  pose proof (mkwalk_start_dir _ _ _ _ (split_slash_nonempty _) Hmk) as Hstart.
  destruct (mkwalk_ok _ _ _ _ Hwf Hstart Hmk)
    as (Hwf1 & Hcwd & Hfiles & Hmono & d & Hd & Hdd).
  assert (Hs : FS.start fs1 (FS.dirname p) = FS.start fs (FS.dirname p))
    by (unfold FS.start; by rewrite Hcwd).
  assert (Hsp : FS.start fs1 p = FS.start fs (FS.dirname p)).
  { unfold FS.start. by rewrite Hcwd, (is_absolute_dirname p Hne). }
  exists d. split; [|split; [done|split; [done|split; [done|]]]].
  - unfold FS.resolve. by rewrite He, Hs.
  - unfold FS.resolve.
    destruct (String.eqb p "") eqn:Hp;
      [apply String.eqb_eq in Hp; by apply dirname_nonempty in Hp|].
    rewrite Hsp, walk_via_dirname, walk_app, Hd. cbn [rbind].
    rewrite walk_check, (proj2 (kind_of_dir _ _) Hdd). cbn [rbind].
    by apply walk_name.
Qed.

Lemma write_new fs p c l :
  FS.resolve fs p = Ok l → FS.is_dir fs l = false →
  FS.is_dir fs (FS.parent l) = true →
  FS.write fs p c = (Ok tt, FS.put fs l c).
Proof.
  intros Hr Hl Hp. unfold FS.write. rewrite Hr.
  unfold FS.kind_of at 1. rewrite Hl.
  destruct (files fs !! l); [done|].
  by rewrite (proj2 (kind_of_dir _ _) Hp).
Qed.




Lemma letter_program_write today args fs data applicant document fs1 st :
  FS.read fs (json_path args) = Ok (JsonText data) →
  Py.subscript data "applicant" = Ok applicant →
  Py.subscript data "document" = Ok document →
  FS.makedirs fs (FS.dirname (out_path args)) = (Ok tt, fs1) →
  Story.run (CoverLetter.build_story today applicant document) = Ok st →
  CoverLetter.program today args fs
  = FS.write fs1 (out_path args) (PdfDoc (letter_pdf st)).
Proof.
  intros Hr Ha Hd Hm Hs. unfold CoverLetter.program, CoverLetter.json_to_pdf.
  destruct (FS.read fs (json_path args)) as [c|];
    [injection Hr as ->|discriminate Hr].
  destruct (Py.subscript data "applicant") as [a|];
    [injection Ha as ->|discriminate Ha].
  destruct (Py.subscript data "document") as [d|];
    [injection Hd as ->|discriminate Hd].
  destruct (FS.makedirs fs _) as [r fs1']. injection Hm as -> ->.
  destruct (Story.run (CoverLetter.build_story today applicant document))
    as [st'|]; [injection Hs as ->|discriminate Hs].
  reflexivity.
Qed.


Lemma wf_letter_fs : wf letter_fs.
Proof.
  intros l Hl. cbn [dirs letter_fs] in Hl.
  apply elem_of_singleton in Hl as ->. vm_compute. reflexivity.
Qed.


(** ** What a run does to the file system *)

Lemma mkwalk_keeps comps fs cur :
  cwd (FS.mkwalk fs cur comps).2 = cwd fs ∧
  files (FS.mkwalk fs cur comps).2 = files fs ∧
  dirs fs ⊆ dirs (FS.mkwalk fs cur comps).2.
Proof.
  revert fs cur. induction comps as [|c comps IH]; intros fs cur; [done|].
  cbn [FS.mkwalk]. destruct (FS.kind_of fs cur); try done.
  destruct (String.eqb c "" || String.eqb c "."); [apply IH|].
  destruct (String.eqb c ".."); [apply IH|].
  destruct (FS.kind_of fs (cur ++ [c])).
  - destruct (IH (FS.mkdir fs (cur ++ [c])) (cur ++ [c])) as (H1 & H2 & H3).
    split; [done|]. split; [done|].
    intros l Hl. apply H3. cbn [dirs FS.mkdir]. apply elem_of_union. by right.
  - apply IH.
  - by destruct comps.
Qed.

Lemma makedirs_keeps fs name :
  cwd (FS.makedirs fs name).2 = cwd fs ∧
  files (FS.makedirs fs name).2 = files fs ∧
  dirs fs ⊆ dirs (FS.makedirs fs name).2.
Proof.
  unfold FS.makedirs. destruct (String.eqb name ""); [done|].
  apply mkwalk_keeps.
Qed.

Lemma write_result fs p c r fs' :
  FS.write fs p c = (r, fs') →
  (∃ e, r = Raise e ∧ fs' = fs) ∨
  (∃ l, r = Ok tt ∧ FS.resolve fs p = Ok l ∧ fs' = FS.put fs l c).
Proof.
  unfold FS.write. destruct (FS.resolve fs p) as [l|e]; [|intros [= <- <-]; eauto].
  destruct (FS.kind_of fs l).
  - destruct (FS.kind_of fs (FS.parent l)); intros [= <- <-]; eauto.
  - intros [= <- <-]; eauto.
  - intros [= <- <-]; eauto.
Qed.

Lemma no_slash_head_of p : no_slash p = true → FS.head_of p = "".
Proof.
  induction p as [|c p IH]; [done|]. simpl.
  intros [Hc Hp]%andb_prop. rewrite (IH Hp).
  by destruct (Ascii.eqb c "/").
Qed.

Lemma no_slash_dirname p : no_slash p = true → FS.dirname p = "".
Proof. intros H. unfold FS.dirname. by rewrite (no_slash_head_of p H). Qed.

(** X1.  The cover-letter program creates the directory of its output
    path before it writes.  On a well-formed file system and a document
    whose story builds, when the output path has a directory part and
    [os.makedirs] of that part succeeds, the directory exists afterwards;
    and unless the path names a directory, the run succeeds, the path
    resolves to its base name in that directory and reading it back gives
    the PDF of the story. *)
Theorem cover_letter_creates_directories_then_writes
    today args fs data applicant document st fs1 :
  wf fs →
  FS.read fs (json_path args) = Ok (JsonText data) →
  Py.subscript data "applicant" = Ok applicant →
  Py.subscript data "document" = Ok document →
  Story.run (CoverLetter.build_story today applicant document) = Ok st →
  FS.dirname (out_path args) ≠ "" →
  FS.makedirs fs (FS.dirname (out_path args)) = (Ok tt, fs1) →
  basename (out_path args) ∉ [""; "."; ".."] →
  ∃ d, FS.resolve fs1 (FS.dirname (out_path args)) = Ok d ∧
       FS.is_dir fs1 d = true ∧
       (FS.is_dir fs1 (d ++ [basename (out_path args)]) = false →
        ∃ fs2,
          CoverLetter.program today args fs = (Ok tt, fs2) ∧
          FS.is_dir fs2 d = true ∧
          FS.resolve fs2 (out_path args)
          = Ok (d ++ [basename (out_path args)]) ∧
          FS.read fs2 (out_path args) = Ok (PdfDoc (letter_pdf st))).
Proof.
  intros Hwf Hr Ha Hd Hs Hne Hmk Hb.
  destruct (makedirs_dirname _ _ _ Hwf Hne Hmk Hb)
    as (d & Hrd & Hdd & Hfiles & Hmono & Hrp).
  exists d. split; [done|]. split; [done|]. intros Hl.
  exists (FS.put fs1 (d ++ [basename (out_path args)])
            (PdfDoc (letter_pdf st))).
  assert (Hw : FS.write fs1 (out_path args) (PdfDoc (letter_pdf st))
               = (Ok tt, FS.put fs1 (d ++ [basename (out_path args)])
                           (PdfDoc (letter_pdf st)))).
  { apply write_new; [done|done|]. by rewrite parent_snoc. }
  split; [|split; [|split]].
  - rewrite (letter_program_write _ _ _ _ _ _ _ _ Hr Ha Hd Hmk Hs).
    exact Hw.
  - by rewrite is_dir_put.
  - by apply resolve_put.
  - by apply write_ok in Hw as (_ & _ & _ & _ & Hw).
Qed.

Lemma cover_letter_creates_directories_then_writes_witness :
  ∃ fs2,
    CoverLetter.program nov_9_2025 (letter_args "out/a/cl.pdf") letter_fs
    = (Ok tt, fs2) ∧
    FS.is_dir letter_fs ["home"; "out"; "a"] = false ∧
    FS.is_dir fs2 ["home"; "out"; "a"] = true ∧
    FS.resolve fs2 "out/a/cl.pdf" = Ok ["home"; "out"; "a"; "cl.pdf"] ∧
    FS.read fs2 "out/a/cl.pdf" = Ok (PdfDoc (letter_pdf letter_story_nov_9)).
Proof.
  destruct (cover_letter_creates_directories_then_writes
              nov_9_2025 (letter_args "out/a/cl.pdf") letter_fs letter
              letter_applicant letter_document letter_story_nov_9
              (FS.makedirs letter_fs "out/a").2 wf_letter_fs)
    as (d & Hd & Hdd & Hw).
  - vm_compute. reflexivity.
  - reflexivity.
  - reflexivity.
  - exact letter_story_nov_9_ok.
  - vm_compute. discriminate.
  - vm_compute. reflexivity.
  - vm_compute. not_in_list.
  - vm_compute in Hd. injection Hd as <-.
    destruct Hw as (fs2 & Hp & Hd2 & Hr2 & Hread); [vm_compute; reflexivity|].
    exists fs2. split; [exact Hp|]. split; [vm_compute; reflexivity|].
    split; [exact Hd2|]. split; [exact Hr2|exact Hread].
Defined.



(** X3.  A bare file name as output path stops the cover-letter
    program.  When the path holds no slash, [os.path.dirname] is empty
    and [os.makedirs("")] raises [FileNotFoundError]: for every document
    that has its two top-level keys the run ends with that error, before
    the story is built, and the file system is left as it was. *)
Theorem cover_letter_bare_output_name_fails
    today args fs data applicant document :
  FS.read fs (json_path args) = Ok (JsonText data) →
  Py.subscript data "applicant" = Ok applicant →
  Py.subscript data "document" = Ok document →
  no_slash (out_path args) = true →
  CoverLetter.program today args fs = (Raise FileNotFoundError, fs).
Proof.
  intros Hr Ha Hd Hn. unfold CoverLetter.program, CoverLetter.json_to_pdf.
  destruct (FS.read fs (json_path args)) as [c|];
    [injection Hr as ->|discriminate Hr].
  destruct (Py.subscript data "applicant") as [a|];
    [injection Ha as ->|discriminate Ha].
  destruct (Py.subscript data "document") as [d|];
    [injection Hd as ->|discriminate Hd].
  by rewrite (no_slash_dirname _ Hn).
Qed.

Lemma cover_letter_bare_output_name_fails_witness :
  CoverLetter.program nov_9_2025 (letter_args "cl.pdf") letter_fs
  = (Raise FileNotFoundError, letter_fs).
Proof.
  apply (cover_letter_bare_output_name_fails nov_9_2025 (letter_args "cl.pdf")
           letter_fs letter letter_applicant letter_document).
  - vm_compute. reflexivity.
  - reflexivity.
  - reflexivity.
  - reflexivity.
Defined.

(** X4.  A run of the resume program is all or nothing.  Either it
    fails, and then the file system is exactly what it was; or it
    succeeds, and then the file named by [--json] held a resume, its
    story was built, and the only change is the PDF of that story put at
    the location the output path resolves to. *)
Theorem resume_run_is_all_or_nothing args fs r fs' :
  Resume.program args fs = (r, fs') →
  (∃ e, r = Raise e ∧ fs' = fs) ∨
  (∃ resume st l,
      r = Ok tt ∧
      FS.read fs (json_path args) = Ok (JsonText resume) ∧
      resume_story resume = Ok st ∧
      FS.resolve fs (out_path args) = Ok l ∧
      fs' = FS.put fs l (PdfDoc (resume_pdf st))).
Proof.
  unfold Resume.program.
  destruct (Resume.register_family _ _ _) as [family|e] eqn:Hf;
    [|intros [= <- <-]; eauto].
  apply register_family_Inter in Hf as ->. unfold Resume.main.
  destruct (FS.read fs (json_path args)) as [[resume| | |]|e] eqn:Hr;
    try (intros [= <- <-]; eauto).
  unfold Resume.build_pdf.
  destruct (Story.run (Resume.build_story _ _ resume)) as [st|e] eqn:Hs;
    [|intros [= <- <-]; eauto].
  intros [[e [-> ->]]|[l (-> & Hl & ->)]]%write_result; [eauto|].
  right. exists resume, st, l. repeat split; assumption.
Qed.

Lemma resume_run_is_all_or_nothing_witness :
  (Resume.program {| json_path := "missing.json"; out_path := "r.pdf" |}
     sample_fs).2 = sample_fs.
Proof.
  destruct (resume_run_is_all_or_nothing
              {| json_path := "missing.json"; out_path := "r.pdf" |} sample_fs
              (Resume.program
                 {| json_path := "missing.json"; out_path := "r.pdf" |}
                 sample_fs).1
              (Resume.program
                 {| json_path := "missing.json"; out_path := "r.pdf" |}
                 sample_fs).2)
    as [(e & _ & H)|(resume & st & l & Hok & _)].
  - apply surjective_pairing.
  - exact H.
  - vm_compute in Hok. discriminate Hok.
Defined.

(** X5.  A failed run of the cover-letter program writes no file but may
    leave directories behind.  Whenever the run fails, the files and the
    working directory are what they were and no directory is removed.
    The output directories are created before the fields of the document
    are read, so when the story cannot be built (a missing or ill-typed
    field) the run ends with that error in the file system [os.makedirs]
    left. *)
Theorem cover_letter_failure_keeps_files :
  (∀ today args fs e fs',
      CoverLetter.program today args fs = (Raise e, fs') →
      files fs' = files fs ∧ cwd fs' = cwd fs ∧ dirs fs ⊆ dirs fs')
  ∧ (∀ today args fs data applicant document fs1 e,
      FS.read fs (json_path args) = Ok (JsonText data) →
      Py.subscript data "applicant" = Ok applicant →
      Py.subscript data "document" = Ok document →
      FS.makedirs fs (FS.dirname (out_path args)) = (Ok tt, fs1) →
      Story.run (CoverLetter.build_story today applicant document) = Raise e →
      CoverLetter.program today args fs = (Raise e, fs1)).
Proof.
  split.
  - intros today args fs e fs'.
    unfold CoverLetter.program, CoverLetter.json_to_pdf.
    destruct (FS.read fs (json_path args)) as [[data| | |]|];
      try (by intros [= <- <-]).
    destruct (Py.subscript data "applicant") as [applicant|];
      [|by intros [= <- <-]].
    destruct (Py.subscript data "document") as [document|];
      [|by intros [= <- <-]].
    pose proof (makedirs_keeps fs (FS.dirname (out_path args)))
      as (Hc & Hf & Hd).
    destruct (FS.makedirs fs _) as [[[]|e1] fs1]; cbn [snd] in *;
      [|by intros [= <- <-]].
    destruct (Story.run _) as [st|e2]; [|by intros [= <- <-]].
    intros [[e3 [_ ->]]|[l (? & _)]]%write_result; done.
  - intros today args fs data applicant document fs1 e Hr Ha Hd Hm Hs.
    unfold CoverLetter.program, CoverLetter.json_to_pdf.
    destruct (FS.read fs (json_path args)) as [c|];
      [injection Hr as ->|discriminate Hr].
    destruct (Py.subscript data "applicant") as [a|];
      [injection Ha as ->|discriminate Ha].
    destruct (Py.subscript data "document") as [d|];
      [injection Hd as ->|discriminate Hd].
    destruct (FS.makedirs fs _) as [r fs1']. injection Hm as -> ->.
    destruct (Story.run (CoverLetter.build_story today applicant document))
      as [st'|e']; [discriminate Hs|injection Hs as ->].
    reflexivity.
Qed.

Lemma cover_letter_failure_keeps_files_witness :
  CoverLetter.program nov_9_2025 (letter_args "out/cl.pdf") no_phone_fs
  = (Raise (KeyError "phone"), (FS.makedirs no_phone_fs "out").2)
  ∧ files (FS.makedirs no_phone_fs "out").2 = files no_phone_fs
  ∧ FS.is_dir no_phone_fs ["home"; "out"] = false
  ∧ FS.is_dir (FS.makedirs no_phone_fs "out").2 ["home"; "out"] = true.
Proof.
  destruct cover_letter_failure_keeps_files as [Hkeep Hleft].
  assert (Hrun : CoverLetter.program nov_9_2025 (letter_args "out/cl.pdf")
                   no_phone_fs
                 = (Raise (KeyError "phone"), (FS.makedirs no_phone_fs "out").2)).
  { apply (Hleft nov_9_2025 (letter_args "out/cl.pdf") no_phone_fs
             letter_without_phone
             (JObj [("name", JStr "Sam Lee"); ("email", JStr "sam@lee.io")])
             letter_document);
      vm_compute; reflexivity. }
  split; [exact Hrun|].
  split; [exact (proj1 (Hkeep _ _ _ _ _ Hrun))|].
  split; vm_compute; reflexivity.
Defined.

(** ** Experience and project entries *)







(** ** What the helpers accept *)






Lemma mapM_as_str vs :
  mapM Py.as_str vs
  = if forallb is_str vs then Ok (map text_of vs) else Raise TypeError.
Proof.
  induction vs as [|v vs IH]; [done|].
  cbn [mapM forallb map]. destruct v; try done.
  cbn [Py.as_str rbind is_str andb text_of]. rewrite IH.
  by destruct (forallb is_str vs).
Qed.

Lemma contact_parts_fields fields keys parts :
  Resume.contact_parts (JObj fields) keys parts
  = Ok (parts ++ List.filter Py.truthy
          (map (λ k, match Py.assoc k fields with
                     | Some v => v | None => JStr "" end) keys)).
Proof.
  revert parts. induction keys as [|k keys IH]; intros parts.
  - simpl. by rewrite app_nil_r.
  - cbn [Resume.contact_parts Py.get rbind map List.filter]. rewrite IH.
    destruct (Py.truthy _); [|done]. by rewrite <- app_assoc.
Qed.

(** X9.  The contact line is made of the values of [email], [phone],
    [linkedin] and [github] that are present and truthy, in this order,
    joined by [" | "]; a key that is absent or whose value is empty, null,
    zero or false is skipped.  The call fails with a type error when one
    of the kept values is not a string, and with an attribute error when
    [basics] is not an object. *)
Theorem join_contact_line_cases basics :
  Resume.join_contact_line basics
  = match basics with
    | JObj _ =>
        if forallb is_str (contact_fields basics)
        then Ok (Py.join " | " (map text_of (contact_fields basics)))
        else Raise TypeError
    | _ => Raise AttributeError
    end.
Proof.
  destruct basics as [| | | | |fields]; try done.
  unfold Resume.join_contact_line. rewrite contact_parts_fields.
  cbn [rbind app]. unfold Py.join_values. rewrite mapM_as_str.
  unfold contact_fields. by destruct (forallb is_str _).
Qed.

(** ** Table rows, styles and fonts *)



(** X11.  [make_styles] reads three roles of the font family and no
    other.  When the family has [BOLD], [ITALIC] and [REG] it returns a
    sheet in which Name, Section, HeaderLine, LeftCell and RightCell are
    set in the bold font, Contact, Meta, LeftCellR and RightCellR in the
    italic font and Body in the regular font; when one of the three is
    missing the call fails with the key error of a missing role. *)
Theorem make_styles_reads_three_fonts family :
  (∀ bold italic reg,
      font_assoc "BOLD" family = Some bold →
      font_assoc "ITALIC" family = Some italic →
      font_assoc "REG" family = Some reg →
      ∃ styles,
        Resume.make_styles family = Ok styles ∧
        Forall (λ n, ∃ st, style_at styles n = Ok st ∧ style_name st = n ∧
                           fontName st = bold)
          ["Name"; "Section"; "HeaderLine"; "LeftCell"; "RightCell"] ∧
        Forall (λ n, ∃ st, style_at styles n = Ok st ∧ style_name st = n ∧
                           fontName st = italic)
          ["Contact"; "Meta"; "LeftCellR"; "RightCellR"] ∧
        Forall (λ n, ∃ st, style_at styles n = Ok st ∧ style_name st = n ∧
                           fontName st = reg)
          ["Body"])
  ∧ (∀ k, k ∈ ["BOLD"; "ITALIC"; "REG"] → font_assoc k family = None →
      ∃ k', k' ∈ ["BOLD"; "ITALIC"; "REG"] ∧ font_assoc k' family = None ∧
            Resume.make_styles family = Raise (KeyError k')).
Proof.
  split.
  - intros bold italic reg Hb Hi Hr.
    unfold Resume.make_styles, font_at. rewrite Hb, Hi, Hr.
    eexists. split; [vm_compute; reflexivity|].
    repeat split;
      repeat (apply Forall_cons_2;
              [eexists; split; [vm_compute; reflexivity|by split]|]);
      apply Forall_nil_2.
  - intros k Hk Hnone.
    unfold Resume.make_styles, font_at.
    destruct (font_assoc "BOLD" family) as [bold|] eqn:Hb;
      [|exists "BOLD"; split; [in_list|done]].
    destruct (font_assoc "ITALIC" family) as [italic|] eqn:Hi;
      [|exists "ITALIC"; split; [in_list|done]].
    destruct (font_assoc "REG" family) as [reg|] eqn:Hr;
      [|exists "REG"; split; [in_list|done]].
    repeat (apply elem_of_cons in Hk as [->|Hk]; [congruence|]).
    by apply elem_of_nil in Hk.
Qed.

Lemma make_styles_reads_three_fonts_witness :
  (∃ styles,
     Resume.make_styles
       [("BOLD", "Inter-Bold"); ("REG", "Inter"); ("ITALIC", "Inter-Italic")]
     = Ok styles ∧
     ∃ st, style_at styles "RightCellR" = Ok st ∧ fontName st = "Inter-Italic")
  ∧ Resume.make_styles [("BOLD", "Inter-Bold"); ("REG", "Inter")]
    = Raise (KeyError "ITALIC").
Proof.
  split.
  - destruct (make_styles_reads_three_fonts
                [("BOLD", "Inter-Bold"); ("REG", "Inter");
                 ("ITALIC", "Inter-Italic")]) as [H _].
    destruct (H "Inter-Bold" "Inter-Italic" "Inter" eq_refl eq_refl eq_refl)
      as (styles & Hs & _ & Hi & _).
    exists styles. split; [exact Hs|].
    apply Forall_cons in Hi as [_ Hi]. apply Forall_cons in Hi as [_ Hi].
    apply Forall_cons in Hi as [_ Hi]. apply Forall_cons in Hi as [Hi _].
    destruct Hi as (st & Hst & _ & Hf). exists st. by split.
  - reflexivity.
Defined.

Lemma read_exists fs p c : FS.read fs p = Ok c → FS.exists_ fs p = true.
Proof.
  unfold FS.read, FS.exists_. destruct (FS.resolve fs p) as [l|]; [|done].
  simpl. by destruct (FS.kind_of fs l).
Qed.

(** Closed string concatenations, computed. *)
Ltac norm_strings :=
  repeat match goal with
         | |- context [?a +:+ ?b] =>
             let s := eval vm_compute in (a +:+ b) in
             progress change (a +:+ b) with s
         end.

(** X12.  The resume renderer starts by loading four font files,
    [Inter_18pt-Regular.ttf], [-Bold], [-Italic] and [-BoldItalic], from
    the directory [font] of the working directory.  The registration
    succeeds exactly when each of the four can be read as a font, and the
    family is then Inter; when one of them does not exist, every run
    fails, whatever its arguments, and the file system is left as it
    was. *)
Theorem register_family_needs_every_font fs :
  (Forall (λ p, FS.read fs p = Ok FontData) font_paths →
   Resume.register_family fs "./font" "Inter" = Ok Resume.Inter)
  ∧ (∀ family,
      Resume.register_family fs "./font" "Inter" = Ok family →
      family = Resume.Inter ∧
      Forall (λ p, FS.read fs p = Ok FontData) font_paths)
  ∧ (∀ p args,
      p ∈ font_paths → FS.exists_ fs p = false →
      ∃ e, Resume.program args fs = (Raise e, fs)).
Proof.
  assert (∀ family,
      Resume.register_family fs "./font" "Inter" = Ok family →
      family = Resume.Inter ∧
      Forall (λ p, FS.read fs p = Ok FontData) font_paths) as Hinv.
  { intros family.
    unfold Resume.register_family, font_paths.
    cbn [font_at font_assoc Resume.default_files String.eqb Ascii.eqb
         Bool.eqb rbind map snd].
    norm_strings.
    repeat (match goal with
            | |- context [FS.exists_ fs ?p] =>
                destruct (FS.exists_ fs p); cbn [negb rbind]; [|done]
            | |- context [rbind (FS.read fs ?p)] =>
                destruct (FS.read fs p) as [[]|] eqn:?; cbn [rbind]; try done
            end).
    intros [= <-]. split; [done|].
    repeat (apply Forall_cons_2; [assumption|]). apply Forall_nil_2. }
  split; [|split; [exact Hinv|]].
  - unfold Resume.register_family, font_paths.
    cbn [font_at font_assoc Resume.default_files String.eqb Ascii.eqb
         Bool.eqb rbind map snd].
    norm_strings. intros H.
    apply Forall_cons in H as [H1 H]. apply Forall_cons in H as [H2 H].
    apply Forall_cons in H as [H3 H]. apply Forall_cons in H as [H4 _].
    rewrite (read_exists _ _ _ H1), H1. cbn [negb rbind].
    rewrite (read_exists _ _ _ H2), H2. cbn [negb rbind].
    rewrite (read_exists _ _ _ H3), H3. cbn [negb rbind].
    rewrite (read_exists _ _ _ H4), H4. reflexivity.
  - intros p args Hp Hex. unfold Resume.program.
    destruct (Resume.register_family fs "./font" "Inter") as [family|e] eqn:Hreg;
      [|by exists e].
    destruct (Hinv family eq_refl) as [_ Hall].
    rewrite Forall_forall in Hall. specialize (Hall p Hp).
    apply read_exists in Hall. congruence.
Qed.

Lemma register_family_needs_every_font_witness :
  Resume.register_family sample_fs "./font" "Inter" = Ok Resume.Inter
  ∧ ∃ e, Resume.program {| json_path := "letter.json"; out_path := "r.pdf" |}
           letter_fs = (Raise e, letter_fs).
Proof.
  split.
  - destruct (register_family_needs_every_font sample_fs) as (H & _ & _).
    apply H.
    repeat (apply Forall_cons_2; [vm_compute; reflexivity|]).
    apply Forall_nil_2.
  - destruct (register_family_needs_every_font letter_fs) as (_ & _ & H).
    apply (H "./font/Inter_18pt-Bold.ttf"); [|vm_compute; reflexivity].
    unfold font_paths. cbn [map Resume.default_files snd]. norm_strings.
    in_list.
Defined.

(** ** A well-typed resume always renders *)





















(** ** The cover letter, field by field *)








(** ** Invariants of the resume story *)

(** X16.  The name, when [basics] has a truthy one, is the first block
    of the story and its only paragraph in the Name style; without a
    name the story has no paragraph in that style. *)
Theorem name_heads_the_story resume story :
  resume_story resume = Ok story →
  ∃ basics name,
    Py.get resume "basics" (JObj []) = Ok basics ∧
    Py.get basics "name" (JStr "") = Ok name ∧
    if Py.truthy name
    then (∃ rest,
            story = FParagraph (para (style_of "Name") (text_of name)) :: rest)
         ∧ texts_in "Name" story = [text_of name]
    else texts_in "Name" story = [].
Proof.
  intros (edus & exps & projs & skills & h & ed & ex & pr & sk
          & _ & _ & _ & _ & Hh & Hed & Hex & Hpr & Hsk & ->)
    %resume_story_shape.
  apply run_header in Hh
    as (basics & name & contact & status & Hb & Hn & _ & _ & _ & _ & ->).
  exists basics, name. do 2 (split; [done|]).
  assert (Hrest : texts_in "Name" (ed ++ ex ++ pr ++ sk) = []).
  { rewrite !texts_in_app.
    rewrite (section_block_texts entry_styles "Name" _ _ _ ltac:(done)
               ltac:(unfold entry_styles; not_in_list) Hed),
      (section_block_texts entry_styles "Name" _ _ _ ltac:(done)
         ltac:(unfold entry_styles; not_in_list) Hex),
      (section_block_texts entry_styles "Name" _ _ _ ltac:(done)
         ltac:(unfold entry_styles; not_in_list) Hpr),
      (section_block_texts ["SkillLine"] "Name" _ _ _ ltac:(done)
         ltac:(not_in_list) Hsk).
    done. }
  rewrite (texts_in_app "Name" _ (ed ++ ex ++ pr ++ sk)), Hrest. clear Hrest.
  rewrite !texts_in_app, app_nil_r.
  destruct (Py.truthy name).
  - split; [eexists; reflexivity|].
    destruct (String.eqb contact ""); reflexivity.
  - destruct (String.eqb contact ""); reflexivity.
Qed.

Lemma name_heads_the_story_witness :
  (∃ rest,
     sam_lee_story = FParagraph (para (style_of "Name") "Sam Lee") :: rest)
  ∧ texts_in "Name" sam_lee_story = ["Sam Lee"].
Proof.
  destruct (name_heads_the_story sam_lee sam_lee_story sam_lee_story_ok)
    as (basics & name & Hb & Hn & H).
  vm_compute in Hb. injection Hb as <-.
  vm_compute in Hn. injection Hn as <-.
  exact H.
Defined.

Lemma section_block_styled names title v o :
  section_block names title v o → styled_in ("Section" :: names) o.
Proof.
  unfold section_block. destruct (Py.truthy v); [|intros ->; apply styled_in_nil].
  intros (body & -> & Hb). apply styled_in_app.
  - eapply styled_in_weaken; [|apply styled_in_section_heading].
    intros x [->|Hx]%elem_of_cons; [in_list|by apply elem_of_nil in Hx].
  - eapply styled_in_weaken; [|exact Hb]. intros x Hx. by right.
Qed.

Lemma body_not_blank_styled names o :
  "Body" ∉ names → styled_in names o → Forall body_not_blank (all_paragraphs o).
Proof.
  intros Hn Ho. eapply Forall_impl; [exact Ho|].
  intros p Hp Hb. exfalso. apply Hn. rewrite <- Hb. exact Hp.
Qed.

Lemma all_paragraphs_app a b :
  all_paragraphs (a ++ b) = all_paragraphs a ++ all_paragraphs b.
Proof. unfold all_paragraphs. by rewrite map_app, concat_app. Qed.

Lemma body_not_blank_table w left right Bold t :
  Resume.table_line Resume.Inter w left right resume_styles Bold = Ok t →
  Forall body_not_blank (all_paragraphs [FTable t]).
Proof.
  intros Ht. apply (body_not_blank_styled cell_styles).
  - unfold cell_styles. not_in_list.
  - apply table_line_inv in Ht as (_ & _ & Hc).
    unfold styled_in, all_paragraphs. cbn [map paragraphs_of concat].
    rewrite Hc. cbn [concat app].
    apply Forall_cons_2; [|apply Forall_cons_2; [|apply Forall_nil_2]];
      cbn [style para]; rewrite style_name_of by (destruct Bold; in_list);
      destruct Bold; unfold cell_styles; in_list.
Qed.

Lemma body_not_blank_bullets e o :
  Story.run (Resume.bullets_of resume_styles e) = Ok o →
  Forall body_not_blank (all_paragraphs o).
Proof.
  intros (bullets & _ & H)%run_bullets_of.
  destruct (Py.truthy bullets); [|subst; apply Forall_nil_2].
  destruct H as (l & Hl & ->).
  apply bullet_list_items in Hl as (bs & _ & Hits).
  unfold all_paragraphs. simpl. rewrite app_nil_r.
  apply Forall_forall. intros p Hp _.
  by destruct (bullet_items_sound _ _ _ Hits p Hp) as (? & _ & _).
Qed.

Lemma body_not_blank_education_entry w ed o :
  Story.run (Resume.education_entry Resume.Inter w resume_styles ed) = Ok o →
  Forall body_not_blank (all_paragraphs o).
Proof.
  intros (? & ? & ? & ? & top & sub & _ & _ & _ & _ & Ht & Hs & ->)
    %run_education_entry.
  change [FTable top; FTable sub; FSpacer (1 # 1) (1 # 1)]
    with ([FTable top] ++ [FTable sub] ++ [FSpacer (1 # 1) (1 # 1)]).
  rewrite !all_paragraphs_app.
  apply Forall_app_2; [by eapply body_not_blank_table|].
  apply Forall_app_2; [by eapply body_not_blank_table|].
  apply Forall_nil_2.
Qed.

Lemma body_not_blank_experience_entry w e o :
  Story.run (Resume.experience_entry Resume.Inter w resume_styles e) = Ok o →
  Forall body_not_blank (all_paragraphs o).
Proof.
  intros (? & ? & ? & ? & top & sub & bl & _ & _ & _ & _ & Ht & Hs & Hb & ->)
    %run_experience_entry.
  change ([FTable top; FTable sub] ++ bl ++ [FSpacer (1 # 1) (1 # 1)])
    with ([FTable top] ++ [FTable sub] ++ bl ++ [FSpacer (1 # 1) (1 # 1)]).
  rewrite !all_paragraphs_app.
  apply Forall_app_2; [by eapply body_not_blank_table|].
  apply Forall_app_2; [by eapply body_not_blank_table|].
  apply Forall_app_2; [by eapply body_not_blank_bullets|].
  apply Forall_nil_2.
Qed.

Lemma body_not_blank_project_entry w p o :
  Story.run (Resume.project_entry Resume.Inter w resume_styles p) = Ok o →
  Forall body_not_blank (all_paragraphs o).
Proof.
  intros (? & ? & top & bl & _ & _ & Ht & Hb & ->)%run_project_entry.
  rewrite !all_paragraphs_app.
  apply Forall_app_2; [by eapply body_not_blank_table|].
  apply Forall_app_2; [by eapply body_not_blank_bullets|].
  apply Forall_nil_2.
Qed.

Lemma body_not_blank_section title xs entry o :
  (∀ x, appending (entry resume_styles x)) →
  (∀ x o', Story.run (entry resume_styles x) = Ok o' →
           Forall body_not_blank (all_paragraphs o')) →
  Story.run (Resume.section resume_styles title xs entry) = Ok o →
  Forall body_not_blank (all_paragraphs o).
Proof.
  intros Ha He Hrun. apply run_section in Hrun; [|done].
  destruct (Py.truthy xs); [|subst; apply Forall_nil_2].
  destruct Hrun as (entries & os & _ & Hos & ->).
  rewrite all_paragraphs_app. apply Forall_app_2.
  - apply (body_not_blank_styled ["Section"]); [not_in_list|].
    apply styled_in_section_heading.
  - apply (mapM_Forall _ (λ o', Forall body_not_blank (all_paragraphs o')))
      in Hos; [|exact He].
    induction Hos as [|o' os' Ho' _ IH]; [apply Forall_nil_2|].
    cbn [concat]. rewrite all_paragraphs_app. by apply Forall_app_2.
Qed.

Lemma texts_in_Forall (P : paragraph → Prop) (Q : string → Prop) n o :
  (∀ p, P p → style_name (style p) = n → Q (text p)) →
  Forall P (all_paragraphs o) → Forall Q (texts_in n o).
Proof.
  intros HPQ. unfold texts_in.
  induction 1 as [|p ps Hp _ IH]; [apply Forall_nil_2|].
  cbn [List.filter]. destruct (String.eqb _ n) eqn:He; [|exact IH].
  cbn [map]. apply Forall_cons_2; [|exact IH].
  apply HPQ; [done|]. by apply String.eqb_eq.
Qed.

(** X17.  Every paragraph of a resume story is set in one of nine
    styles; the styles Meta and HeaderLine, which [make_styles] defines,
    are used by no paragraph; and no paragraph in the Body style, the
    style of the bullets, has a blank text. *)
Theorem resume_story_styles resume story :
  resume_story resume = Ok story →
  styled_in story_styles story
  ∧ texts_in "Meta" story = [] ∧ texts_in "HeaderLine" story = []
  ∧ Forall (λ t, isblank t = false) (texts_in "Body" story).
Proof.
  intros Hstory.
  assert (Hst : styled_in story_styles story).
  { apply resume_story_shape in Hstory
      as (edus & exps & projs & skills & h & ed & ex & pr & sk
          & _ & _ & _ & _ & Hh & Hed & Hex & Hpr & Hsk & ->).
    apply styled_in_header in Hh.
    apply section_block_styled in Hed, Hex, Hpr, Hsk.
    repeat apply styled_in_app;
      (eapply styled_in_weaken; [|eassumption]);
      unfold story_styles, entry_styles; sub_list. }
  split; [exact Hst|].
  split; [eapply styled_in_texts; [exact Hst|unfold story_styles; not_in_list]|].
  split; [eapply styled_in_texts; [exact Hst|unfold story_styles; not_in_list]|].
  apply resume_story_inv in Hstory
    as (h & edus & ed & exps & ex & projs & pr & sk
        & Hh & _ & Hed & _ & Hex & _ & Hpr & Hsk & ->).
  apply (texts_in_Forall body_not_blank); [intros p Hp; exact Hp|].
  rewrite !all_paragraphs_app.
  apply Forall_app_2; [|apply Forall_app_2; [|apply Forall_app_2;
    [|apply Forall_app_2]]].
  - apply (body_not_blank_styled ["Name"; "Contact"]); [not_in_list|].
    by apply styled_in_header in Hh.
  - eapply body_not_blank_section; [| |exact Hed]; [intros; appending|].
    intros x o'. apply body_not_blank_education_entry.
  - eapply body_not_blank_section; [| |exact Hex]; [intros; appending|].
    intros x o'. apply body_not_blank_experience_entry.
  - eapply body_not_blank_section; [| |exact Hpr]; [intros; appending|].
    intros x o'. apply body_not_blank_project_entry.
  - apply section_block_skills in Hsk as (skills & _ & Hsk).
    apply section_block_styled in Hsk.
    apply (body_not_blank_styled ["Section"; "SkillLine"]); [not_in_list|done].
Qed.

Lemma resume_story_styles_witness :
  texts_in "Body" sam_lee_story = ["Built X"]
  ∧ Forall (λ t, isblank t = false) (texts_in "Body" sam_lee_story).
Proof.
  split; [reflexivity|].
  by destruct (resume_story_styles sam_lee sam_lee_story sam_lee_story_ok)
    as (_ & _ & _ & H).
Defined.

(** ** The date line *)



(** ** Edge cases of the skills block *)




(** ** Documents that are not objects *)

Lemma resume_story_not_object v :
  is_obj v = false → resume_story v = Raise AttributeError.
Proof.
  intros Hv. unfold resume_story.
  rewrite run_build_story, make_styles_Inter. cbn [rbind].
  unfold Resume.header. rewrite run_eval_bind. by destruct v.
Qed.

Lemma build_pdf_raise resume out fs e :
  resume_story resume = Raise e →
  Resume.build_pdf Resume.Inter Resume.module_avail_width resume out fs
  = (Raise e, fs).
Proof.
  unfold resume_story, Resume.build_pdf.
  destruct (Story.run (Resume.build_story _ _ resume)) as [st'|e'];
    intros [= ->]. reflexivity.
Qed.

(** X20.  A JSON document that is not an object (a list, a string, a
    number, a boolean or null) is rejected by both programs before
    anything is written: the resume renderer fails on its first [get]
    with an attribute error, the cover-letter renderer on its first
    subscript with a type error, and the file system stays as it was. *)
Theorem non_object_document_is_rejected v :
  is_obj v = false →
  (∀ args fs family,
      Resume.register_family fs "./font" "Inter" = Ok family →
      FS.read fs (json_path args) = Ok (JsonText v) →
      Resume.program args fs = (Raise AttributeError, fs))
  ∧ (∀ today args fs,
      FS.read fs (json_path args) = Ok (JsonText v) →
      CoverLetter.program today args fs = (Raise TypeError, fs)).
Proof.
  intros Hv. split.
  - intros args fs family Hf Hr.
    pose proof (register_family_Inter _ _ Hf) as ->.
    unfold Resume.program.
    destruct (Resume.register_family _ _ _) as [f|];
      [injection Hf as ->|discriminate Hf].
    unfold Resume.main.
    destruct (FS.read fs (json_path args)) as [c|];
      [injection Hr as ->|discriminate Hr].
    apply build_pdf_raise. by apply resume_story_not_object.
  - intros today args fs Hr.
    unfold CoverLetter.program, CoverLetter.json_to_pdf. rewrite Hr.
    by destruct v.
Qed.

Lemma non_object_document_is_rejected_witness :
  Resume.program {| json_path := "doc.json"; out_path := "r.pdf" |}
    list_document_fs
  = (Raise AttributeError, list_document_fs)
  ∧ CoverLetter.program nov_9_2025
      {| json_path := "doc.json"; out_path := "out/cl.pdf" |} list_document_fs
    = (Raise TypeError, list_document_fs).
Proof.
  destruct (non_object_document_is_rejected (JArr [JStr "x"]) eq_refl)
    as [H1 H2].
  split.
  - apply (H1 _ _ Resume.Inter); vm_compute; reflexivity.
  - apply H2. vm_compute. reflexivity.
Defined.

(** ** Running the resume renderer again *)










(** ** Keys the renderer does not read *)

Lemma get_cons_ne fields k v key d :
  key ≠ k →
  Py.get (JObj ((k, v) :: fields)) key d = Py.get (JObj fields) key d.
Proof.
  intros Hne. cbn [Py.get Py.assoc].
  destruct (String.eqb key k) eqn:He; [|done].
  by apply String.eqb_eq in He.
Qed.

Lemma run_header_basics styles r r' b b' :
  Py.get r "basics" (JObj []) = Ok b →
  Py.get r' "basics" (JObj []) = Ok b' →
  (∀ key, key ∈ basics_keys → Py.get b' key (JStr "") = Py.get b key (JStr "")) →
  Story.run (Resume.header styles r') = Story.run (Resume.header styles r).
Proof.
  intros Hb Hb' Hk. unfold Resume.header.
  rewrite !run_eval_bind, Hb, Hb'. cbn [rbind].
  rewrite !run_eval_bind, (Hk "name") by (unfold basics_keys; in_list).
  destruct (Py.get b "name" _) as [name|]; [|done]. cbn [rbind].
  rewrite !run_eval_bind.
  assert (Hj : Resume.join_contact_line b' = Resume.join_contact_line b).
  { unfold Resume.join_contact_line. cbn [Resume.contact_parts].
    by rewrite (Hk "email"), (Hk "phone"), (Hk "linkedin"), (Hk "github")
      by (unfold basics_keys; in_list). }
  rewrite Hj. destruct (Resume.join_contact_line b) as [contact|]; [|done].
  cbn [rbind].
  by rewrite !run_eval_bind, (Hk "status") by (unfold basics_keys; in_list).
Qed.

Lemma assoc_app_cons key f1 k0 x f2 :
  Py.assoc key (f1 ++ (k0, x) :: f2)
  = match Py.assoc key f1 with
    | Some v => Some v
    | None => if String.eqb key k0 then Some x else Py.assoc key f2
    end.
Proof.
  induction f1 as [|[k' v'] f1 IH]; [done|].
  cbn [app Py.assoc]. by destruct (String.eqb key k').
Qed.

Lemma get_middle_ne f1 k0 x y f2 key d :
  key ≠ k0 →
  Py.get (JObj (f1 ++ (k0, x) :: f2)) key d
  = Py.get (JObj (f1 ++ (k0, y) :: f2)) key d.
Proof.
  intros Hne. cbn [Py.get]. rewrite !assoc_app_cons.
  destruct (String.eqb key k0) eqn:He; [|done].
  by apply String.eqb_eq in He.
Qed.

(** X22.  The resume renderer reads five keys of the document and six
    keys of [basics]; any other key is ignored.  Adding a key that is not
    one of [basics], [education], [experience], [projects] and [skills]
    to the document, or a key that is not one of [name], [email],
    [phone], [linkedin], [github] and [status] to [basics], changes
    neither the story nor the error of the run. *)
Theorem unread_keys_are_ignored :
  (∀ fields k v,
      k ∉ map fst resume_defaults →
      resume_story (JObj ((k, v) :: fields)) = resume_story (JObj fields))
  ∧ (∀ f1 f2 bfields k v,
      k ∉ basics_keys →
      resume_story (JObj (f1 ++ ("basics", JObj ((k, v) :: bfields)) :: f2))
      = resume_story (JObj (f1 ++ ("basics", JObj bfields) :: f2))).
Proof.
  split.
  - intros fields k v Hk.
    apply resume_story_ext; apply get_cons_ne; intros <-; apply Hk;
      cbn [map fst resume_defaults]; in_list.
  - intros f1 f2 bfields k v Hk. unfold resume_story.
    rewrite !run_build_story.
    destruct (Resume.make_styles Resume.Inter) as [styles|]; [|done].
    cbn [rbind].
    set (r := JObj (f1 ++ ("basics", JObj bfields) :: f2)).
    set (r' := JObj (f1 ++ ("basics", JObj ((k, v) :: bfields)) :: f2)).
    assert (Hh : Story.run (Resume.header styles r')
                 = Story.run (Resume.header styles r)).
    { destruct (Py.assoc "basics" f1) as [b|] eqn:Hb.
      - apply (run_header_basics styles r r' b b); [..|done];
          unfold r, r'; cbn [Py.get]; by rewrite assoc_app_cons, Hb.
      - apply (run_header_basics styles r r' (JObj bfields)
                 (JObj ((k, v) :: bfields)));
          [unfold r; cbn [Py.get]; by rewrite assoc_app_cons, Hb
          |unfold r'; cbn [Py.get]; by rewrite assoc_app_cons, Hb|].
        intros key Hkey. apply get_cons_ne. intros ->. by apply Hk. }
    rewrite Hh.
    destruct (Story.run (Resume.header styles r)); [|done]. cbn [rbind].
    unfold r, r'.
    rewrite !(get_middle_ne f1 "basics" (JObj ((k, v) :: bfields))
                (JObj bfields)) by done.
    by rewrite (skills_section_ext _ styles
                  (JObj (f1 ++ ("basics", JObj bfields) :: f2))
                  (JObj (f1 ++ ("basics", JObj ((k, v) :: bfields)) :: f2))
                  (get_middle_ne f1 "basics" _ _ f2 "skills" _ ltac:(done))).
Qed.

Lemma unread_keys_are_ignored_witness :
  resume_story
    (JObj [("summary", JStr "Ten years of Rust");
           ("basics", JObj [("name", JStr "Jane Doe")]);
           ("skills", JObj [("Programming", JArr [JStr "Python"; JStr "Go"])])])
  = Ok jane_doe_story
  ∧ resume_story
      (JObj [("basics", JObj [("pronouns", JStr "they"); ("name", JStr "Jane Doe")]);
             ("skills", JObj [("Programming", JArr [JStr "Python"; JStr "Go"])])])
    = Ok jane_doe_story.
Proof.
  destruct unread_keys_are_ignored as [H1 H2]. split.
  - rewrite H1; [exact jane_doe_story_ok|].
    cbn [map fst resume_defaults]. not_in_list.
  - refine (eq_trans
              (H2 [] [("skills", JObj [("Programming",
                                        JArr [JStr "Python"; JStr "Go"])])]
                 [("name", JStr "Jane Doe")] "pronouns" (JStr "they") _)
              jane_doe_story_ok).
    unfold basics_keys. not_in_list.
Defined.
